(** * jellyfin-suggested: the playlist generator, embedded and verified

    A shallow embedding of [jellyfin_suggested.py].  The program talks to
    two HTTP services (the Jellyfin server and TMDB), joins and ranks what
    they answer, and writes a playlist back.

    Modelling choices, all read off the source:
    - JSON objects are records.  A field the code reads with [d[k]] is a
      plain field (the API always sends it); a field read with [d.get(k)]
      is an [option], [None] when the key is missing.  A value that is
      there has the type the API documents: identifiers and names are
      strings, ratings and vote counts are numbers.
    - Python [int] is [Z]; ratings ([float] or [int] in the JSON body) are
      finite and compared exactly, so they are rationals [Q].  NaN and the
      infinities are outside the model.
    - [dict] is [gmap], [set] is [gset], [list] is [list].
    - Every [await session.get/post/delete] is one [call]: it hands the
      request to the environment, gets a reply and records the exchange.
      The environment is a parameter ([World], [http]); nothing is assumed
      about it.
    - Exceptions are an error result that stops the computation and keeps
      the exchanges made so far.
    - [int(s)] and [float(s)] on strings are the interpreter's; they are
      parameters [py_int] and [py_float], [None] standing for ValueError. *)

From Stdlib Require Import ZArith QArith String Ascii List Lia Permutation Sorted.
From stdpp Require Import base option list sorting gmap strings.

Local Open Scope string_scope.
Local Open Scope list_scope.
Local Open Scope Z_scope.

(** ** Python helpers *)

(** Truth value of a [str]: only the empty string is falsy. *)
Definition truthy (s : string) : bool :=
  match s with
  | EmptyString => false
  | String _ _ => true
  end.

(** Truth value of [d.get(k)] when the value, if present, is a [str]. *)
Definition truthy_opt (o : option string) : bool :=
  match o with
  | Some s => truthy s
  | None => false
  end.

(** [l[:n]]: a negative bound counts from the end, and both are clamped. *)
Definition slice_to {A : Type} (l : list A) (n : Z) : list A :=
  if n <? 0
  then take (Z.to_nat (Z.of_nat (length l) + n)) l
  else take (Z.to_nat n) l.

(** [s.rstrip('/')] *)
Fixpoint rstrip_slash (s : string) : string :=
  match s with
  | EmptyString => EmptyString
  | String c s' =>
      match rstrip_slash s' with
      | EmptyString => if Ascii.eqb c "/" then EmptyString else String c EmptyString
      | r => String c r
      end
  end.

(** [x in l] for a list of strings. *)
Definition mem_string (x : string) (l : list string) : bool :=
  existsb (String.eqb x) l.

(** ** Data model *)

(** The [Config] dataclass (lines 23-35). *)
Record Config := mkConfig {
  jellyfin_url : string;
  jellyfin_api_key : string;
  tmdb_api_key : string;
  playlist_name : string;
  max_watched_items : Z;
  max_similar_per_item : Z;
  max_playlist_items : Z;
  min_tmdb_rating : Q;
  min_tmdb_votes : Z;
  request_timeout : Z
}.

(** A user object of [GET /Users]: [user['Id']], [user['Name']]. *)
Record User := mkUser {
  user_Id : string;
  user_Name : string
}.

(** An item object of the Jellyfin API (library entry, watched item,
    series, playlist, playlist entry).  [Tmdb] is
    [item.get('ProviderIds', {}).get('Tmdb')]; [PlaylistItemId] is read on
    playlist entries only. *)
Record Item := mkItem {
  Id : string;
  Name : string;
  Tmdb : option string;
  SeriesId : option string;
  PlaylistItemId : string
}.

(** One element of TMDB's [results] array. *)
Record TmdbResult := mkTmdbResult {
  id : Z;
  title : option string;
  name : option string;
  vote_average : option Q;
  vote_count : option Z
}.

(** The dict [get_similar] builds for a result it keeps (lines 204-208). *)
Record Similar := mkSimilar {
  sim_id : Z;
  sim_title : option string;
  sim_vote_average : Q
}.

(** The dict appended to [suggested_items] (lines 292-297, 308-313). *)
Record Suggestion := mkSuggestion {
  sug_Id : string;
  sug_Name : string;
  sug_Type : string;
  sug_Score : Q
}.

(** ** Requests, replies and the exchange log *)

(** The ten HTTP requests the program issues.  Identifier lists travel
    comma-joined on the wire ([','.join(ids)]). *)
Inductive Request :=
| GetUsers
| GetWatchedItems (userId includeItemTypes : string) (limit : Z)
| GetLibraryItems (includeItemTypes : string)
| GetUserPlaylists (userId : string)
| GetItem (series_id userId : string)
| PostPlaylists (userId name : string) (ids : list string)
| GetPlaylistItems (playlist_id userId : string)
| DeletePlaylistItems (playlist_id : string) (entryIds : list string)
| PostPlaylistItems (playlist_id userId : string) (ids : list string)
| GetTmdbSimilar (endpoint : string) (tmdb_id : Z).

(** What [await resp.json()] yields for each request, already projected
    the way the code projects it: [data.get('Items', [])],
    [data.get('results', [])], [data.get('Id')]. *)
Definition BodyOf (r : Request) : Type :=
  match r with
  | GetUsers => list User
  | GetWatchedItems _ _ _ => list Item
  | GetLibraryItems _ => list Item
  | GetUserPlaylists _ => list Item
  | GetItem _ _ => Item
  | PostPlaylists _ _ _ => option string
  | GetPlaylistItems _ _ => list Item
  | DeletePlaylistItems _ _ => unit
  | PostPlaylistItems _ _ _ => unit
  | GetTmdbSimilar _ _ => list TmdbResult
  end.

(** A reply is a status line with a body, or no reply at all (connection
    error, timeout: aiohttp raises). *)
Inductive Reply (A : Type) :=
| Answer (status : Z) (json : A)
| Dropped.
Arguments Answer {A} status json.
Arguments Dropped {A}.

Inductive Event :=
| Ev (r : Request) (a : Reply (BodyOf r)).

Definition ev_request (e : Event) : Request :=
  match e with Ev r _ => r end.

(** The three requests that change server-side state (create, clear,
    append). *)
Definition is_write (r : Request) : bool :=
  match r with
  | PostPlaylists _ _ _ | DeletePlaylistItems _ _ | PostPlaylistItems _ _ _ => true
  | _ => false
  end.

(** The results a TMDB exchange on [endpoint] delivered: the body of a 200
    reply. *)
Definition ev_results (endpoint : string) (e : Event) : list TmdbResult :=
  match e with
  | Ev r a =>
      match r as r0 return Reply (BodyOf r0) -> list TmdbResult with
      | GetTmdbSimilar ep _ => fun a0 =>
          match a0 with
          | Answer status body =>
              if String.eqb ep endpoint && (status =? 200) then body else []
          | Dropped => []
          end
      | _ => fun _ => []
      end a
  end.

(** Everything the provider delivered on [endpoint] during a run. *)
Definition delivered (endpoint : string) (evs : list Event) : list TmdbResult :=
  flat_map (ev_results endpoint) evs.

(** ** A reference environment

    A small model of the two services, used to run the program on concrete
    inputs: a Jellyfin server holding users, a library, play histories and
    playlists, and a TMDB table.  The three status fields let a write be
    refused: the server then answers that status and changes nothing. *)
Module Sim.

Record Playlist := mkPlaylist {
  pl_Id : string;
  pl_Name : string;
  pl_owner : string;
  pl_entries : list Item
}.

Record Server := mkServer {
  sv_users : list User;
  sv_movies : list Item;
  sv_series : list Item;
  sv_played : list (string * string * list Item);
  sv_playlists : list Playlist;
  sv_similar : list (string * Z * list TmdbResult);
  sv_create_status : Z;
  sv_delete_status : Z;
  sv_append_status : Z
}.

Definition with_playlists (s : Server) (pls : list Playlist) : Server :=
  {| sv_users := sv_users s;
     sv_movies := sv_movies s;
     sv_series := sv_series s;
     sv_played := sv_played s;
     sv_playlists := pls;
     sv_similar := sv_similar s;
     sv_create_status := sv_create_status s;
     sv_delete_status := sv_delete_status s;
     sv_append_status := sv_append_status s |}.

Definition played (s : Server) (user kind : string) : list Item :=
  match List.find (fun e => String.eqb (fst (fst e)) user && String.eqb (snd (fst e)) kind)
                  (sv_played s) with
  | Some e => snd e
  | None => []
  end.

Definition library (s : Server) (kind : string) : list Item :=
  if String.eqb kind "Movie" then sv_movies s
  else if String.eqb kind "Series" then sv_series s
  else [].

Definition similar (s : Server) (endpoint : string) (k : Z) : option (list TmdbResult) :=
  match List.find (fun e => String.eqb (fst (fst e)) endpoint && (snd (fst e) =? k))
                  (sv_similar s) with
  | Some e => Some (snd e)
  | None => None
  end.

Definition playlist_item (p : Playlist) : Item :=
  {| Id := pl_Id p; Name := pl_Name p; Tmdb := None; SeriesId := None;
     PlaylistItemId := "" |}.

Definition entry_of (item_id : string) : Item :=
  {| Id := item_id; Name := item_id; Tmdb := None; SeriesId := None;
     PlaylistItemId := "entry-" +:+ item_id |}.

Definition find_playlist (s : Server) (pid : string) : option Playlist :=
  List.find (fun p => String.eqb (pl_Id p) pid) (sv_playlists s).

Definition entries (s : Server) (pid : string) : list Item :=
  match find_playlist s pid with
  | Some p => pl_entries p
  | None => []
  end.

(** The item identifiers a playlist holds, in order. *)
Definition contents (s : Server) (pid : string) : list string :=
  map Id (entries s pid).

Definition update_entries (f : list Item -> list Item) (pid : string) (p : Playlist)
  : Playlist :=
  if String.eqb (pl_Id p) pid
  then {| pl_Id := pl_Id p; pl_Name := pl_Name p; pl_owner := pl_owner p;
          pl_entries := f (pl_entries p) |}
  else p.

Definition nobody : Item :=
  {| Id := ""; Name := ""; Tmdb := None; SeriesId := None; PlaylistItemId := "" |}.

Definition http (r : Request) (s : Server) : Reply (BodyOf r) * Server :=
  match r as r0 return Reply (BodyOf r0) * Server with
  | GetUsers => (Answer 200 (sv_users s), s)
  | GetWatchedItems user kind limit =>
      (Answer 200 (take (Z.to_nat limit) (played s user kind)), s)
  | GetLibraryItems kind => (Answer 200 (library s kind), s)
  | GetUserPlaylists user =>
      (Answer 200 (map playlist_item
                       (List.filter (fun p => String.eqb (pl_owner p) user) (sv_playlists s))),
       s)
  | GetItem series_id _ =>
      match List.find (fun i => String.eqb (Id i) series_id) (sv_series s) with
      | Some i => (Answer 200 i, s)
      | None => (Answer 404 nobody, s)
      end
  | PostPlaylists user name ids =>
      if sv_create_status s =? 200
      then
        let pid := "playlist-" +:+ user +:+ "-" +:+ name in
        (Answer 200 (Some pid),
         with_playlists s (sv_playlists s ++
           [{| pl_Id := pid; pl_Name := name; pl_owner := user;
               pl_entries := map entry_of ids |}]))
      else (Answer (sv_create_status s) None, s)
  | GetPlaylistItems pid _ =>
      match find_playlist s pid with
      | Some p => (Answer 200 (pl_entries p), s)
      | None => (Answer 404 [], s)
      end
  | DeletePlaylistItems pid entry_ids =>
      match find_playlist s pid with
      | Some _ =>
          if sv_delete_status s =? 204
          then (Answer 204 tt,
                with_playlists s
                  (map (update_entries
                          (List.filter (fun e => negb (mem_string (PlaylistItemId e) entry_ids)))
                          pid)
                       (sv_playlists s)))
          else (Answer (sv_delete_status s) tt, s)
      | None => (Answer 404 tt, s)
      end
  | PostPlaylistItems pid _ ids =>
      match find_playlist s pid with
      | Some _ =>
          if sv_append_status s =? 204
          then (Answer 204 tt,
                with_playlists s
                  (map (update_entries (fun es => es ++ map entry_of ids) pid)
                       (sv_playlists s)))
          else (Answer (sv_append_status s) tt, s)
      | None => (Answer 404 tt, s)
      end
  | GetTmdbSimilar endpoint k =>
      match similar s endpoint k with
      | Some results => (Answer 200 results, s)
      | None => (Answer 404 [], s)
      end
  end.

(** [int(s)] on plain decimal numerals, with an optional minus sign. *)
Fixpoint digits (s : string) (acc : Z) : option Z :=
  match s with
  | EmptyString => Some acc
  | String c s' =>
      let n := Z.of_nat (nat_of_ascii c) in
      if (48 <=? n) && (n <=? 57) then digits s' (10 * acc + (n - 48)) else None
  end.

Definition py_int (s : string) : option Z :=
  match s with
  | EmptyString => None
  | String "-" (String c s') => option_map Z.opp (digits (String c s') 0)
  | String _ _ => digits s 0
  end.

(** [float(s)] on the same numerals. *)
Definition py_float (s : string) : option Q :=
  option_map inject_Z (py_int s).

End Sim.

(** ** Sample data

    One user, a library of six movies and three series, and the TMDB
    answers for what she watched. *)
Module Demo.

Definition cfg : Config :=
  {| jellyfin_url := "http://jellyfin:8096";
     jellyfin_api_key := "key";
     tmdb_api_key := "tmdb";
     playlist_name := "Suggested For You";
     max_watched_items := 20;
     max_similar_per_item := 5;
     max_playlist_items := 3;
     min_tmdb_rating := 6 # 1;
     min_tmdb_votes := 50;
     request_timeout := 30 |}.

Definition item (i n : string) (t : option string) : Item :=
  {| Id := i; Name := n; Tmdb := t; SeriesId := None; PlaylistItemId := "" |}.

Definition episode (i n series : string) : Item :=
  {| Id := i; Name := n; Tmdb := None; SeriesId := Some series; PlaylistItemId := "" |}.

Definition hit (k : Z) (t : string) (avg : Q) (votes : Z) : TmdbResult :=
  {| id := k; title := Some t; name := None;
     vote_average := Some avg; vote_count := Some votes |}.

Definition alice : User := {| user_Id := "u1"; user_Name := "alice" |}.

Definition heat := item "m100" "Heat" (Some "100").
Definition ronin := item "m101" "Ronin" (Some "101").
Definition home_video := item "m0" "Home video" None.

Definition movies : list Item :=
  [heat; ronin; home_video;
   item "mA" "Collateral" (Some "1");
   item "mC" "Thief" (Some "3");
   item "mD" "Sicario" (Some "4")].

Definition the_wire := item "s200" "The Wire" (Some "200").

Definition series : list Item :=
  [the_wire;
   item "sT" "Treme" (Some "5");
   item "sU" "The Shield" (Some "6")].

(** What TMDB holds as similar to Heat, in its order. *)
Definition heat_results : list TmdbResult :=
  [hit 1 "Collateral" (8 # 1) 200;
   hit 2 "Miami Vice" (5 # 1) 200;
   hit 3 "Thief" (7 # 1) 10;
   hit 101 "Ronin" (9 # 1) 500].

Definition similar_table : list (string * Z * list TmdbResult) :=
  [("movie", 100, heat_results);
   ("movie", 101, [hit 1 "Collateral" (8 # 1) 200;
                   hit 4 "Sicario" (8 # 1) 100]);
   ("tv", 200, [hit 5 "Treme" (9 # 1) 300;
                hit 6 "The Shield" (8 # 1) 60])].

Definition old_playlist : Sim.Playlist :=
  {| Sim.pl_Id := "p1"; Sim.pl_Name := "Suggested For You"; Sim.pl_owner := "u1";
     Sim.pl_entries := map Sim.entry_of ["mA"; "mC"; "sU"] |}.

Definition server : Sim.Server :=
  {| Sim.sv_users := [alice];
     Sim.sv_movies := movies;
     Sim.sv_series := series;
     Sim.sv_played :=
       [("u1", "Movie", [heat; home_video; ronin]);
        ("u1", "Episode", [episode "e1" "The Target" "s200";
                           episode "e2" "The Detail" "s200"])];
     Sim.sv_playlists := [old_playlist];
     Sim.sv_similar := similar_table;
     Sim.sv_create_status := 200;
     Sim.sv_delete_status := 204;
     Sim.sv_append_status := 204 |}.

(** The same server with the clear refused. *)
Definition server_no_clear : Sim.Server :=
  {| Sim.sv_users := [alice];
     Sim.sv_movies := movies;
     Sim.sv_series := series;
     Sim.sv_played := Sim.sv_played server;
     Sim.sv_playlists := [old_playlist];
     Sim.sv_similar := similar_table;
     Sim.sv_create_status := 200;
     Sim.sv_delete_status := 500;
     Sim.sv_append_status := 204 |}.

(** A newcomer's server: nothing played yet. *)
Definition server_unplayed : Sim.Server :=
  {| Sim.sv_users := [alice];
     Sim.sv_movies := movies;
     Sim.sv_series := series;
     Sim.sv_played := [];
     Sim.sv_playlists := [old_playlist];
     Sim.sv_similar := similar_table;
     Sim.sv_create_status := 200;
     Sim.sv_delete_status := 204;
     Sim.sv_append_status := 204 |}.

Definition env (k : string) : option string :=
  if String.eqb k "JELLYFIN_URL" then Some "http://jellyfin:8096/"
  else if String.eqb k "JELLYFIN_API_KEY" then Some "key"
  else if String.eqb k "TMDB_API_KEY" then Some "tmdb"
  else if String.eqb k "MIN_TMDB_RATING" then Some "6"
  else None.

Definition watched_movies : list Item := [heat; home_video; ronin].

Definition unique_series : list Item := [the_wire].

Definition movie_library : gmap Z Item :=
  list_to_map [(100, heat); (101, ronin);
               (1, item "mA" "Collateral" (Some "1"));
               (3, item "mC" "Thief" (Some "3"));
               (4, item "mD" "Sicario" (Some "4"))].

Definition series_library : gmap Z Item :=
  list_to_map [(200, the_wire);
               (5, item "sT" "Treme" (Some "5"));
               (6, item "sU" "The Shield" (Some "6"))].

Definition suggestion (i n k : string) (q : Q) : Suggestion :=
  {| sug_Id := i; sug_Name := n; sug_Type := k; sug_Score := q |}.

(** What the loops collect for her, and what is left after ranking. *)
Definition working : list Suggestion :=
  [suggestion "mA" "Collateral" "Movie" (8 # 1);
   suggestion "mD" "Sicario" "Movie" (8 # 1);
   suggestion "sT" "Treme" "Series" (9 # 1);
   suggestion "sU" "The Shield" "Series" (8 # 1)].

Definition ranked : list Suggestion :=
  [suggestion "sT" "Treme" "Series" (9 # 1);
   suggestion "mA" "Collateral" "Movie" (8 # 1);
   suggestion "mD" "Sicario" "Movie" (8 # 1)].

(** The same configuration keeping two results per watched item. *)
Definition cfg_two : Config :=
  {| jellyfin_url := "http://jellyfin:8096";
     jellyfin_api_key := "key";
     tmdb_api_key := "tmdb";
     playlist_name := "Suggested For You";
     max_watched_items := 20;
     max_similar_per_item := 2;
     max_playlist_items := 3;
     min_tmdb_rating := 6 # 1;
     min_tmdb_votes := 50;
     request_timeout := 30 |}.

(** The same environment without the TMDB key. *)
Definition env_no_tmdb_key (k : string) : option string :=
  if String.eqb k "TMDB_API_KEY" then None else env k.

(** An environment whose watched-items limit is not a number. *)
Definition env_bad_number (k : string) : option string :=
  if String.eqb k "MAX_WATCHED_ITEMS" then Some "many" else env k.

(** An environment whose server URL is nothing but slashes. *)
Definition env_slashes (k : string) : option string :=
  if String.eqb k "JELLYFIN_URL" then Some "//" else env k.

(** A library in which two entries carry catalog identifier 1 and one
    carries an identifier that is not a number. *)
Definition collateral_4k := item "mA2" "Collateral (4K)" (Some "1").

Definition server_two_copies : Sim.Server :=
  {| Sim.sv_users := [alice];
     Sim.sv_movies := movies ++ [collateral_4k];
     Sim.sv_series := series;
     Sim.sv_played := Sim.sv_played server;
     Sim.sv_playlists := [old_playlist];
     Sim.sv_similar := similar_table;
     Sim.sv_create_status := 200;
     Sim.sv_delete_status := 204;
     Sim.sv_append_status := 204 |}.

Definition odd_item := item "mX" "Untitled" (Some "tt0113277").

Definition server_odd_id : Sim.Server :=
  {| Sim.sv_users := [alice];
     Sim.sv_movies := movies ++ [odd_item];
     Sim.sv_series := series;
     Sim.sv_played := Sim.sv_played server;
     Sim.sv_playlists := [old_playlist];
     Sim.sv_similar := similar_table;
     Sim.sv_create_status := 200;
     Sim.sv_delete_status := 204;
     Sim.sv_append_status := 204 |}.

(** The sample server before any playlist exists, and one that refuses to
    create playlists. *)
Definition server_no_playlist : Sim.Server :=
  {| Sim.sv_users := [alice];
     Sim.sv_movies := movies;
     Sim.sv_series := series;
     Sim.sv_played := Sim.sv_played server;
     Sim.sv_playlists := [];
     Sim.sv_similar := similar_table;
     Sim.sv_create_status := 200;
     Sim.sv_delete_status := 204;
     Sim.sv_append_status := 204 |}.

(** The sample server with the playlist there but empty. *)
Definition empty_playlist : Sim.Playlist :=
  {| Sim.pl_Id := "p1"; Sim.pl_Name := "Suggested For You"; Sim.pl_owner := "u1";
     Sim.pl_entries := [] |}.

Definition server_empty_playlist : Sim.Server :=
  {| Sim.sv_users := [alice];
     Sim.sv_movies := movies;
     Sim.sv_series := series;
     Sim.sv_played := Sim.sv_played server;
     Sim.sv_playlists := [empty_playlist];
     Sim.sv_similar := similar_table;
     Sim.sv_create_status := 200;
     Sim.sv_delete_status := 204;
     Sim.sv_append_status := 204 |}.

Definition bob : User := {| user_Id := "u2"; user_Name := "bob" |}.

(** The sample configuration with MAX_PLAYLIST_ITEMS=-1. *)
Definition cfg_minus_one : Config :=
  {| jellyfin_url := "http://jellyfin:8096";
     jellyfin_api_key := "key";
     tmdb_api_key := "tmdb";
     playlist_name := "Suggested For You";
     max_watched_items := 20;
     max_similar_per_item := 5;
     max_playlist_items := -1;
     min_tmdb_rating := 6 # 1;
     min_tmdb_votes := 50;
     request_timeout := 30 |}.

(** What [env] loads: the defaults, fifty playlist items at most. *)
Definition cfg_loaded : Config :=
  {| jellyfin_url := "http://jellyfin:8096";
     jellyfin_api_key := "key";
     tmdb_api_key := "tmdb";
     playlist_name := "Suggested For You";
     max_watched_items := 20;
     max_similar_per_item := 5;
     max_playlist_items := 50;
     min_tmdb_rating := 6 # 1;
     min_tmdb_votes := 50;
     request_timeout := 30 |}.

(** An environment that sets MAX_PLAYLIST_ITEMS=-1. *)
Definition env_minus_one (k : string) : option string :=
  if String.eqb k "MAX_PLAYLIST_ITEMS" then Some "-1" else env k.

Definition carol : User := {| user_Id := "u3"; user_Name := "carol" |}.

(** The sample server with three users: alice as before, bob who has
    watched a movie whose TMDB identifier is not a number, carol who has
    watched Heat. *)
Definition server_three_users : Sim.Server :=
  {| Sim.sv_users := [alice; bob; carol];
     Sim.sv_movies := movies;
     Sim.sv_series := series;
     Sim.sv_played :=
       Sim.sv_played server ++
       [("u2", "Movie", [heat; odd_item]); ("u3", "Movie", [heat])];
     Sim.sv_playlists := [old_playlist];
     Sim.sv_similar := similar_table;
     Sim.sv_create_status := 200;
     Sim.sv_delete_status := 204;
     Sim.sv_append_status := 204 |}.

End Demo.

(** ** A server that is down

    An environment without state that answers every request with the same
    status and an empty body. *)
Module Outage.

Definition empty_body (r : Request) : BodyOf r :=
  match r as r0 return BodyOf r0 with
  | GetUsers => []
  | GetWatchedItems _ _ _ => []
  | GetLibraryItems _ => []
  | GetUserPlaylists _ => []
  | GetItem _ _ => Sim.nobody
  | PostPlaylists _ _ _ => None
  | GetPlaylistItems _ _ => []
  | DeletePlaylistItems _ _ => tt
  | PostPlaylistItems _ _ _ => tt
  | GetTmdbSimilar _ _ => []
  end.

Definition http (status : Z) (r : Request) (w : unit) : Reply (BodyOf r) * unit :=
  (Answer status (empty_body r), w).

(** The same server not answering at all. *)
Definition silent (r : Request) (w : unit) : Reply (BodyOf r) * unit :=
  (Dropped, w).


End Outage.

(** ** Exceptions and the program monad *)

Inductive exn :=
| ValueError
| ClientError.

Inductive result (A : Type) :=
| Ok (a : A)
| Raise (e : exn).
Arguments Ok {A} a.
Arguments Raise {A} e.

Section Program.

Variable World : Type.
Variable http : forall r : Request, World -> Reply (BodyOf r) * World.
Variable py_int : string -> option Z.
Variable py_float : string -> option Q.

(** A computation runs from a state of the world and yields a result, the
    new state of the world and the exchanges it made, oldest first. *)
Definition M (A : Type) : Type := World -> result A * World * list Event.

Definition ret {A} (a : A) : M A := fun w => (Ok a, w, []).

Definition raise {A} (e : exn) : M A := fun w => (Raise e, w, []).

Definition bind {A B} (m : M A) (f : A -> M B) : M B := fun w =>
  match m w with
  | (Ok a, w1, e1) =>
      match f a w1 with
      | (r, w2, e2) => (r, w2, e1 ++ e2)
      end
  | (Raise e, w1, e1) => (Raise e, w1, e1)
  end.

Definition call (r : Request) : M (Reply (BodyOf r)) := fun w =>
  match http r w with
  | (a, w') => (Ok a, w', [Ev r a])
  end.

Definition lift {A} (r : result A) : M A := fun w => (r, w, []).

Definition result_of {A} (x : result A * World * list Event) : result A := fst (fst x).
Definition world_of {A} (x : result A * World * list Event) : World := snd (fst x).
Definition events_of {A} (x : result A * World * list Event) : list Event := snd x.

Notation "'let*' x := m 'in' k" := (bind m (fun x => k))
  (at level 10, x pattern, m at level 200, k at level 200).

(** A [for] loop whose body updates the loop-carried variables [b]. *)
Fixpoint for_each {A B} (body : B -> A -> M B) (l : list A) (b : B) : M B :=
  match l with
  | [] => ret b
  | a :: l' => let* b' := body b a in for_each body l' b'
  end.

(** [int(s)], raising ValueError. *)
Definition int_of (s : string) : result Z :=
  match py_int s with
  | Some z => Ok z
  | None => Raise ValueError
  end.

Definition float_of (s : string) : result Q :=
  match py_float s with
  | Some q => Ok q
  | None => Raise ValueError
  end.

(** ** [Config.from_env] (lines 37-61)

    [env] is the process environment; [os.getenv(k, d)] is [getenv]. *)

Definition getenv (env : string -> option string) (k d : string) : string :=
  match env k with
  | Some v => v
  | None => d
  end.

Definition bind_result {A B} (r : result A) (f : A -> result B) : result B :=
  match r with
  | Ok a => f a
  | Raise e => Raise e
  end.

Definition from_env (env : string -> option string) : result Config :=
  let jellyfin_url := rstrip_slash (getenv env "JELLYFIN_URL" "") in
  let jellyfin_api_key := getenv env "JELLYFIN_API_KEY" "" in
  let tmdb_api_key := getenv env "TMDB_API_KEY" "" in
  if negb (forallb truthy [jellyfin_url; jellyfin_api_key; tmdb_api_key])
  then Raise ValueError
  else
    bind_result (int_of (getenv env "MAX_WATCHED_ITEMS" "20")) (fun max_watched_items =>
    bind_result (int_of (getenv env "MAX_SIMILAR_PER_ITEM" "5")) (fun max_similar_per_item =>
    bind_result (int_of (getenv env "MAX_PLAYLIST_ITEMS" "50")) (fun max_playlist_items =>
    bind_result (float_of (getenv env "MIN_TMDB_RATING" "6.0")) (fun min_tmdb_rating =>
    bind_result (int_of (getenv env "MIN_TMDB_VOTES" "50")) (fun min_tmdb_votes =>
    bind_result (int_of (getenv env "REQUEST_TIMEOUT" "30")) (fun request_timeout =>
    Ok {| jellyfin_url := jellyfin_url;
          jellyfin_api_key := jellyfin_api_key;
          tmdb_api_key := tmdb_api_key;
          playlist_name := getenv env "PLAYLIST_NAME" "Suggested For You";
          max_watched_items := max_watched_items;
          max_similar_per_item := max_similar_per_item;
          max_playlist_items := max_playlist_items;
          min_tmdb_rating := min_tmdb_rating;
          min_tmdb_votes := min_tmdb_votes;
          request_timeout := request_timeout |})))))).

(** A loop whose body can only raise: no request is made inside. *)
Fixpoint fold_result {A B} (body : B -> A -> result B) (l : list A) (b : B) : result B :=
  match l with
  | [] => Ok b
  | a :: l' => bind_result (body b a) (fold_result body l')
  end.

(** [tmdb_id = item.get('ProviderIds', {}).get('Tmdb')] under the guard
    [if tmdb_id:]: the string, when it is there and not empty. *)
Definition tmdb_id_if (item : Item) : option string :=
  match Tmdb item with
  | Some s => if truthy s then Some s else None
  | None => None
  end.

(** ** [JellyfinClient] (lines 64-177)

    A request to the Jellyfin server is not wrapped in [try]: a dropped
    connection raises out of the method. *)

Definition jellyfin_call (r : Request) : M (Z * BodyOf r) :=
  let* a := call r in
  match a with
  | Answer status json => ret (status, json)
  | Dropped => raise ClientError
  end.

Definition get_users : M (list User) :=
  let* resp := jellyfin_call GetUsers in
  if fst resp =? 200 then ret (snd resp) else ret [].

Definition get_watched_items (cfg : Config) (user_id media_type : string) : M (list Item) :=
  let* resp := jellyfin_call (GetWatchedItems user_id media_type (max_watched_items cfg)) in
  if fst resp =? 200 then ret (snd resp) else ret [].

(** Body of the loop of lines 113-116: [items[int(tmdb_id)] = item]. *)
Definition index_item (items : gmap Z Item) (item : Item) : result (gmap Z Item) :=
  match tmdb_id_if item with
  | Some tmdb_id => bind_result (int_of tmdb_id) (fun k => Ok (<[k := item]> items))
  | None => Ok items
  end.

Definition get_library_items (media_type : string) : M (gmap Z Item) :=
  let* resp := jellyfin_call (GetLibraryItems media_type) in
  if fst resp =? 200
  then lift (fold_result index_item (snd resp) ∅)
  else ret ∅.

Definition get_user_playlists (user_id : string) : M (list Item) :=
  let* resp := jellyfin_call (GetUserPlaylists user_id) in
  if fst resp =? 200 then ret (snd resp) else ret [].

Definition create_playlist (user_id name : string) (item_ids : list string) : M (option string) :=
  let* resp := jellyfin_call (PostPlaylists user_id name item_ids) in
  if fst resp =? 200 then ret (snd resp) else ret None.

Definition get_playlist_items (playlist_id user_id : string) : M (list Item) :=
  let* resp := jellyfin_call (GetPlaylistItems playlist_id user_id) in
  if fst resp =? 200 then ret (snd resp) else ret [].

Definition clear_playlist (playlist_id : string) (item_ids : list string) : M bool :=
  match item_ids with
  | [] => ret true
  | _ :: _ =>
      let* resp := jellyfin_call (DeletePlaylistItems playlist_id item_ids) in
      ret (fst resp =? 204)
  end.

Definition add_to_playlist (playlist_id user_id : string) (item_ids : list string) : M bool :=
  match item_ids with
  | [] => ret true
  | _ :: _ =>
      let* resp := jellyfin_call (PostPlaylistItems playlist_id user_id item_ids) in
      ret (fst resp =? 204)
  end.

(** ** [TMDbClient.get_similar] (lines 189-213) *)

(** [item.get('title') or item.get('name')] *)
Definition title_or_name (item : TmdbResult) : option string :=
  if truthy_opt (title item) then title item else name item.

(** Line 191: ['movie' if media_type == 'Movie' else 'tv']. *)
Definition endpoint_of (media_type : string) : string :=
  if String.eqb media_type "Movie" then "movie" else "tv".

(** The test of line 203 on one result. *)
Definition passes_quality (cfg : Config) (item : TmdbResult) : bool :=
  let vote_avg := default 0%Q (vote_average item) in
  let vote_count := default 0 (vote_count item) in
  Qle_bool (min_tmdb_rating cfg) vote_avg && (min_tmdb_votes cfg <=? vote_count).

Definition to_similar (item : TmdbResult) : Similar :=
  {| sim_id := id item;
     sim_title := title_or_name item;
     sim_vote_average := default 0%Q (vote_average item) |}.

(** Body of the loop of lines 200-208. *)
Definition keep_similar (cfg : Config) (results : list Similar) (item : TmdbResult)
  : list Similar :=
  if passes_quality cfg item then results ++ [to_similar item] else results.

(** Lines 199-209: the loop runs over [data.get('results', [])[:max_similar_per_item]]. *)
Definition similar_of_body (cfg : Config) (body : list TmdbResult) : list Similar :=
  fold_left (keep_similar cfg) (slice_to body (max_similar_per_item cfg)) [].

(** The whole request sits in [try ... except Exception]: a dropped
    connection gives [[]], as does any status but 200. *)
Definition get_similar (cfg : Config) (tmdb_id : Z) (media_type : string) : M (list Similar) :=
  let endpoint := endpoint_of media_type in
  let* a := call (GetTmdbSimilar endpoint tmdb_id) in
  match a with
  | Answer status body =>
      if status =? 200 then ret (similar_of_body cfg body) else ret []
  | Dropped => ret []
  end.

(** ** [PlaylistGenerator] (lines 216-367) *)

Definition get_series_info (user_id series_id : string) : M (option Item) :=
  let* resp := jellyfin_call (GetItem series_id user_id) in
  if fst resp =? 200 then ret (Some (snd resp)) else ret None.

(** Body of the loop of lines 257-264, on [(seen_series, unique_series)]. *)
Definition unique_series_step (user_id : string)
    (st : gset string * list Item) (episode : Item) : M (gset string * list Item) :=
  match SeriesId episode with
  | Some series_id =>
      if truthy series_id && negb (bool_decide (series_id ∈ fst st))
      then
        let* series_info := get_series_info user_id series_id in
        ret ({[series_id]} ∪ fst st,
             match series_info with
             | Some info => snd st ++ [info]
             | None => snd st
             end)
      else ret st
  | None => ret st
  end.

(** Lines 250-264: the watched movies and the resolved watched series. *)
Definition fetch_watched (cfg : Config) (user_id : string) : M (list Item * list Item) :=
  let* watched_movies := get_watched_items cfg user_id "Movie" in
  let* watched_series := get_watched_items cfg user_id "Episode" in
  let* st := for_each (unique_series_step user_id) watched_series (∅, []) in
  ret (watched_movies, snd st).

(** Body of the loops of lines 273-276 and 278-281. *)
Definition add_watched (watched_tmdb_ids : gset Z) (item : Item) : result (gset Z) :=
  match tmdb_id_if item with
  | Some tmdb_id => bind_result (int_of tmdb_id) (fun k => Ok ({[k]} ∪ watched_tmdb_ids))
  | None => Ok watched_tmdb_ids
  end.

(** Lines 270-281: the exclusion set. *)
Definition collect_watched_tmdb_ids (watched_movies unique_series : list Item)
  : result (gset Z) :=
  bind_result (fold_result add_watched watched_movies ∅)
              (fold_result add_watched unique_series).

(** Body of the inner loop, lines 288-297 (and 304-313 with the series
    library and ['Series']). *)
Definition consider (library : gmap Z Item) (watched_tmdb_ids : gset Z) (kind : string)
    (suggested_items : list Suggestion) (s : Similar) : list Suggestion :=
  match library !! sim_id s with
  | Some jellyfin_item =>
      if bool_decide (sim_id s ∉ watched_tmdb_ids)
      then
        if mem_string (Id jellyfin_item) (map sug_Id suggested_items)
        then suggested_items
        else suggested_items ++
             [{| sug_Id := Id jellyfin_item;
                 sug_Name := Name jellyfin_item;
                 sug_Type := kind;
                 sug_Score := sim_vote_average s |}]
      else suggested_items
  | None => suggested_items
  end.

(** Body of the outer loop, lines 285-297 (and 301-313). *)
Definition similar_step (cfg : Config) (library : gmap Z Item) (watched_tmdb_ids : gset Z)
    (kind : string) (suggested_items : list Suggestion) (item : Item)
  : M (list Suggestion) :=
  match tmdb_id_if item with
  | Some tmdb_id =>
      let* k := lift (int_of tmdb_id) in
      let* similar := get_similar cfg k kind in
      ret (fold_left (consider library watched_tmdb_ids kind) similar suggested_items)
  | None => ret suggested_items
  end.

(** The two outer loops: lines 284-297 with the movie library and
    ['Movie'], lines 300-313 with the series library and ['Series']. *)
Definition similar_loop (cfg : Config) (library : gmap Z Item) (watched_tmdb_ids : gset Z)
    (kind : string) (items : list Item) (suggested_items : list Suggestion)
  : M (list Suggestion) :=
  for_each (similar_step cfg library watched_tmdb_ids kind)
           (slice_to items (max_watched_items cfg)) suggested_items.

(** Lines 268-313: [suggested_items] as it stands before line 316. *)
Definition collect_suggestions (cfg : Config) (watched_movies unique_series : list Item)
    (movie_library series_library : gmap Z Item) : M (list Suggestion) :=
  let* watched_tmdb_ids := lift (collect_watched_tmdb_ids watched_movies unique_series) in
  let* suggested_items :=
    similar_loop cfg movie_library watched_tmdb_ids "Movie" watched_movies [] in
  similar_loop cfg series_library watched_tmdb_ids "Series" unique_series suggested_items.

(** Line 316, [suggested_items.sort(key=lambda x: x['Score'], reverse=True)].
    Python's sort is stable and stays so under [reverse=True]: elements with
    equal keys keep their order.  That fixes the result, so any stable sort
    stands for it; this one inserts from the right, each element in front
    of the first one whose score is not larger. *)
Fixpoint insert_by_score (x : Suggestion) (l : list Suggestion) : list Suggestion :=
  match l with
  | [] => [x]
  | y :: l' =>
      if Qle_bool (sug_Score y) (sug_Score x)
      then x :: y :: l'
      else y :: insert_by_score x l'
  end.

Definition sort_by_score (l : list Suggestion) : list Suggestion :=
  foldr insert_by_score [] l.

(** Lines 316-317. *)
Definition rank (cfg : Config) (suggested_items : list Suggestion) : list Suggestion :=
  slice_to (sort_by_score suggested_items) (max_playlist_items cfg).

(** Lines 268-317: the suggestion list handed to [update_playlist]. *)
Definition aggregate (cfg : Config) (watched_movies unique_series : list Item)
    (movie_library series_library : gmap Z Item) : M (list Suggestion) :=
  let* suggested_items :=
    collect_suggestions cfg watched_movies unique_series movie_library series_library in
  ret (rank cfg suggested_items).

(** Lines 333-361 (the log lines that follow have no effect). *)
Definition update_playlist (cfg : Config) (user_id user_name : string)
    (items : list Suggestion) : M unit :=
  let playlist_name := playlist_name cfg in
  let* playlists := get_user_playlists user_id in
  let existing_playlist := List.find (fun p => String.eqb (Name p) playlist_name) playlists in
  let item_ids := map sug_Id items in
  match existing_playlist with
  | Some p =>
      let playlist_id := Id p in
      let* current_items := get_playlist_items playlist_id user_id in
      let* _ :=
        match current_items with
        | [] => ret true
        | _ :: _ => clear_playlist playlist_id (map PlaylistItemId current_items)
        end in
      let* _ := add_to_playlist playlist_id user_id item_ids in
      ret tt
  | None =>
      let* _ := create_playlist user_id playlist_name item_ids in
      ret tt
  end.

(** Lines 244-322. *)
Definition process_user (cfg : Config) (user : User)
    (movie_library series_library : gmap Z Item) : M unit :=
  let user_id := user_Id user in
  let user_name := user_Name user in
  let* watched := fetch_watched cfg user_id in
  let* suggested_items :=
    aggregate cfg (fst watched) (snd watched) movie_library series_library in
  match suggested_items with
  | [] => ret tt
  | _ :: _ => update_playlist cfg user_id user_name suggested_items
  end.

(** Lines 224-242. *)
Definition run (cfg : Config) : M unit :=
  let* movie_library := get_library_items "Movie" in
  let* series_library := get_library_items "Series" in
  let* users := get_users in
  for_each (fun _ user => process_user cfg user movie_library series_library) users tt.

(** ** [main] (lines 370-387)

    How the process ends: normally, by [SystemExit(code)], or on an
    exception nobody caught (the interpreter prints it and exits with 1). *)
Inductive Exit :=
| Completed
| SystemExit (code : Z)
| Uncaught (e : exn).

Definition exit_status (x : Exit) : Z :=
  match x with
  | Completed => 0
  | SystemExit code => code
  | Uncaught _ => 1
  end.

Definition except_main (e : exn) : Exit :=
  match e with
  | ValueError => SystemExit 1
  | _ => Uncaught e
  end.

Definition main (env : string -> option string) (w : World) : Exit * World * list Event :=
  match from_env env with
  | Ok config =>
      match run config w with
      | (Ok _, w', evs) => (Completed, w', evs)
      | (Raise e, w', evs) => (except_main e, w', evs)
      end
  | Raise e => (except_main e, w, [])
  end.

(** ** The recommendation client as the specification words it

    "Filtering happens before the result-count cap is applied": filter the
    whole body, then keep the first [max_similar_per_item]. *)
Definition similar_filter_then_cap (cfg : Config) (body : list TmdbResult) : list Similar :=
  slice_to (map to_similar (List.filter (passes_quality cfg) body))
           (max_similar_per_item cfg).

(** ** Where a suggestion comes from

    [c] was accepted from a result [r] that the provider delivered for
    [kind] during the exchanges [evs]: [r] passed the quality test, the
    library of that kind lists its catalog identifier, the identifier is
    not a watched one, and [c] is the entry built from the two. *)
Definition accepted_from (cfg : Config) (library : gmap Z Item) (watched_tmdb_ids : gset Z)
    (kind : string) (evs : list Event) (c : Suggestion) : Prop :=
  exists r jellyfin_item,
    (r ∈ delivered (endpoint_of kind) evs) /\
    passes_quality cfg r = true /\
    (library !! (id r) = Some jellyfin_item) /\
    (id r ∉ watched_tmdb_ids) /\
    c = {| sug_Id := Id jellyfin_item;
           sug_Name := Name jellyfin_item;
           sug_Type := kind;
           sug_Score := default 0%Q (vote_average r) |}.

(** The library a suggestion of a given kind is looked up in. *)
Definition library_of (movie_library series_library : gmap Z Item) (kind : string)
  : gmap Z Item :=
  if String.eqb kind "Movie" then movie_library else series_library.

(** The catalog identifier of a watched item: [int(tmdb_id)] under the
    guard [if tmdb_id:]. *)
Definition catalog_id (item : Item) (k : Z) : Prop :=
  exists s, tmdb_id_if item = Some s /\ py_int s = Some k.

(** ** The working list as a function of the exchanges

    The entry a delivered result yields for [kind], when the library lists
    it and it is not a watched one (the test of line 289). *)
Definition offer (library : gmap Z Item) (watched_tmdb_ids : gset Z) (kind : string)
    (r : TmdbResult) : list Suggestion :=
  match library !! (id r) with
  | Some jellyfin_item =>
      if bool_decide (id r ∉ watched_tmdb_ids)
      then [{| sug_Id := Id jellyfin_item;
               sug_Name := Name jellyfin_item;
               sug_Type := kind;
               sug_Score := default 0%Q (vote_average r) |}]
      else []
  | None => []
  end.

(** What one reply offers for [kind], in the provider's order. *)
Definition offers_of_body (cfg : Config) (library : gmap Z Item) (watched_tmdb_ids : gset Z)
    (kind : string) (body : list TmdbResult) : list Suggestion :=
  flat_map (offer library watched_tmdb_ids kind)
           (List.filter (passes_quality cfg) (slice_to body (max_similar_per_item cfg))).

(** What the exchanges offer for [kind], in the order they were made. *)
Definition offers_for (cfg : Config) (library : gmap Z Item) (watched_tmdb_ids : gset Z)
    (kind : string) (evs : list Event) : list Suggestion :=
  flat_map (fun e => offers_of_body cfg library watched_tmdb_ids kind
                       (ev_results (endpoint_of kind) e)) evs.

(** What the exchanges offer, movies from the movie endpoint and series
    from the series endpoint, in the order the exchanges were made. *)
Definition offers (cfg : Config) (movie_library series_library : gmap Z Item)
    (watched_tmdb_ids : gset Z) (evs : list Event) : list Suggestion :=
  flat_map (fun e =>
              offers_of_body cfg movie_library watched_tmdb_ids "Movie"
                (ev_results "movie" e) ++
              offers_of_body cfg series_library watched_tmdb_ids "Series"
                (ev_results "tv" e)) evs.

(** Line 291: an entry joins the list unless its [Id] is there already. *)
Definition add_if_new (l : list Suggestion) (c : Suggestion) : list Suggestion :=
  if mem_string (sug_Id c) (map sug_Id l) then l else l ++ [c].

(** The first entry of each [Id], in order of first appearance. *)
Definition first_by_Id (l : list Suggestion) : list Suggestion :=
  fold_left add_if_new l [].

(** The catalog identifiers of the items that have one, in order. *)
Definition catalog_ids (items : list Item) : list Z :=
  omap (fun item => match tmdb_id_if item with
                    | Some s => py_int s
                    | None => None
                    end) items.

(** The order of line 316: [a] may stand before [b]. *)
Definition score_ge (a b : Suggestion) : Prop := (sug_Score b <= sug_Score a)%Q.

(** The suggestions whose score equals [q]. *)
Definition with_score (q : Q) (l : list Suggestion) : list Suggestion :=
  List.filter (fun c => Qeq_bool (sug_Score c) q) l.

(** The world after the exchanges [evs], replayed from [w]. *)
Definition play (evs : list Event) (w : World) : World :=
  fold_left (fun w0 e => snd (http (ev_request e) w0)) evs w.

(** A computation is [sound P] when the world it leaves is the one its
    recorded exchanges lead to, and every request it made satisfies [P]. *)
Definition sound {A} (P : Request -> Prop) (m : M A) : Prop :=
  forall w,
    world_of (m w) = play (events_of (m w)) w /\
    Forall (fun e => P (ev_request e)) (events_of (m w)).

Definition read_only (r : Request) : Prop := is_write r = false.

(** ** Vocabulary for the remaining properties *)

(** [s] ends with a slash. *)
Fixpoint ends_with_slash (s : string) : bool :=
  match s with
  | EmptyString => false
  | String c s' =>
      match s' with
      | EmptyString => Ascii.eqb c "/"
      | String _ _ => ends_with_slash s'
      end
  end.

(** The string of [n] slashes. *)
Fixpoint slashes (n : nat) : string :=
  match n with
  | O => EmptyString
  | S n' => String "/" (slashes n')
  end.

(** [item] passes the guard [if tmdb_id:] and [int(tmdb_id)] is [k]. *)
Definition has_catalog_id (item : Item) (k : Z) : bool :=
  match tmdb_id_if item with
  | Some s =>
      match py_int s with
      | Some z => z =? k
      | None => false
      end
  | None => false
  end.

(** The item identifiers a request asks the server to put in a playlist. *)
Definition posted_ids (r : Request) : option (list string) :=
  match r with
  | PostPlaylists _ _ ids => Some ids
  | PostPlaylistItems _ _ ids => Some ids
  | _ => None
  end.

Definition is_library_request (r : Request) : bool :=
  match r with
  | GetLibraryItems _ => true
  | _ => false
  end.

(** The series identifiers looked up with [GET /Items/{id}], in order. *)
Definition series_requests (evs : list Event) : list string :=
  omap (fun e => match ev_request e with
                 | GetItem series_id _ => Some series_id
                 | _ => None
                 end) evs.

(** The last exchange of [evs] got no reply. *)
Definition dropped_last (evs : list Event) : Prop :=
  exists evs' r, evs = evs' ++ [Ev r Dropped].

(** A computation that stops only on a request left without reply, and then
    by the client's exception. *)
Definition graceful {A} (m : M A) : Prop :=
  forall w, match result_of (m w) with
            | Ok _ => True
            | Raise e => e = ClientError /\ dropped_last (events_of (m w))
            end.

(** How many of the exchanges are library fetches. *)
Definition library_fetches (evs : list Event) : nat :=
  length (List.filter (fun e => is_library_request (ev_request e)) evs).

(** * Properties *)

(** ** Running computations *)

Lemma bind_Ok {A B} (m : M A) (f : A -> M B) w b w' evs :
  bind m f w = (Ok b, w', evs) ->
  exists a w1 e1 e2,
    m w = (Ok a, w1, e1) /\ f a w1 = (Ok b, w', e2) /\ evs = e1 ++ e2.
Proof.
  unfold bind. destruct (m w) as [[[a|x] w1] e1]; [|discriminate].
  destruct (f a w1) as [[r w2] e2] eqn:Hf. intros [= -> -> <-].
  exists a, w1, e1, e2. auto.
Qed.

Lemma lift_Ok {A} (r : result A) w a w' evs :
  lift r w = (Ok a, w', evs) -> r = Ok a /\ w' = w /\ evs = [].
Proof. unfold lift. intros [= -> -> <-]. auto. Qed.

Lemma ret_Ok {A} (x : A) w a w' evs :
  ret x w = (Ok a, w', evs) -> a = x /\ w' = w /\ evs = [].
Proof. unfold ret. intros [= -> -> <-]. auto. Qed.

(** A loop invariant over the loop-carried value and the exchanges made
    so far. *)
Lemma for_each_invariant {A B} (I : B -> list Event -> Prop) (body : B -> A -> M B) l :
  (forall b a w b' w' e evs,
      a ∈ l -> I b evs -> body b a w = (Ok b', w', e) -> I b' (evs ++ e)) ->
  forall b w b' w' e evs,
    I b evs -> for_each body l b w = (Ok b', w', e) -> I b' (evs ++ e).
Proof.
  induction l as [|a l IH]; intros Hstep b w b' w' e evs HI Hrun; simpl in Hrun.
  - apply ret_Ok in Hrun as (-> & -> & ->). by rewrite app_nil_r.
  - apply bind_Ok in Hrun as (b1 & w1 & e1 & e2 & Hb & Hrest & ->).
    rewrite app_assoc. eapply IH; [| |exact Hrest].
    + intros. eapply Hstep; eauto. by right.
    + eapply Hstep; eauto. by left.
Qed.

(** ** The recommendation client *)

Lemma fold_keep_similar cfg l acc :
  fold_left (keep_similar cfg) l acc
  = acc ++ map to_similar (List.filter (passes_quality cfg) l).
Proof.
  revert acc. induction l as [|x l IH]; intros acc; simpl.
  - by rewrite app_nil_r.
  - rewrite IH. unfold keep_similar. destruct (passes_quality cfg x); simpl.
    + by rewrite <- app_assoc.
    + done.
Qed.

Lemma similar_of_body_filter cfg body :
  similar_of_body cfg body
  = map to_similar
        (List.filter (passes_quality cfg) (slice_to body (max_similar_per_item cfg))).
Proof. unfold similar_of_body. by rewrite fold_keep_similar. Qed.

Lemma get_similar_run cfg k kind w :
  get_similar cfg k kind w
  = (Ok match fst (http (GetTmdbSimilar (endpoint_of kind) k) w) with
        | Answer status body => if status =? 200 then similar_of_body cfg body else []
        | Dropped => []
        end,
     snd (http (GetTmdbSimilar (endpoint_of kind) k) w),
     [Ev (GetTmdbSimilar (endpoint_of kind) k)
         (fst (http (GetTmdbSimilar (endpoint_of kind) k) w))]).
Proof.
  unfold get_similar, bind, call.
  destruct (http _ w) as [[status body|] w1]; simpl.
  - destruct (status =? 200); reflexivity.
  - reflexivity.
Qed.

(** C1, as the code has it: on a 200 reply the cap comes first, on the
    provider's list, and the quality filter runs over the capped prefix.
    The result is the qualifying results among the first
    [max_similar_per_item] of the provider's list, in the provider's order. *)
Theorem get_similar_caps_then_filters cfg k kind w body w' :
  http (GetTmdbSimilar (endpoint_of kind) k) w
    = (Answer 200 body, w') ->
  result_of (get_similar cfg k kind w)
  = Ok (map to_similar
            (List.filter (passes_quality cfg)
                         (slice_to body (max_similar_per_item cfg)))).
Proof.
  intros Hreply. rewrite get_similar_run, Hreply. unfold result_of. simpl.
  by rewrite similar_of_body_filter.
Qed.

(** ** Slices *)

Lemma slice_to_prefix {A} (l : list A) n : slice_to l n `prefix_of` l.
Proof. unfold slice_to. destruct (n <? 0); apply prefix_take. Qed.

Lemma slice_to_subseteq {A} (l : list A) n : slice_to l n ⊆ l.
Proof. unfold slice_to. destruct (n <? 0); apply subseteq_take. Qed.

Lemma slice_to_sublist {A} (l : list A) n : slice_to l n `sublist_of` l.
Proof. unfold slice_to. destruct (n <? 0); apply sublist_take. Qed.

Lemma slice_to_length {A} (l : list A) n :
  0 <= n -> Z.of_nat (length (slice_to l n)) <= n.
Proof.
  intros Hn. unfold slice_to. destruct (Z.ltb_spec n 0); [lia|].
  rewrite length_take. lia.
Qed.

Lemma slice_to_all {A} (l : list A) n :
  Z.of_nat (length l) <= n -> slice_to l n = l.
Proof.
  intros Hn. unfold slice_to. destruct (Z.ltb_spec n 0); [lia|].
  apply take_ge. lia.
Qed.

Lemma slice_to_nil {A} n : slice_to (@nil A) n = [].
Proof. unfold slice_to. destruct (n <? 0); apply take_nil. Qed.

Lemma slice_to_map {A B} (f : A -> B) (l : list A) n :
  map f (slice_to l n) = slice_to (map f l) n.
Proof.
  unfold slice_to. rewrite length_map.
  destruct (n <? 0); apply (fmap_take f).
Qed.

(** ** Provenance of the working list *)

Lemma delivered_app endpoint evs1 evs2 :
  delivered endpoint (evs1 ++ evs2) = delivered endpoint evs1 ++ delivered endpoint evs2.
Proof. unfold delivered. apply flat_map_app. Qed.

Lemma accepted_from_app_l cfg library watched kind evs e c :
  accepted_from cfg library watched kind evs c ->
  accepted_from cfg library watched kind (evs ++ e) c.
Proof.
  intros (r & it & Hr & Hrest). exists r, it. split; [|exact Hrest].
  rewrite delivered_app. apply elem_of_app. by left.
Qed.

Lemma accepted_from_app_r cfg library watched kind evs e c :
  accepted_from cfg library watched kind e c ->
  accepted_from cfg library watched kind (evs ++ e) c.
Proof.
  intros (r & it & Hr & Hrest). exists r, it. split; [|exact Hrest].
  rewrite delivered_app. apply elem_of_app. by right.
Qed.

Lemma accepted_from_kind cfg library watched kind evs c :
  accepted_from cfg library watched kind evs c -> sug_Type c = kind.
Proof. by intros (r & it & _ & _ & _ & _ & ->). Qed.

(** The inner loop only appends, and what it appends is accepted. *)
Lemma fold_consider_appends cfg library watched kind evs similar acc :
  (forall s, s ∈ similar ->
     exists r, r ∈ delivered (endpoint_of kind) evs /\
               passes_quality cfg r = true /\ s = to_similar r) ->
  exists new,
    fold_left (consider library watched kind) similar acc = acc ++ new /\
    Forall (accepted_from cfg library watched kind evs) new.
Proof.
  revert acc. induction similar as [|s similar IH]; intros acc Hsim; simpl.
  - exists []. by rewrite app_nil_r.
  - destruct (IH (consider library watched kind acc s)) as (new & -> & Hnew).
    { intros s' Hs'. apply Hsim. by right. }
    unfold consider. destruct (library !! sim_id s) as [it|] eqn:Hlib; [|eauto].
    case_bool_decide as Hw; [|eauto].
    destruct (mem_string _ _); [eauto|].
    eexists (_ :: new). rewrite <- app_assoc. split; [reflexivity|].
    constructor; [|done].
    destruct (Hsim s) as (r & Hr & Hq & ->); [by left|].
    exists r, it. simpl in *. auto.
Qed.

Lemma similar_of_body_delivered cfg kind k body s :
  s ∈ similar_of_body cfg body ->
  exists r, r ∈ delivered (endpoint_of kind)
                  [Ev (GetTmdbSimilar (endpoint_of kind) k) (Answer 200 body)] /\
            passes_quality cfg r = true /\ s = to_similar r.
Proof.
  rewrite similar_of_body_filter. intros Hs.
  apply list_elem_of_In, in_map_iff in Hs as (r & <- & Hr).
  apply filter_In in Hr as [Hr Hq]. exists r. split; [|auto].
  unfold delivered. simpl. rewrite String.eqb_refl. simpl. rewrite app_nil_r.
  apply (slice_to_subseteq body (max_similar_per_item cfg)). by apply list_elem_of_In.
Qed.

Lemma similar_step_appends cfg library watched kind acc item w acc' w' e :
  similar_step cfg library watched kind acc item w = (Ok acc', w', e) ->
  exists new, acc' = acc ++ new /\ Forall (accepted_from cfg library watched kind e) new.
Proof.
  unfold similar_step. destruct (tmdb_id_if item) as [s|].
  - intros Hrun. apply bind_Ok in Hrun as (k & w1 & e1 & e2 & Hk & Hrun & ->).
    apply lift_Ok in Hk as (Hk & -> & ->).
    apply bind_Ok in Hrun as (similar & w2 & e3 & e4 & Hsim & Hret & ->).
    apply ret_Ok in Hret as (-> & -> & ->).
    rewrite get_similar_run in Hsim. injection Hsim as <- <- <-.
    simpl. apply fold_consider_appends.
    intros s0 Hs0.
    destruct (http (GetTmdbSimilar (endpoint_of kind) k) w) as [[status body|] w1];
      simpl in *; [|by apply not_elem_of_nil in Hs0].
    destruct (Z.eqb_spec status 200) as [->|]; [|by apply not_elem_of_nil in Hs0].
    exact (similar_of_body_delivered cfg kind k body s0 Hs0).
  - intros Hrun. apply ret_Ok in Hrun as (-> & -> & ->).
    exists []. by rewrite app_nil_r.
Qed.

Lemma similar_loop_appends cfg library watched kind items acc w acc' w' e :
  similar_loop cfg library watched kind items acc w = (Ok acc', w', e) ->
  exists new, acc' = acc ++ new /\ Forall (accepted_from cfg library watched kind e) new.
Proof.
  intros Hrun. unfold similar_loop in Hrun.
  pose proof (for_each_invariant
                (fun b es => exists new,
                     b = acc ++ new /\ Forall (accepted_from cfg library watched kind es) new)
                (similar_step cfg library watched kind)
                (slice_to items (max_watched_items cfg))) as Hinv.
  apply (fun H H0 => Hinv H acc w acc' w' e [] H0 Hrun).
  - intros b a w0 b' w0' e0 evs _ (new & -> & Hnew) Hstep.
    apply similar_step_appends in Hstep as (new' & -> & Hnew').
    exists (new ++ new'). rewrite app_assoc. split; [done|].
    apply Forall_app. split.
    + eapply Forall_impl; [exact Hnew|]. intros c. apply accepted_from_app_l.
    + eapply Forall_impl; [exact Hnew'|]. intros c. apply accepted_from_app_r.
  - exists []. by rewrite app_nil_r.
Qed.

(** ** Sorting by score *)

Lemma insert_by_score_perm x l : insert_by_score x l ≡ₚ x :: l.
Proof.
  induction l as [|y l IH]; simpl; [done|].
  destruct (Qle_bool (sug_Score y) (sug_Score x)); [done|].
  rewrite IH. apply perm_swap.
Qed.

Lemma sort_by_score_perm l : sort_by_score l ≡ₚ l.
Proof.
  induction l as [|x l IH]; simpl; [done|].
  rewrite insert_by_score_perm. by rewrite IH.
Qed.

Lemma insert_by_score_sorted x l :
  StronglySorted score_ge l -> StronglySorted score_ge (insert_by_score x l).
Proof.
  induction l as [|y l IH]; intros Hl; simpl.
  - constructor; [constructor|constructor].
  - apply StronglySorted_inv in Hl as [Hl Hy].
    destruct (Qle_bool (sug_Score y) (sug_Score x)) eqn:Hle.
    + apply Qle_bool_iff in Hle.
      constructor; [by constructor|].
      constructor; [exact Hle|].
      eapply Forall_impl; [exact Hy|]. intros z Hz. unfold score_ge in *.
      eapply Qle_trans; eauto.
    + constructor; [by apply IH|].
      rewrite insert_by_score_perm. constructor; [|exact Hy].
      unfold score_ge. apply Qlt_le_weak, Qnot_le_lt. intros Hc.
      apply Qle_bool_iff in Hc. congruence.
Qed.

Lemma sort_by_score_sorted l : StronglySorted score_ge (sort_by_score l).
Proof.
  induction l as [|x l IH]; simpl; [constructor|].
  by apply insert_by_score_sorted.
Qed.

Lemma with_score_insert q x l :
  with_score q (insert_by_score x l) = with_score q (x :: l).
Proof.
  unfold with_score. induction l as [|y l IH]; simpl; [done|].
  destruct (Qle_bool (sug_Score y) (sug_Score x)) eqn:Hle; [done|].
  simpl. rewrite IH. simpl.
  destruct (Qeq_bool (sug_Score x) q) eqn:Hx, (Qeq_bool (sug_Score y) q) eqn:Hy; try done.
  apply Qeq_bool_iff in Hx, Hy.
  assert (Qle_bool (sug_Score y) (sug_Score x) = true); [|congruence].
  apply Qle_bool_iff. rewrite Hx, Hy. apply Qle_refl.
Qed.

(** The sort is stable: each score class keeps its order. *)
Lemma sort_by_score_stable q l : with_score q (sort_by_score l) = with_score q l.
Proof.
  induction l as [|x l IH]; simpl; [done|].
  rewrite with_score_insert. unfold with_score in *. simpl. by rewrite IH.
Qed.

Lemma with_score_cons q x l :
  with_score q (x :: l)
  = if Qeq_bool (sug_Score x) q then x :: with_score q l else with_score q l.
Proof. reflexivity. Qed.

Lemma with_score_own x l :
  with_score (sug_Score x) (x :: l) = x :: with_score (sug_Score x) l.
Proof.
  rewrite with_score_cons.
  assert (Qeq_bool (sug_Score x) (sug_Score x) = true) as ->; [|done].
  apply Qeq_bool_iff, Qeq_refl.
Qed.

Lemma elem_of_with_score c q l : c ∈ with_score q l -> c ∈ l.
Proof.
  unfold with_score. intros Hc. apply list_elem_of_In, filter_In in Hc as [Hc _].
  by apply list_elem_of_In.
Qed.

Lemma sorted_head_ge x l c :
  StronglySorted score_ge (x :: l) -> c ∈ x :: l -> score_ge x c.
Proof.
  intros Hs Hc. apply StronglySorted_inv in Hs as [_ Hx].
  apply elem_of_cons in Hc as [->|Hc]; [apply Qle_refl|].
  rewrite Forall_forall in Hx. by apply Hx.
Qed.

(** A list sorted by score is determined by its score classes: two sorted
    lists with the same classes, in the same order inside each class, are
    the same list.  Hence whatever stable sort the interpreter runs, it
    returns [sort_by_score]. *)
Lemma sorted_classes_unique l1 l2 :
  StronglySorted score_ge l1 -> StronglySorted score_ge l2 ->
  (forall q, with_score q l1 = with_score q l2) ->
  l1 = l2.
Proof.
  revert l2. induction l1 as [|x l1 IH]; intros [|y l2] Hs1 Hs2 Hcl.
  - done.
  - specialize (Hcl (sug_Score y)). rewrite with_score_own in Hcl. discriminate.
  - specialize (Hcl (sug_Score x)). rewrite with_score_own in Hcl. discriminate.
  - assert (score_ge y x) as Hyx.
    { apply (sorted_head_ge y l2); [done|]. apply (elem_of_with_score _ (sug_Score x)).
      rewrite <- Hcl, with_score_own. by left. }
    assert (score_ge x y) as Hxy.
    { apply (sorted_head_ge x l1); [done|]. apply (elem_of_with_score _ (sug_Score y)).
      rewrite Hcl, with_score_own. by left. }
    assert (Qeq_bool (sug_Score y) (sug_Score x) = true) as Heq.
    { apply Qeq_bool_iff, Qle_antisym; done. }
    pose proof (Hcl (sug_Score x)) as Hx. rewrite with_score_own, with_score_cons, Heq in Hx.
    injection Hx as <- _. f_equal.
    apply StronglySorted_inv in Hs1 as [Hs1 _]. apply StronglySorted_inv in Hs2 as [Hs2 _].
    apply IH; [done|done|]. intros q. specialize (Hcl q).
    rewrite !with_score_cons in Hcl. destruct (Qeq_bool (sug_Score x) q); congruence.
Qed.

Lemma sort_by_score_unique l l' :
  StronglySorted score_ge l' ->
  (forall q, with_score q l' = with_score q l) ->
  l' = sort_by_score l.
Proof.
  intros Hs Hcl. apply sorted_classes_unique; [done|apply sort_by_score_sorted|].
  intros q. by rewrite Hcl, sort_by_score_stable.
Qed.

Lemma with_score_app q l1 l2 : with_score q (l1 ++ l2) = with_score q l1 ++ with_score q l2.
Proof. unfold with_score. apply List.filter_app. Qed.

(** ** Membership among the suggested identifiers *)

Lemma mem_string_spec x l : mem_string x l = true <-> x ∈ l.
Proof.
  unfold mem_string. rewrite existsb_exists. split.
  - intros (y & Hy & Heq). apply String.eqb_eq in Heq as ->. by apply list_elem_of_In.
  - intros Hx. exists x. split; [by apply list_elem_of_In|apply String.eqb_refl].
Qed.

Lemma consider_NoDup library watched kind acc s :
  NoDup (map sug_Id acc) -> NoDup (map sug_Id (consider library watched kind acc s)).
Proof.
  intros Hacc. unfold consider. destruct (library !! sim_id s) as [it|]; [|done].
  case_bool_decide; [|done].
  destruct (mem_string (Id it) (map sug_Id acc)) eqn:Hmem; [done|].
  rewrite map_app. simpl. apply NoDup_app. split; [done|]. split.
  - intros x Hx Hx'. apply list_elem_of_singleton in Hx' as ->.
    apply mem_string_spec in Hx. congruence.
  - apply NoDup_singleton.
Qed.

Lemma fold_consider_NoDup library watched kind similar acc :
  NoDup (map sug_Id acc) ->
  NoDup (map sug_Id (fold_left (consider library watched kind) similar acc)).
Proof.
  revert acc. induction similar as [|s similar IH]; intros acc Hacc; simpl; [done|].
  by apply IH, consider_NoDup.
Qed.

Lemma similar_step_NoDup cfg library watched kind acc item w acc' w' e :
  NoDup (map sug_Id acc) ->
  similar_step cfg library watched kind acc item w = (Ok acc', w', e) ->
  NoDup (map sug_Id acc').
Proof.
  intros Hacc. unfold similar_step. destruct (tmdb_id_if item) as [s|].
  - intros Hrun. apply bind_Ok in Hrun as (k & w1 & e1 & e2 & _ & Hrun & _).
    apply bind_Ok in Hrun as (similar & w2 & e3 & e4 & _ & Hret & _).
    apply ret_Ok in Hret as (-> & _). by apply fold_consider_NoDup.
  - intros Hrun. by apply ret_Ok in Hrun as (-> & _).
Qed.

Lemma similar_loop_NoDup cfg library watched kind items acc w acc' w' e :
  NoDup (map sug_Id acc) ->
  similar_loop cfg library watched kind items acc w = (Ok acc', w', e) ->
  NoDup (map sug_Id acc').
Proof.
  intros Hacc Hrun. unfold similar_loop in Hrun.
  pose proof (for_each_invariant (fun b _ => NoDup (map sug_Id b))
                (similar_step cfg library watched kind)
                (slice_to items (max_watched_items cfg))) as Hinv.
  apply (fun H => Hinv H acc w acc' w' e [] Hacc Hrun).
  intros. eapply similar_step_NoDup; eauto.
Qed.

(** ** The exclusion set *)

Lemma add_watched_spec W item W' :
  add_watched W item = Ok W' ->
  forall k, k ∈ W' <-> k ∈ W \/ catalog_id item k.
Proof.
  unfold add_watched, catalog_id, int_of.
  destruct (tmdb_id_if item) as [s|].
  - destruct (py_int s) as [z|] eqn:Hz; simpl; [|discriminate].
    intros [= <-] k. rewrite elem_of_union, elem_of_singleton. split.
    + intros [->|Hk]; [right; eauto|by left].
    + intros [Hk|(s' & [= <-] & Hs')]; [by right|left; congruence].
  - intros [= <-] k. split; [by left|].
    intros [Hk|(s' & Hs' & _)]; [done|discriminate].
Qed.

Lemma fold_add_watched_spec l W W' :
  fold_result add_watched l W = Ok W' ->
  forall k, k ∈ W' <-> k ∈ W \/ exists item, item ∈ l /\ catalog_id item k.
Proof.
  revert W. induction l as [|item l IH]; intros W; simpl.
  - intros [= <-] k. split; [by left|].
    intros [Hk|(item & Hin & _)]; [done|by apply not_elem_of_nil in Hin].
  - destruct (add_watched W item) as [W1|] eqn:Hadd; simpl; [|discriminate].
    intros Hfold k. rewrite (IH _ Hfold), (add_watched_spec _ _ _ Hadd). split.
    + intros [[Hk|Hk]|(it & Hin & Hk)].
      * by left.
      * right. exists item. split; [by left|done].
      * right. exists it. split; [by right|done].
    + intros [Hk|(it & Hin & Hk)]; [by left; left|].
      apply elem_of_cons in Hin as [->|Hin]; [by left; right|].
      right. eauto.
Qed.

Lemma collect_watched_tmdb_ids_spec wm us W :
  collect_watched_tmdb_ids wm us = Ok W ->
  forall k, k ∈ W <-> exists item, item ∈ wm ++ us /\ catalog_id item k.
Proof.
  unfold collect_watched_tmdb_ids.
  destruct (fold_result add_watched wm ∅) as [W1|] eqn:Hwm; simpl; [|discriminate].
  intros Hus k.
  rewrite (fold_add_watched_spec _ _ _ Hus), (fold_add_watched_spec _ _ _ Hwm). split.
  - intros [[Hk|(it & Hin & Hk)]|(it & Hin & Hk)].
    + by apply not_elem_of_empty in Hk.
    + exists it. split; [apply elem_of_app; by left|done].
    + exists it. split; [apply elem_of_app; by right|done].
  - intros (it & Hin & Hk). apply elem_of_app in Hin as [Hin|Hin].
    + left. right. eauto.
    + right. eauto.
Qed.

(** ** What a run of the aggregator establishes *)

Lemma aggregate_run cfg wm us ml sl w :
  aggregate cfg wm us ml sl w
  = match collect_suggestions cfg wm us ml sl w with
    | (Ok working, w', evs) => (Ok (rank cfg working), w', evs)
    | (Raise x, w', evs) => (Raise x, w', evs)
    end.
Proof.
  unfold aggregate, bind, ret.
  destruct (collect_suggestions cfg wm us ml sl w) as [[[working|x] w'] evs]; [|done].
  by rewrite app_nil_r.
Qed.

Lemma collect_suggestions_Ok cfg wm us ml sl w working w' evs :
  collect_suggestions cfg wm us ml sl w = (Ok working, w', evs) ->
  exists watched ms ss,
    collect_watched_tmdb_ids wm us = Ok watched /\
    working = ms ++ ss /\
    Forall (accepted_from cfg ml watched "Movie" evs) ms /\
    Forall (accepted_from cfg sl watched "Series" evs) ss /\
    NoDup (map sug_Id working).
Proof.
  unfold collect_suggestions. intros Hrun.
  apply bind_Ok in Hrun as (watched & w0 & e0 & e' & Hw & Hrun & ->).
  apply lift_Ok in Hw as (Hw & -> & ->).
  apply bind_Ok in Hrun as (ms & w1 & e1 & e2 & Hms & Hss & ->).
  destruct (similar_loop_appends _ _ _ _ _ _ _ _ _ _ Hms) as (ms' & Hms' & Ham).
  simpl in Hms'. subst ms'.
  destruct (similar_loop_appends _ _ _ _ _ _ _ _ _ _ Hss) as (ss & -> & Has).
  exists watched, ms, ss. simpl. repeat split; try done.
  - eapply Forall_impl; [exact Ham|]. intros c. apply accepted_from_app_l.
  - eapply Forall_impl; [exact Has|]. intros c. apply accepted_from_app_r.
  - eapply similar_loop_NoDup; [|exact Hss].
    eapply similar_loop_NoDup; [|exact Hms]. constructor.
Qed.

(** ** The working list follows the exchanges *)

Lemma consider_offer library watched kind acc r :
  consider library watched kind acc (to_similar r)
  = fold_left add_if_new (offer library watched kind r) acc.
Proof.
  unfold consider, offer. simpl.
  destruct (library !! id r) as [it|]; [|done].
  case_bool_decide; [|done]. done.
Qed.

Lemma fold_consider_offers library watched kind l acc :
  fold_left (consider library watched kind) (map to_similar l) acc
  = fold_left add_if_new (flat_map (offer library watched kind) l) acc.
Proof.
  revert acc. induction l as [|r l IH]; intros acc; simpl; [done|].
  by rewrite fold_left_app, consider_offer, IH.
Qed.

Lemma offers_of_body_nil cfg library watched kind :
  offers_of_body cfg library watched kind [] = [].
Proof. unfold offers_of_body. by rewrite slice_to_nil. Qed.

Lemma offers_for_app cfg library watched kind evs1 evs2 :
  offers_for cfg library watched kind (evs1 ++ evs2)
  = offers_for cfg library watched kind evs1 ++ offers_for cfg library watched kind evs2.
Proof. unfold offers_for. apply flat_map_app. Qed.

Lemma similar_step_offers cfg library watched kind acc item w acc' w' e :
  similar_step cfg library watched kind acc item w = (Ok acc', w', e) ->
  acc' = fold_left add_if_new (offers_for cfg library watched kind e) acc.
Proof.
  unfold similar_step. destruct (tmdb_id_if item) as [s|].
  - intros Hrun. apply bind_Ok in Hrun as (k & w1 & e1 & e2 & Hk & Hrun & ->).
    apply lift_Ok in Hk as (Hk & -> & ->).
    apply bind_Ok in Hrun as (similar & w2 & e3 & e4 & Hsim & Hret & ->).
    apply ret_Ok in Hret as (-> & -> & ->).
    rewrite get_similar_run in Hsim. injection Hsim as <- <- <-.
    unfold offers_for. simpl. rewrite String.eqb_refl, !app_nil_r. simpl.
    destruct (http (GetTmdbSimilar (endpoint_of kind) k) w) as [[status body|] w1]; simpl.
    + destruct (status =? 200).
      * rewrite similar_of_body_filter. apply fold_consider_offers.
      * by rewrite offers_of_body_nil.
    + by rewrite offers_of_body_nil.
  - intros Hrun. by apply ret_Ok in Hrun as (-> & -> & ->).
Qed.

Lemma similar_loop_offers cfg library watched kind items acc w acc' w' e :
  similar_loop cfg library watched kind items acc w = (Ok acc', w', e) ->
  acc' = fold_left add_if_new (offers_for cfg library watched kind e) acc.
Proof.
  intros Hrun. unfold similar_loop in Hrun.
  pose proof (for_each_invariant
                (fun b es => b = fold_left add_if_new
                                   (offers_for cfg library watched kind es) acc)
                (similar_step cfg library watched kind)
                (slice_to items (max_watched_items cfg))) as Hinv.
  apply (fun H => Hinv H acc w acc' w' e [] eq_refl Hrun).
  intros b a w0 b' w0' e0 evs _ -> Hstep.
  apply similar_step_offers in Hstep as ->.
  by rewrite offers_for_app, fold_left_app.
Qed.

(** The requests of a loop that returns: one per item with a catalog
    identifier, in the order of the items. *)
Lemma for_each_similar_requests cfg library watched kind items acc w acc' w' e :
  for_each (similar_step cfg library watched kind) items acc w = (Ok acc', w', e) ->
  map ev_request e = map (GetTmdbSimilar (endpoint_of kind)) (catalog_ids items).
Proof.
  revert acc w e. induction items as [|item items IH]; intros acc w e Hrun; simpl in Hrun.
  - by apply ret_Ok in Hrun as (_ & _ & ->).
  - apply bind_Ok in Hrun as (b & w1 & e1 & e2 & Hstep & Hrest & ->).
    rewrite map_app, (IH _ _ _ Hrest). unfold catalog_ids. simpl.
    unfold similar_step in Hstep. destruct (tmdb_id_if item) as [s|].
    + apply bind_Ok in Hstep as (k & wa & ea & eb & Hk & Hstep & ->).
      apply lift_Ok in Hk as (Hk & -> & ->).
      apply bind_Ok in Hstep as (similar & wb & ec & ed & Hsim & Hret & ->).
      apply ret_Ok in Hret as (_ & _ & ->).
      rewrite get_similar_run in Hsim. injection Hsim as _ _ <-.
      unfold int_of in Hk. destruct (py_int s) as [z|]; [|discriminate].
      injection Hk as ->. done.
    + by apply ret_Ok in Hstep as (_ & _ & ->).
Qed.

Lemma offers_split cfg ml sl watched e1 e2 km ks :
  map ev_request e1 = map (GetTmdbSimilar "movie") km ->
  map ev_request e2 = map (GetTmdbSimilar "tv") ks ->
  offers cfg ml sl watched (e1 ++ e2)
  = offers_for cfg ml watched "Movie" e1 ++ offers_for cfg sl watched "Series" e2.
Proof.
  intros H1 H2. unfold offers, offers_for. rewrite flat_map_app. f_equal.
  - clear H2. revert km H1. induction e1 as [|[r a] e1 IH]; intros km H1; [done|].
    destruct km as [|k km]; [discriminate|]. simpl in H1. injection H1 as -> H1.
    simpl flat_map. rewrite (IH _ H1). f_equal.
    destruct a; by rewrite !offers_of_body_nil, ?app_nil_r.
  - clear H1. revert ks H2. induction e2 as [|[r a] e2 IH]; intros ks H2; [done|].
    destruct ks as [|k ks]; [discriminate|]. simpl in H2. injection H2 as -> H2.
    simpl flat_map. rewrite (IH _ H2). f_equal.
    destruct a; by rewrite !offers_of_body_nil.
Qed.

Lemma collect_suggestions_follows cfg wm us ml sl w working w' evs :
  collect_suggestions cfg wm us ml sl w = (Ok working, w', evs) ->
  exists watched,
    collect_watched_tmdb_ids wm us = Ok watched /\
    working = first_by_Id (offers cfg ml sl watched evs) /\
    map ev_request evs
    = map (GetTmdbSimilar "movie") (catalog_ids (slice_to wm (max_watched_items cfg))) ++
      map (GetTmdbSimilar "tv") (catalog_ids (slice_to us (max_watched_items cfg))).
Proof.
  unfold collect_suggestions. intros Hrun.
  apply bind_Ok in Hrun as (watched & w0 & e0 & e' & Hw & Hrun & ->).
  apply lift_Ok in Hw as (Hw & -> & ->).
  apply bind_Ok in Hrun as (ms & w1 & e1 & e2 & Hms & Hss & ->).
  pose proof (for_each_similar_requests _ _ _ _ _ _ _ _ _ _ Hms) as Hr1.
  pose proof (for_each_similar_requests _ _ _ _ _ _ _ _ _ _ Hss) as Hr2.
  apply similar_loop_offers in Hms as ->. apply similar_loop_offers in Hss as ->.
  exists watched. simpl. split; [done|]. split.
  - unfold first_by_Id. by rewrite (offers_split _ _ _ _ _ _ _ _ Hr1 Hr2), fold_left_app.
  - by rewrite map_app, Hr1, Hr2.
Qed.

Lemma aggregate_Ok cfg wm us ml sl w out :
  result_of (aggregate cfg wm us ml sl w) = Ok out ->
  exists working,
    collect_suggestions cfg wm us ml sl w
    = (Ok working, world_of (aggregate cfg wm us ml sl w),
       events_of (aggregate cfg wm us ml sl w)) /\
    out = rank cfg working.
Proof.
  rewrite aggregate_run.
  destruct (collect_suggestions cfg wm us ml sl w) as [[[working|x] w'] evs];
    unfold result_of, world_of, events_of; simpl; [|discriminate].
  intros [= <-]. eauto.
Qed.

(** ** When the aggregator returns

    The only thing that can stop it is [int] on a watched item's catalog
    identifier.  Once the exclusion set is built, every identifier has been
    read, and the two loops run to their end whatever the provider
    answers. *)

Lemma fold_add_watched_parses l W0 W :
  fold_result add_watched l W0 = Ok W ->
  forall item s, item ∈ l -> tmdb_id_if item = Some s -> is_Some (py_int s).
Proof.
  revert W0. induction l as [|x l IH]; intros W0; simpl.
  - intros _ item s Hin. by apply not_elem_of_nil in Hin.
  - destruct (add_watched W0 x) as [W1|] eqn:Hadd; simpl; [|discriminate].
    intros Hrest item s Hin Hs. apply elem_of_cons in Hin as [->|Hin].
    + unfold add_watched, int_of in Hadd. rewrite Hs in Hadd.
      destruct (py_int s); [by eexists|discriminate].
    + eapply IH; eauto.
Qed.

Lemma similar_step_returns cfg library watched kind acc item w :
  (forall s, tmdb_id_if item = Some s -> is_Some (py_int s)) ->
  exists acc', result_of (similar_step cfg library watched kind acc item w) = Ok acc'.
Proof.
  intros Hparse. unfold similar_step. destruct (tmdb_id_if item) as [s|]; [|by eexists].
  destruct (Hparse s eq_refl) as [k Hk].
  unfold bind, lift, int_of, ret, result_of. rewrite Hk, get_similar_run. by eexists.
Qed.

Lemma for_each_similar_returns cfg library watched kind items acc w :
  (forall item s, item ∈ items -> tmdb_id_if item = Some s -> is_Some (py_int s)) ->
  exists acc',
    result_of (for_each (similar_step cfg library watched kind) items acc w) = Ok acc'.
Proof.
  revert acc w. induction items as [|item items IH]; intros acc w Hparse; simpl.
  - by eexists.
  - destruct (similar_step_returns cfg library watched kind acc item w) as [acc1 Hstep].
    { intros s. apply Hparse. by left. }
    unfold bind, result_of in *.
    destruct (similar_step cfg library watched kind acc item w) as [[r w1] e1].
    simpl in Hstep. subst r.
    destruct (IH acc1 w1) as [acc' Hrest].
    { intros it s Hin. apply Hparse. by right. }
    destruct (for_each _ items acc1 w1) as [[r w2] e2]. simpl in *. by eexists.
Qed.

Lemma similar_loop_returns cfg library watched kind items acc w :
  (forall item s, item ∈ items -> tmdb_id_if item = Some s -> is_Some (py_int s)) ->
  exists acc', result_of (similar_loop cfg library watched kind items acc w) = Ok acc'.
Proof.
  intros Hparse. apply for_each_similar_returns.
  intros item s Hin. apply Hparse. by apply (slice_to_subseteq items (max_watched_items cfg)).
Qed.

Lemma aggregate_returns cfg wm us ml sl w watched :
  collect_watched_tmdb_ids wm us = Ok watched ->
  exists out, result_of (aggregate cfg wm us ml sl w) = Ok out.
Proof.
  intros Hw. rewrite aggregate_run.
  assert (forall item s, item ∈ wm -> tmdb_id_if item = Some s -> is_Some (py_int s)) as Hwm.
  { revert Hw. unfold collect_watched_tmdb_ids.
    destruct (fold_result add_watched wm ∅) eqn:Hf; simpl; [|discriminate].
    intros _. by eapply fold_add_watched_parses. }
  assert (forall item s, item ∈ us -> tmdb_id_if item = Some s -> is_Some (py_int s)) as Hus.
  { revert Hw. unfold collect_watched_tmdb_ids.
    destruct (fold_result add_watched wm ∅) eqn:Hf; simpl; [|discriminate].
    intros Hf'. by eapply fold_add_watched_parses. }
  unfold collect_suggestions, bind, lift. rewrite Hw.
  destruct (similar_loop_returns cfg ml watched "Movie" wm [] w Hwm) as [ms Hms].
  unfold result_of in *.
  destruct (similar_loop cfg ml watched "Movie" wm [] w) as [[r w1] e1].
  simpl in Hms. subst r.
  destruct (similar_loop_returns cfg sl watched "Series" us ms w1 Hus) as [ss Hss].
  unfold result_of in *.
  destruct (similar_loop cfg sl watched "Series" us ms w1) as [[r w2] e2].
  simpl in Hss. subst r. simpl. by eexists.
Qed.

(** ** Ranking *)

Lemma rank_subseteq cfg l : rank cfg l ⊆ l.
Proof.
  unfold rank. intros c Hc. apply slice_to_subseteq in Hc.
  by rewrite sort_by_score_perm in Hc.
Qed.

Lemma rank_NoDup cfg l : NoDup (map sug_Id l) -> NoDup (map sug_Id (rank cfg l)).
Proof.
  intros Hl. unfold rank.
  rewrite slice_to_map. eapply sublist_NoDup; [|apply slice_to_sublist].
  change (NoDup (sug_Id <$> sort_by_score l)). by rewrite sort_by_score_perm.
Qed.

Lemma rank_sorted cfg l : StronglySorted score_ge (rank cfg l).
Proof.
  unfold rank. destruct (slice_to_prefix (sort_by_score l) (max_playlist_items cfg)) as [k Hk].
  pose proof (sort_by_score_sorted l) as Hs. rewrite Hk in Hs.
  by apply StronglySorted_app_1_l in Hs.
Qed.

Lemma rank_stable cfg l q : with_score q (rank cfg l) `prefix_of` with_score q l.
Proof.
  unfold rank. destruct (slice_to_prefix (sort_by_score l) (max_playlist_items cfg)) as [k Hk].
  rewrite <- (sort_by_score_stable q l). rewrite Hk at 2.
  rewrite with_score_app. by eexists.
Qed.

Lemma rank_length cfg l :
  0 <= max_playlist_items cfg -> Z.of_nat (length (rank cfg l)) <= max_playlist_items cfg.
Proof. intros Hn. unfold rank. by apply slice_to_length. Qed.

(** ** The aggregator *)

(** C2: the exclusion invariant.  When the aggregator returns, the
    exclusion set holds exactly the catalog identifiers of the watched
    movies and of the resolved watched series, and every suggestion it
    returns was built from a delivered result whose catalog identifier is
    outside that set, whichever watched item the result was delivered
    for. *)
Theorem watched_never_suggested cfg wm us ml sl w out :
  result_of (aggregate cfg wm us ml sl w) = Ok out ->
  exists watched,
    collect_watched_tmdb_ids wm us = Ok watched /\
    (forall k, k ∈ watched <-> exists item, item ∈ wm ++ us /\ catalog_id item k) /\
    forall c, c ∈ out ->
      exists r jellyfin_item,
        r ∈ delivered (endpoint_of (sug_Type c))
                      (events_of (aggregate cfg wm us ml sl w)) /\
        library_of ml sl (sug_Type c) !! (id r) = Some jellyfin_item /\
        sug_Id c = Id jellyfin_item /\
        sug_Score c = default 0%Q (vote_average r) /\
        id r ∉ watched.
Proof.
  intros Hout. apply aggregate_Ok in Hout as (working & Hrun & ->).
  apply collect_suggestions_Ok in Hrun as (watched & ms & ss & Hw & -> & Hm & Hs & _).
  exists watched. split; [done|]. split; [by apply collect_watched_tmdb_ids_spec|].
  intros c Hc. apply rank_subseteq, elem_of_app in Hc as [Hc|Hc].
  - rewrite Forall_forall in Hm.
    destruct (Hm c Hc) as (r & it & Hr & _ & Hlib & Hnw & ->). by exists r, it.
  - rewrite Forall_forall in Hs.
    destruct (Hs c Hc) as (r & it & Hr & _ & Hlib & Hnw & ->). by exists r, it.
Qed.

(** C3: the dedup invariant.  No two suggestions the aggregator returns
    carry the same server-local identifier. *)
Theorem suggestions_distinct cfg wm us ml sl w out :
  result_of (aggregate cfg wm us ml sl w) = Ok out ->
  NoDup (map sug_Id out).
Proof.
  intros Hout. apply aggregate_Ok in Hout as (working & Hrun & ->).
  apply collect_suggestions_Ok in Hrun as (_ & _ & _ & _ & _ & _ & _ & Hnd).
  by apply rank_NoDup.
Qed.

(** C4: the ranking.  The returned list is ordered by score, never
    ascending, and suggestions of one score stand in the order they have in
    the working list.  The working list is in order of first insertion:
    the requests go out one per watched item in history order, movies
    before series; the entries the replies offer are taken in the order of
    the replies and, inside a reply, in the provider's order; an entry is
    kept the first time its identifier comes up.  So every suggestion drawn
    from a movie was inserted before every one drawn from a series. *)
Theorem suggestions_ranked cfg wm us ml sl w out :
  result_of (aggregate cfg wm us ml sl w) = Ok out ->
  exists watched ms ss,
    collect_watched_tmdb_ids wm us = Ok watched /\
    result_of (collect_suggestions cfg wm us ml sl w) = Ok (ms ++ ss) /\
    Forall (fun c => sug_Type c = "Movie") ms /\
    Forall (fun c => sug_Type c = "Series") ss /\
    map ev_request (events_of (aggregate cfg wm us ml sl w))
    = map (GetTmdbSimilar "movie") (catalog_ids (slice_to wm (max_watched_items cfg))) ++
      map (GetTmdbSimilar "tv") (catalog_ids (slice_to us (max_watched_items cfg))) /\
    ms ++ ss = first_by_Id (offers cfg ml sl watched
                              (events_of (aggregate cfg wm us ml sl w))) /\
    StronglySorted score_ge out /\
    forall q, with_score q out `prefix_of` with_score q (ms ++ ss).
Proof.
  intros Hout. apply aggregate_Ok in Hout as (working & Hrun & ->).
  destruct (collect_suggestions_Ok _ _ _ _ _ _ _ _ _ Hrun)
    as (watched & ms & ss & Hw & -> & Hm & Hs & _).
  destruct (collect_suggestions_follows _ _ _ _ _ _ _ _ _ Hrun)
    as (watched' & Hw' & Hfirst & Hreq).
  assert (watched' = watched) as -> by congruence.
  exists watched, ms, ss. rewrite Hrun. split; [done|]. split; [done|]. repeat split.
  - eapply Forall_impl; [exact Hm|]. intros c. apply accepted_from_kind.
  - eapply Forall_impl; [exact Hs|]. intros c. apply accepted_from_kind.
  - exact Hreq.
  - exact Hfirst.
  - apply rank_sorted.
  - intros q. apply rank_stable.
Qed.

(** C5: the size bound.  With a playlist size that is not negative, the
    aggregator returns at most that many suggestions, whatever the history
    and the provider's answers. *)
Theorem suggestions_bounded cfg wm us ml sl w out :
  0 <= max_playlist_items cfg ->
  result_of (aggregate cfg wm us ml sl w) = Ok out ->
  Z.of_nat (length out) <= max_playlist_items cfg.
Proof.
  intros Hn Hout. apply aggregate_Ok in Hout as (working & _ & ->).
  by apply rank_length.
Qed.

(** C6: the three conditions.  Every suggestion the aggregator returns
    was built from a delivered result whose rating reaches the minimum
    rating, whose vote count reaches the minimum vote count, and whose
    catalog identifier the library of the matching kind lists; and when no
    delivered result meets all three, nothing is suggested. *)
Theorem suggestion_meets_conditions cfg wm us ml sl w out :
  result_of (aggregate cfg wm us ml sl w) = Ok out ->
  (forall c, c ∈ out ->
     exists r jellyfin_item,
       r ∈ delivered (endpoint_of (sug_Type c))
                     (events_of (aggregate cfg wm us ml sl w)) /\
       (min_tmdb_rating cfg <= default 0 (vote_average r))%Q /\
       min_tmdb_votes cfg <= default 0 (vote_count r) /\
       library_of ml sl (sug_Type c) !! (id r) = Some jellyfin_item /\
       c = {| sug_Id := Id jellyfin_item;
              sug_Name := Name jellyfin_item;
              sug_Type := sug_Type c;
              sug_Score := default 0%Q (vote_average r) |}) /\
  ((forall kind r,
       r ∈ delivered (endpoint_of kind) (events_of (aggregate cfg wm us ml sl w)) ->
       (min_tmdb_rating cfg <= default 0 (vote_average r))%Q ->
       min_tmdb_votes cfg <= default 0 (vote_count r) ->
       library_of ml sl kind !! (id r) = None) ->
   out = []).
Proof.
  intros Hout. apply aggregate_Ok in Hout as (working & Hrun & ->).
  apply collect_suggestions_Ok in Hrun as (watched & ms & ss & _ & -> & Hm & Hs & _).
  assert (forall c, c ∈ rank cfg (ms ++ ss) ->
            exists r jellyfin_item,
              r ∈ delivered (endpoint_of (sug_Type c))
                            (events_of (aggregate cfg wm us ml sl w)) /\
              (min_tmdb_rating cfg <= default 0 (vote_average r))%Q /\
              min_tmdb_votes cfg <= default 0 (vote_count r) /\
              library_of ml sl (sug_Type c) !! (id r) = Some jellyfin_item /\
              c = {| sug_Id := Id jellyfin_item;
                     sug_Name := Name jellyfin_item;
                     sug_Type := sug_Type c;
                     sug_Score := default 0%Q (vote_average r) |}) as Hall.
  { intros c Hc. rewrite Forall_forall in Hm, Hs.
    apply rank_subseteq, elem_of_app in Hc as [Hc|Hc];
      [destruct (Hm c Hc) as (r & it & Hr & Hq & Hlib & _ & ->)
      |destruct (Hs c Hc) as (r & it & Hr & Hq & Hlib & _ & ->)];
      exists r, it; unfold passes_quality in Hq;
      apply andb_true_iff in Hq as [Hq1 Hq2];
      apply Qle_bool_iff in Hq1; apply Z.leb_le in Hq2; by simpl. }
  split; [exact Hall|].
  intros Hnone. destruct (rank cfg (ms ++ ss)) as [|c rest] eqn:Hrank; [done|].
  destruct (Hall c) as (r & it & Hr & Hq1 & Hq2 & Hlib & _); [by left|].
  rewrite (Hnone _ _ Hr Hq1 Hq2) in Hlib. discriminate.
Qed.

(** ** Exchanges and the world *)

Lemma sound_ret {A} P (a : A) : sound P (ret a).
Proof. intros w. split; [done|constructor]. Qed.

Lemma sound_raise {A} P e : sound P (@raise A e).
Proof. intros w. split; [done|constructor]. Qed.

Lemma sound_lift {A} P (r : result A) : sound P (lift r).
Proof. intros w. split; [done|constructor]. Qed.

Lemma sound_call P r : P r -> sound P (call r).
Proof.
  intros HP w. unfold call, world_of, events_of, play.
  destruct (http r w) as [a w1] eqn:Hr. simpl. rewrite Hr. split; [done|].
  by repeat constructor.
Qed.

Lemma play_app evs1 evs2 w : play (evs1 ++ evs2) w = play evs2 (play evs1 w).
Proof. unfold play. apply fold_left_app. Qed.

Lemma sound_bind {A B} P (m : M A) (f : A -> M B) :
  sound P m -> (forall a, sound P (f a)) -> sound P (bind m f).
Proof.
  intros Hm Hf w. destruct (Hm w) as [Hw He]. revert Hw He.
  unfold bind, world_of, events_of.
  destruct (m w) as [[[a|x] w1] e1]; simpl; [|done].
  intros -> He. destruct (Hf a (play e1 w)) as [Hw2 He2]. revert Hw2 He2.
  unfold world_of, events_of.
  destruct (f a (play e1 w)) as [[r w2] e2]; simpl. intros -> He2.
  rewrite play_app. split; [done|]. by apply Forall_app.
Qed.

Lemma sound_for_each {A B} P (body : B -> A -> M B) l b :
  (forall b0 a, sound P (body b0 a)) -> sound P (for_each body l b).
Proof.
  intros Hbody. revert b. induction l as [|a l IH]; intros b; simpl.
  - apply sound_ret.
  - apply sound_bind; [apply Hbody|apply IH].
Qed.

Lemma sound_jellyfin_call P r : P r -> sound P (jellyfin_call r).
Proof.
  intros HP. apply sound_bind; [by apply sound_call|].
  intros [status json|]; [apply sound_ret|apply sound_raise].
Qed.

Lemma sound_get_watched_items cfg user_id media_type :
  sound read_only (get_watched_items cfg user_id media_type).
Proof.
  apply sound_bind; [by apply sound_jellyfin_call|].
  intros resp. destruct (fst resp =? 200); apply sound_ret.
Qed.

Lemma sound_get_series_info user_id series_id :
  sound read_only (get_series_info user_id series_id).
Proof.
  apply sound_bind; [by apply sound_jellyfin_call|].
  intros resp. destruct (fst resp =? 200); apply sound_ret.
Qed.

Lemma sound_fetch_watched cfg user_id : sound read_only (fetch_watched cfg user_id).
Proof.
  apply sound_bind; [apply sound_get_watched_items|]. intros watched_movies.
  apply sound_bind; [apply sound_get_watched_items|]. intros watched_series.
  apply sound_bind; [|intros; apply sound_ret].
  apply sound_for_each. intros st episode. unfold unique_series_step.
  destruct (SeriesId episode) as [series_id|]; [|apply sound_ret].
  destruct (truthy series_id && _); [|apply sound_ret].
  apply sound_bind; [apply sound_get_series_info|intros; apply sound_ret].
Qed.

Lemma play_read_only {X} (obs : World -> X) evs w :
  (forall r w0, is_write r = false -> obs (snd (http r w0)) = obs w0) ->
  Forall (fun e => read_only (ev_request e)) evs ->
  obs (play evs w) = obs w.
Proof.
  intros Hobs Hevs. revert w. induction Hevs as [|e evs He _ IH]; intros w; [done|].
  unfold play in *. simpl. rewrite IH. by apply Hobs.
Qed.

Lemma aggregate_nothing_watched cfg ml sl w :
  aggregate cfg [] [] ml sl w = (Ok [], w, []).
Proof.
  rewrite aggregate_run. unfold collect_suggestions, similar_loop.
  rewrite !slice_to_nil. unfold rank. simpl. by rewrite slice_to_nil.
Qed.

(** C7: nothing watched, nothing written.  When the history fetched for a
    user holds no watched movie and no resolved watched series, the
    aggregator returns the empty list, [process_user] returns without
    calling [update_playlist], every request it made is a read, and
    whatever reads leave unchanged on the server is unchanged. *)
Theorem empty_history_writes_nothing {X} (obs : World -> X) cfg user ml sl w :
  (forall r w0, is_write r = false -> obs (snd (http r w0)) = obs w0) ->
  result_of (fetch_watched cfg (user_Id user) w) = Ok ([], []) ->
  (forall w0, aggregate cfg [] [] ml sl w0 = (Ok [], w0, [])) /\
  result_of (process_user cfg user ml sl w) = Ok tt /\
  Forall (fun e => is_write (ev_request e) = false)
         (events_of (process_user cfg user ml sl w)) /\
  obs (world_of (process_user cfg user ml sl w)) = obs w.
Proof.
  intros Hobs Hfetch. split; [intros; apply aggregate_nothing_watched|].
  destruct (sound_fetch_watched cfg (user_Id user) w) as [Hw He].
  unfold process_user. revert Hfetch Hw He. unfold bind, result_of, world_of, events_of.
  destruct (fetch_watched cfg (user_Id user) w) as [[r w1] e1]. simpl.
  intros -> -> He. simpl. rewrite aggregate_nothing_watched. simpl.
  rewrite !app_nil_r. repeat split; [done|].
  by apply play_read_only.
Qed.

(** ** The library index *)

(** [get_library_items] files every item under its own catalog identifier,
    and leaves out the items that have none. *)
Lemma index_item_keys items lib0 lib :
  fold_result index_item items lib0 = Ok lib ->
  (forall k it, lib0 !! k = Some it -> catalog_id it k) ->
  forall k it, lib !! k = Some it -> catalog_id it k.
Proof.
  revert lib0. induction items as [|item items IH]; intros lib0; simpl.
  - intros [= <-] H0. exact H0.
  - destruct (index_item lib0 item) as [lib1|] eqn:Hitem; simpl; [|discriminate].
    intros Hrest H0. apply (IH _ Hrest).
    intros k it Hk. revert Hitem. unfold index_item, int_of.
    destruct (tmdb_id_if item) as [s|] eqn:Hs.
    + destruct (py_int s) as [z|] eqn:Hz; simpl; [|discriminate].
      intros [= <-]. destruct (decide (z = k)) as [->|Hne].
      * rewrite lookup_insert_eq in Hk. injection Hk as <-. exists s. done.
      * rewrite lookup_insert_ne in Hk by done. by apply H0.
    + intros [= <-]. by apply H0.
Qed.

Lemma jellyfin_call_run r w :
  jellyfin_call r w
  = (match fst (http r w) with
     | Answer status json => Ok (status, json)
     | Dropped => Raise ClientError
     end, snd (http r w), [Ev r (fst (http r w))]).
Proof.
  unfold jellyfin_call, bind, call. by destruct (http r w) as [[status json|] w1].
Qed.

Lemma get_library_items_keys media_type w lib :
  result_of (get_library_items media_type w) = Ok lib ->
  forall k it, lib !! k = Some it -> catalog_id it k.
Proof.
  unfold get_library_items, bind, result_of. rewrite jellyfin_call_run.
  destruct (http (GetLibraryItems media_type) w) as [[status json|] w1]; simpl; [|discriminate].
  unfold lift, ret. destruct (status =? 200); simpl.
  - destruct (fold_result index_item json ∅) as [lib1|] eqn:Hfold; simpl; [|discriminate].
    intros [= <-]. eapply index_item_keys; [exact Hfold|].
    intros k it Hk. by rewrite lookup_empty in Hk.
  - intros [= <-] k it Hk. by rewrite lookup_empty in Hk.
Qed.

(** ** Start-up *)

Lemma from_env_missing env :
  env "JELLYFIN_URL" = None \/ env "JELLYFIN_API_KEY" = None \/ env "TMDB_API_KEY" = None ->
  from_env env = Raise ValueError.
Proof.
  intros Hmiss. unfold from_env.
  assert (forallb truthy [rstrip_slash (getenv env "JELLYFIN_URL" "");
                          getenv env "JELLYFIN_API_KEY" "";
                          getenv env "TMDB_API_KEY" ""] = false) as ->; [|done].
  unfold getenv. simpl. destruct Hmiss as [-> | [-> | ->]]; simpl.
  - done.
  - apply andb_false_r.
  - rewrite andb_false_r. apply andb_false_r.
Qed.

(** C8: a missing mandatory setting.  If the server URL, the server API
    key or the provider API key is absent from the environment,
    [Config.from_env] raises ValueError, and [main] ends by [SystemExit(1)]
    in the world it started in, without a single request made. *)
Theorem missing_setting_aborts env w :
  env "JELLYFIN_URL" = None \/ env "JELLYFIN_API_KEY" = None \/ env "TMDB_API_KEY" = None ->
  from_env env = Raise ValueError /\
  main env w = (SystemExit 1, w, []) /\
  exit_status (fst (fst (main env w))) <> 0.
Proof.
  intros Hmiss. pose proof (from_env_missing env Hmiss) as Hraise.
  unfold main. rewrite Hraise. simpl. split; [done|]. split; [done|]. lia.
Qed.

(** ** Watched items without a catalog identifier *)

Lemma add_watched_skip W item : tmdb_id_if item = None -> add_watched W item = Ok W.
Proof. intros Hnone. unfold add_watched. by rewrite Hnone. Qed.

Lemma similar_step_skip cfg library watched kind acc item w :
  tmdb_id_if item = None ->
  similar_step cfg library watched kind acc item w = (Ok acc, w, []).
Proof. intros Hnone. unfold similar_step. by rewrite Hnone. Qed.

Lemma fold_result_skip {A B} (body : B -> A -> result B) l1 a l2 b :
  (forall b0, body b0 a = Ok b0) ->
  fold_result body (l1 ++ a :: l2) b = fold_result body (l1 ++ l2) b.
Proof.
  intros Hskip. revert b. induction l1 as [|x l1 IH]; intros b; simpl.
  - by rewrite Hskip.
  - destruct (body b x); simpl; [apply IH|done].
Qed.

Lemma for_each_skip {A B} (body : B -> A -> M B) l1 a l2 b w :
  (forall b0 w0, body b0 a w0 = (Ok b0, w0, [])) ->
  for_each body (l1 ++ a :: l2) b w = for_each body (l1 ++ l2) b w.
Proof.
  intros Hskip. revert b w. induction l1 as [|x l1 IH]; intros b w; simpl.
  - unfold bind. rewrite Hskip. by destruct (for_each body l2 b w) as [[r w'] e].
  - unfold bind. destruct (body b x w) as [[[b'|e] w1] e1]; [|done].
    by rewrite IH.
Qed.

Lemma collect_watched_skip_movie m1 item m2 us :
  tmdb_id_if item = None ->
  collect_watched_tmdb_ids (m1 ++ item :: m2) us = collect_watched_tmdb_ids (m1 ++ m2) us.
Proof.
  intros Hnone. unfold collect_watched_tmdb_ids.
  rewrite fold_result_skip; [done|]. intros. by apply add_watched_skip.
Qed.

Lemma collect_watched_skip_series wm s1 item s2 :
  tmdb_id_if item = None ->
  collect_watched_tmdb_ids wm (s1 ++ item :: s2) = collect_watched_tmdb_ids wm (s1 ++ s2).
Proof.
  intros Hnone. unfold collect_watched_tmdb_ids.
  destruct (fold_result add_watched wm ∅); simpl; [|done].
  rewrite fold_result_skip; [done|]. intros. by apply add_watched_skip.
Qed.

Lemma similar_loop_skip cfg library watched kind l1 item l2 acc w :
  tmdb_id_if item = None ->
  Z.of_nat (length (l1 ++ item :: l2)) <= max_watched_items cfg ->
  similar_loop cfg library watched kind (l1 ++ item :: l2) acc w
  = similar_loop cfg library watched kind (l1 ++ l2) acc w.
Proof.
  intros Hnone Hlen. unfold similar_loop.
  rewrite !slice_to_all; [|revert Hlen; rewrite !length_app; simpl; lia|done].
  apply for_each_skip. intros. by apply similar_step_skip.
Qed.

(** C9: a watched item without a catalog identifier is passed over.  It
    adds nothing to the exclusion set; its turn in the similarity loop
    makes no request and leaves the working list and the world as they
    were; and the loops treat a history with it exactly as the history
    without it.  With the history inside the watched-items cap, the
    aggregator as a whole cannot tell the two histories apart. *)
Theorem item_without_catalog_id_skipped item :
  tmdb_id_if item = None ->
  (forall W, add_watched W item = Ok W) /\
  (forall cfg library watched kind acc w,
      similar_step cfg library watched kind acc item w = (Ok acc, w, [])) /\
  (forall m1 m2 us,
      collect_watched_tmdb_ids (m1 ++ item :: m2) us
      = collect_watched_tmdb_ids (m1 ++ m2) us) /\
  (forall wm s1 s2,
      collect_watched_tmdb_ids wm (s1 ++ item :: s2)
      = collect_watched_tmdb_ids wm (s1 ++ s2)) /\
  (forall cfg library watched kind l1 l2 acc w,
      for_each (similar_step cfg library watched kind) (l1 ++ item :: l2) acc w
      = for_each (similar_step cfg library watched kind) (l1 ++ l2) acc w) /\
  (forall cfg m1 m2 us ml sl w,
      Z.of_nat (length (m1 ++ item :: m2)) <= max_watched_items cfg ->
      aggregate cfg (m1 ++ item :: m2) us ml sl w = aggregate cfg (m1 ++ m2) us ml sl w) /\
  (forall cfg wm s1 s2 ml sl w,
      Z.of_nat (length (s1 ++ item :: s2)) <= max_watched_items cfg ->
      aggregate cfg wm (s1 ++ item :: s2) ml sl w = aggregate cfg wm (s1 ++ s2) ml sl w).
Proof.
  intros Hnone. repeat split.
  - intros. by apply add_watched_skip.
  - intros. by apply similar_step_skip.
  - intros. by apply collect_watched_skip_movie.
  - intros. by apply collect_watched_skip_series.
  - intros. apply for_each_skip. intros. by apply similar_step_skip.
  - intros cfg m1 m2 us ml sl w Hlen. rewrite !aggregate_run.
    unfold collect_suggestions, bind.
    rewrite collect_watched_skip_movie by done.
    destruct (lift (collect_watched_tmdb_ids (m1 ++ m2) us) w) as [[[W|x] w0] e0]; [|done].
    by rewrite similar_loop_skip.
  - intros cfg wm s1 s2 ml sl w Hlen. rewrite !aggregate_run.
    unfold collect_suggestions, bind.
    rewrite collect_watched_skip_series by done.
    destruct (lift (collect_watched_tmdb_ids wm (s1 ++ s2)) w) as [[[W|x] w0] e0]; [|done].
    destruct (similar_loop cfg ml W "Movie" wm [] w0) as [[[ms|x] w1] e1]; [|done].
    by rewrite similar_loop_skip.
Qed.

(** ** Updating an existing playlist *)

Lemma jellyfin_call_answer r w status json w' :
  http r w = (Answer status json, w') ->
  jellyfin_call r w = (Ok (status, json), w', [Ev r (Answer status json)]).
Proof. intros Hr. unfold jellyfin_call, bind, call. by rewrite Hr. Qed.

Lemma get_user_playlists_answer user_id w playlists w' :
  http (GetUserPlaylists user_id) w = (Answer 200 playlists, w') ->
  get_user_playlists user_id w
  = (Ok playlists, w', [Ev (GetUserPlaylists user_id) (Answer 200 playlists)]).
Proof.
  intros Hr. unfold get_user_playlists, bind.
  by rewrite (jellyfin_call_answer _ _ _ _ _ Hr).
Qed.

Lemma get_playlist_items_answer playlist_id user_id w current w' :
  http (GetPlaylistItems playlist_id user_id) w = (Answer 200 current, w') ->
  get_playlist_items playlist_id user_id w
  = (Ok current, w', [Ev (GetPlaylistItems playlist_id user_id) (Answer 200 current)]).
Proof.
  intros Hr. unfold get_playlist_items, bind.
  by rewrite (jellyfin_call_answer _ _ _ _ _ Hr).
Qed.

Lemma clear_playlist_answer playlist_id item_ids w status w' :
  item_ids <> [] ->
  http (DeletePlaylistItems playlist_id item_ids) w = (Answer status tt, w') ->
  clear_playlist playlist_id item_ids w
  = (Ok (status =? 204), w',
     [Ev (DeletePlaylistItems playlist_id item_ids) (Answer status tt)]).
Proof.
  intros Hne Hr. unfold clear_playlist, bind. destruct item_ids; [done|].
  by rewrite (jellyfin_call_answer _ _ _ _ _ Hr).
Qed.

Lemma add_to_playlist_answer playlist_id user_id item_ids w status w' :
  item_ids <> [] ->
  http (PostPlaylistItems playlist_id user_id item_ids) w = (Answer status tt, w') ->
  add_to_playlist playlist_id user_id item_ids w
  = (Ok (status =? 204), w',
     [Ev (PostPlaylistItems playlist_id user_id item_ids) (Answer status tt)]).
Proof.
  intros Hne Hr. unfold add_to_playlist, bind. destruct item_ids; [done|].
  by rewrite (jellyfin_call_answer _ _ _ _ _ Hr).
Qed.

(** The exchanges of an update that finds the playlist with entries in it:
    list the playlists, list the entries, clear, append.  The append is
    sent whatever status the clear was answered with. *)
Lemma update_playlist_existing cfg user_id user_name items w0 w1 w2 w3 w4
    playlists p current cleared appended :
  http (GetUserPlaylists user_id) w0 = (Answer 200 playlists, w1) ->
  List.find (fun q => String.eqb (Name q) (playlist_name cfg)) playlists = Some p ->
  http (GetPlaylistItems (Id p) user_id) w1 = (Answer 200 current, w2) ->
  current <> [] ->
  items <> [] ->
  http (DeletePlaylistItems (Id p) (map PlaylistItemId current)) w2
    = (Answer cleared tt, w3) ->
  http (PostPlaylistItems (Id p) user_id (map sug_Id items)) w3
    = (Answer appended tt, w4) ->
  update_playlist cfg user_id user_name items w0
  = (Ok tt, w4,
     [Ev (GetUserPlaylists user_id) (Answer 200 playlists);
      Ev (GetPlaylistItems (Id p) user_id) (Answer 200 current);
      Ev (DeletePlaylistItems (Id p) (map PlaylistItemId current)) (Answer cleared tt);
      Ev (PostPlaylistItems (Id p) user_id (map sug_Id items)) (Answer appended tt)]).
Proof.
  intros Hlist Hfind Hentries Hcur Hitems Hclear Happend.
  assert (map PlaylistItemId current <> []) as Hcur' by (by destruct current).
  assert (map sug_Id items <> []) as Hitems' by (by destruct items).
  unfold update_playlist, bind.
  rewrite (get_user_playlists_answer _ _ _ _ Hlist), Hfind.
  rewrite (get_playlist_items_answer _ _ _ _ _ Hentries).
  destruct current as [|c0 current]; [done|].
  rewrite (clear_playlist_answer _ _ _ _ _ Hcur' Hclear).
  rewrite (add_to_playlist_answer _ _ _ _ _ _ Hitems' Happend).
  reflexivity.
Qed.

Section Playlists.

(** What the server holds in a playlist, and three facts about how it
    answers: the listing shows the playlist as it is, a clear answered with
    anything but 204 removed nothing, an append answered with 204 put the
    items at the end. *)
Variable contents : World -> string -> list string.

Hypothesis listing_shows : forall pid uid w current w',
  http (GetPlaylistItems pid uid) w = (Answer 200 current, w') ->
  contents w' pid = map Id current.

Hypothesis refused_clear_keeps : forall pid entry_ids w status w',
  http (DeletePlaylistItems pid entry_ids) w = (Answer status tt, w') ->
  status <> 204 ->
  contents w' = contents w.

Hypothesis append_adds : forall pid uid ids w w',
  http (PostPlaylistItems pid uid ids) w = (Answer 204 tt, w') ->
  contents w' pid = contents w pid ++ ids.

(** C10: the append does not wait for the clear.  On a playlist that
    exists and has entries, [update_playlist] lists, clears and appends,
    and sends the append whatever the clear was answered with; when the
    clear was refused and the append accepted, the playlist ends up
    holding the old entries followed by the new ones, not empty. *)
Theorem append_ignores_clear_outcome cfg user_id user_name items w0 w1 w2 w3 w4
    playlists p current cleared appended :
  http (GetUserPlaylists user_id) w0 = (Answer 200 playlists, w1) ->
  List.find (fun q => String.eqb (Name q) (playlist_name cfg)) playlists = Some p ->
  http (GetPlaylistItems (Id p) user_id) w1 = (Answer 200 current, w2) ->
  current <> [] ->
  items <> [] ->
  http (DeletePlaylistItems (Id p) (map PlaylistItemId current)) w2
    = (Answer cleared tt, w3) ->
  http (PostPlaylistItems (Id p) user_id (map sug_Id items)) w3
    = (Answer appended tt, w4) ->
  update_playlist cfg user_id user_name items w0
  = (Ok tt, w4,
     [Ev (GetUserPlaylists user_id) (Answer 200 playlists);
      Ev (GetPlaylistItems (Id p) user_id) (Answer 200 current);
      Ev (DeletePlaylistItems (Id p) (map PlaylistItemId current)) (Answer cleared tt);
      Ev (PostPlaylistItems (Id p) user_id (map sug_Id items)) (Answer appended tt)]) /\
  (cleared <> 204 -> appended = 204 ->
   contents w4 (Id p) = map Id current ++ map sug_Id items /\
   contents w4 (Id p) <> []).
Proof.
  intros Hlist Hfind Hentries Hcur Hitems Hclear Happend.
  split; [by eapply update_playlist_existing|].
  intros Hrefused ->.
  assert (contents w4 (Id p) = map Id current ++ map sug_Id items) as Heq.
  { rewrite (append_adds _ _ _ _ _ Happend).
    rewrite (refused_clear_keeps _ _ _ _ _ Hclear Hrefused).
    by rewrite (listing_shows _ _ _ _ _ Hentries). }
  split; [exact Heq|]. rewrite Heq.
  destruct current; [done|]. discriminate.
Qed.

End Playlists.

(** * Further properties of the code *)

(** ** Loading the configuration *)

Lemma rstrip_slash_decompose s : exists n, s = rstrip_slash s +:+ slashes n.
Proof.
  induction s as [|c s [n IH]]; simpl.
  - by exists O.
  - destruct (rstrip_slash s) as [|d r] eqn:Hr.
    + simpl in IH. destruct (Ascii.eqb_spec c "/") as [->|Hc].
      * exists (S n). simpl. by rewrite IH.
      * exists n. simpl. by rewrite IH.
    + exists n. simpl. by rewrite IH at 1.
Qed.

Lemma rstrip_slash_no_trailing s : ends_with_slash (rstrip_slash s) = false.
Proof.
  induction s as [|c s IH]; simpl; [done|].
  destruct (rstrip_slash s) as [|d r] eqn:Hr.
  - destruct (Ascii.eqb_spec c "/") as [->|Hc]; simpl; [done|].
    by apply Ascii.eqb_neq.
  - exact IH.
Qed.

(** [rstrip('/')] takes off the slashes at the end and nothing else: the
    argument is the result followed by slashes only, and the result does
    not end with a slash. *)
Theorem rstrip_slash_spec s :
  (exists n, s = rstrip_slash s +:+ slashes n) /\
  ends_with_slash (rstrip_slash s) = false.
Proof. split; [apply rstrip_slash_decompose|apply rstrip_slash_no_trailing]. Qed.

Lemma rstrip_slash_slashes n : rstrip_slash (slashes n) = "".
Proof. induction n as [|n IH]; simpl; [done|]. by rewrite IH. Qed.

Lemma int_of_Ok s z : int_of s = Ok z -> py_int s = Some z.
Proof. unfold int_of. destruct (py_int s); [by intros [= ->]|discriminate]. Qed.

Lemma float_of_Ok s q : float_of s = Ok q -> py_float s = Some q.
Proof. unfold float_of. destruct (py_float s); [by intros [= ->]|discriminate]. Qed.

Lemma getenv_truthy env k : truthy (getenv env k "") = true -> env k = Some (getenv env k "").
Proof. unfold getenv. by destruct (env k). Qed.

(** A configuration that loads: the three mandatory settings were there
    and not empty, the server URL is kept without its trailing slashes
    (and something is left of it), and every limit is the number read from
    its variable or from its default. *)
Theorem from_env_loaded env cfg :
  from_env env = Ok cfg ->
  (exists url, env "JELLYFIN_URL" = Some url /\ jellyfin_url cfg = rstrip_slash url) /\
  truthy (jellyfin_url cfg) = true /\
  ends_with_slash (jellyfin_url cfg) = false /\
  env "JELLYFIN_API_KEY" = Some (jellyfin_api_key cfg) /\
  truthy (jellyfin_api_key cfg) = true /\
  env "TMDB_API_KEY" = Some (tmdb_api_key cfg) /\
  truthy (tmdb_api_key cfg) = true /\
  playlist_name cfg = getenv env "PLAYLIST_NAME" "Suggested For You" /\
  py_int (getenv env "MAX_WATCHED_ITEMS" "20") = Some (max_watched_items cfg) /\
  py_int (getenv env "MAX_SIMILAR_PER_ITEM" "5") = Some (max_similar_per_item cfg) /\
  py_int (getenv env "MAX_PLAYLIST_ITEMS" "50") = Some (max_playlist_items cfg) /\
  py_float (getenv env "MIN_TMDB_RATING" "6.0") = Some (min_tmdb_rating cfg) /\
  py_int (getenv env "MIN_TMDB_VOTES" "50") = Some (min_tmdb_votes cfg) /\
  py_int (getenv env "REQUEST_TIMEOUT" "30") = Some (request_timeout cfg).
Proof.
  unfold from_env. simpl.
  destruct (truthy (rstrip_slash (getenv env "JELLYFIN_URL" ""))) eqn:Hurl; [|discriminate].
  destruct (truthy (getenv env "JELLYFIN_API_KEY" "")) eqn:Hkey; [|discriminate].
  destruct (truthy (getenv env "TMDB_API_KEY" "")) eqn:Htmdb; [|discriminate].
  simpl.
  destruct (int_of (getenv env "MAX_WATCHED_ITEMS" "20")) as [n1|] eqn:H1; [|discriminate].
  destruct (int_of (getenv env "MAX_SIMILAR_PER_ITEM" "5")) as [n2|] eqn:H2; [|discriminate].
  destruct (int_of (getenv env "MAX_PLAYLIST_ITEMS" "50")) as [n3|] eqn:H3; [|discriminate].
  destruct (float_of (getenv env "MIN_TMDB_RATING" "6.0")) as [q|] eqn:H4; [|discriminate].
  destruct (int_of (getenv env "MIN_TMDB_VOTES" "50")) as [n5|] eqn:H5; [|discriminate].
  destruct (int_of (getenv env "REQUEST_TIMEOUT" "30")) as [n6|] eqn:H6; [|discriminate].
  simpl. intros [= <-]. simpl.
  split.
  { unfold getenv in *. destruct (env "JELLYFIN_URL") as [url|]; [by exists url|discriminate]. }
  split; [done|]. split; [apply rstrip_slash_no_trailing|].
  split; [by apply getenv_truthy|]. split; [done|].
  split; [by apply getenv_truthy|]. split; [done|]. split; [done|].
  auto 10 using int_of_Ok, float_of_Ok.
Qed.

Lemma from_env_raises_ValueError env e : from_env env = Raise e -> e = ValueError.
Proof.
  unfold from_env, int_of, float_of.
  destruct (negb _); [by intros [= <-]|].
  repeat match goal with
         | |- context [py_int ?s] => destruct (py_int s); simpl; [|by intros [= <-]]
         | |- context [py_float ?s] => destruct (py_float s); simpl; [|by intros [= <-]]
         end.
  discriminate.
Qed.

(** However loading the configuration fails (a mandatory setting missing
    or empty, a limit that is not a number), the failure is a ValueError
    and [main] ends by [SystemExit(1)] without a request made. *)
Theorem bad_configuration_aborts env e w :
  from_env env = Raise e ->
  e = ValueError /\ main env w = (SystemExit 1, w, []).
Proof.
  intros Hraise. pose proof (from_env_raises_ValueError env e Hraise) as ->.
  split; [done|]. unfold main. by rewrite Hraise.
Qed.

(** A server URL made of slashes only is as good as none: nothing is left
    of it after [rstrip('/')], and loading fails. *)
Theorem url_of_slashes_rejected env n :
  env "JELLYFIN_URL" = Some (slashes n) ->
  from_env env = Raise ValueError.
Proof.
  intros Hurl. unfold from_env, getenv. rewrite Hurl, rstrip_slash_slashes. done.
Qed.

(** ** The recommendation client, continued *)

(** A similarity request that fails (no reply, or any status but 200) costs
    the watched item its turn and nothing else: [get_similar] returns the
    empty list instead of raising, and the loop body hands the working list
    on unchanged, having made that one request. *)
Theorem failed_similarity_call_is_skipped cfg library watched kind acc item s k w :
  tmdb_id_if item = Some s ->
  py_int s = Some k ->
  (forall body, fst (http (GetTmdbSimilar (endpoint_of kind) k) w) <> Answer 200 body) ->
  result_of (get_similar cfg k kind w) = Ok [] /\
  similar_step cfg library watched kind acc item w
  = (Ok acc, snd (http (GetTmdbSimilar (endpoint_of kind) k) w),
     [Ev (GetTmdbSimilar (endpoint_of kind) k)
         (fst (http (GetTmdbSimilar (endpoint_of kind) k) w))]).
Proof.
  intros Hs Hk Hfail.
  assert (get_similar cfg k kind w
          = (Ok [], snd (http (GetTmdbSimilar (endpoint_of kind) k) w),
             [Ev (GetTmdbSimilar (endpoint_of kind) k)
                 (fst (http (GetTmdbSimilar (endpoint_of kind) k) w))])) as Hget.
  { rewrite get_similar_run.
    destruct (http (GetTmdbSimilar (endpoint_of kind) k) w) as [[status body|] w1];
      simpl in *; [|done].
    destruct (Z.eqb_spec status 200) as [->|]; [|done]. by destruct (Hfail body). }
  split; [by rewrite Hget|].
  unfold similar_step, bind, lift, int_of, ret. by rewrite Hs, Hk, Hget.
Qed.

Lemma filter_sublist {A} (f : A -> bool) (l : list A) : List.filter f l `sublist_of` l.
Proof.
  induction l as [|x l IH]; simpl; [constructor|].
  destruct (f x); by constructor.
Qed.

Lemma map_sublist {A B} (f : A -> B) (l1 l2 : list A) :
  l1 `sublist_of` l2 -> map f l1 `sublist_of` map f l2.
Proof. induction 1; simpl; by constructor. Qed.

Lemma similar_of_body_quality cfg body :
  Forall (fun s => (min_tmdb_rating cfg <= sim_vote_average s)%Q) (similar_of_body cfg body).
Proof.
  rewrite similar_of_body_filter. apply Forall_forall. intros s Hs.
  apply list_elem_of_In, in_map_iff in Hs as (r & <- & Hr).
  apply filter_In in Hr as [_ Hq]. unfold passes_quality in Hq.
  apply andb_true_iff in Hq as [Hq _]. by apply Qle_bool_iff in Hq.
Qed.

(** What [get_similar] hands back, whatever the provider does: it never
    raises; with a cap that is not negative it returns at most
    [max_similar_per_item] results; each is rated at least the minimum
    rating; and on a 200 reply they are results of the body, in the body's
    order. *)
Theorem get_similar_returns cfg k kind w :
  0 <= max_similar_per_item cfg ->
  exists similar,
    result_of (get_similar cfg k kind w) = Ok similar /\
    Z.of_nat (length similar) <= max_similar_per_item cfg /\
    Forall (fun s => (min_tmdb_rating cfg <= sim_vote_average s)%Q) similar /\
    similar `sublist_of`
      map to_similar (ev_results (endpoint_of kind) (Ev (GetTmdbSimilar (endpoint_of kind) k)
                        (fst (http (GetTmdbSimilar (endpoint_of kind) k) w)))).
Proof.
  intros Hcap. rewrite get_similar_run. unfold result_of. simpl.
  rewrite String.eqb_refl. simpl.
  destruct (http (GetTmdbSimilar (endpoint_of kind) k) w) as [[status body|] w1]; simpl.
  - destruct (status =? 200).
    + exists (similar_of_body cfg body). split; [done|]. split; [|split].
      * rewrite similar_of_body_filter, length_map.
        etransitivity; [|apply (slice_to_length body _ Hcap)].
        apply inj_le. apply sublist_length, filter_sublist.
      * apply similar_of_body_quality.
      * rewrite similar_of_body_filter. apply map_sublist.
        etransitivity; [apply filter_sublist|apply slice_to_sublist].
    + exists []. repeat split; [simpl; lia|constructor|constructor].
  - exists []. repeat split; [simpl; lia|constructor|constructor].
Qed.

(** ** The library index, continued *)

Lemma find_app {A} (f : A -> bool) (l1 l2 : list A) :
  List.find f (l1 ++ l2)
  = match List.find f l1 with
    | Some a => Some a
    | None => List.find f l2
    end.
Proof. induction l1 as [|x l1 IH]; simpl; [done|]. by destruct (f x). Qed.

Lemma index_item_lookup lib0 item lib k :
  index_item lib0 item = Ok lib ->
  lib !! k = if has_catalog_id item k then Some item else lib0 !! k.
Proof.
  unfold index_item, has_catalog_id, int_of.
  destruct (tmdb_id_if item) as [s|]; [|by intros [= <-]].
  destruct (py_int s) as [z|]; simpl; [|discriminate].
  intros [= <-]. destruct (Z.eqb_spec z k) as [->|Hne].
  - apply lookup_insert_eq.
  - by apply lookup_insert_ne.
Qed.

Lemma fold_index_item_lookup items lib0 lib k :
  fold_result index_item items lib0 = Ok lib ->
  lib !! k = match List.find (fun it => has_catalog_id it k) (rev items) with
             | Some it => Some it
             | None => lib0 !! k
             end.
Proof.
  revert lib0. induction items as [|item items IH]; intros lib0; simpl.
  - by intros [= <-].
  - destruct (index_item lib0 item) as [lib1|] eqn:Hitem; simpl; [|discriminate].
    intros Hrest. rewrite (IH _ Hrest), find_app. simpl.
    destruct (List.find _ (rev items)); [done|].
    rewrite (index_item_lookup _ _ _ k Hitem). by destruct (has_catalog_id item k).
Qed.

(** Looking a catalog identifier up in the index built from a 200 reply
    gives the last item of the reply that carries it, and nothing when no
    item does: of two library entries with one catalog identifier the later
    one wins, and an entry without identifier is under no key. *)
Theorem library_index_last_wins media_type w body w' lib :
  http (GetLibraryItems media_type) w = (Answer 200 body, w') ->
  result_of (get_library_items media_type w) = Ok lib ->
  forall k, lib !! k = List.find (fun it => has_catalog_id it k) (rev body).
Proof.
  intros Hreply. unfold get_library_items, bind, result_of.
  rewrite jellyfin_call_run, Hreply. simpl. unfold lift.
  destruct (fold_result index_item body ∅) as [lib1|] eqn:Hfold; simpl; [|discriminate].
  intros [= <-] k. rewrite (fold_index_item_lookup _ _ _ k Hfold), lookup_empty.
  by destruct (List.find _ (rev body)).
Qed.


Lemma index_item_raises lib0 item e : index_item lib0 item = Raise e -> e = ValueError.
Proof.
  unfold index_item, int_of. destruct (tmdb_id_if item) as [s|]; [|discriminate].
  destruct (py_int s); simpl; [discriminate|by intros [= <-]].
Qed.

Lemma fold_index_item_unparsable items lib0 item s :
  item ∈ items -> tmdb_id_if item = Some s -> py_int s = None ->
  fold_result index_item items lib0 = Raise ValueError.
Proof.
  intros Hin Hs Hparse. revert lib0.
  induction items as [|x items IH]; intros lib0; [by apply not_elem_of_nil in Hin|].
  simpl. apply elem_of_cons in Hin as [<-|Hin].
  - unfold index_item, int_of. by rewrite Hs, Hparse.
  - destruct (index_item lib0 x) as [lib1|e] eqn:Hx; simpl; [by apply IH|].
    by rewrite (index_item_raises _ _ _ Hx).
Qed.

(** One movie in the library whose TMDB identifier is not a number stops
    the whole run: [int] raises ValueError while the index is built, and
    [main] ends by [SystemExit(1)] after that single request, before any
    user is looked at. *)
Theorem unparsable_library_id_stops_run env cfg w body w' item s :
  from_env env = Ok cfg ->
  http (GetLibraryItems "Movie") w = (Answer 200 body, w') ->
  item ∈ body ->
  tmdb_id_if item = Some s ->
  py_int s = None ->
  main env w = (SystemExit 1, w', [Ev (GetLibraryItems "Movie") (Answer 200 body)]).
Proof.
  intros Hcfg Hreply Hin Hs Hparse. unfold main. rewrite Hcfg.
  unfold run, bind at 1. unfold get_library_items at 1, bind at 1.
  rewrite jellyfin_call_run, Hreply. simpl. unfold lift.
  by rewrite (fold_index_item_unparsable _ _ _ _ Hin Hs Hparse).
Qed.

(** ** The watch history *)

Lemma events_bind {A B} (m : M A) (f : A -> M B) w :
  events_of (bind m f w)
  = events_of (m w) ++
    match result_of (m w) with
    | Ok a => events_of (f a (world_of (m w)))
    | Raise _ => []
    end.
Proof.
  unfold bind, events_of, result_of, world_of.
  destruct (m w) as [[[a|e] w1] e1]; simpl; [|by rewrite app_nil_r].
  by destruct (f a w1) as [[r w2] e2].
Qed.

Lemma result_bind {A B} (m : M A) (f : A -> M B) w :
  result_of (bind m f w)
  = match result_of (m w) with
    | Ok a => result_of (f a (world_of (m w)))
    | Raise e => Raise e
    end.
Proof.
  unfold bind, result_of, world_of.
  destruct (m w) as [[[a|e] w1] e1]; simpl; [|done].
  by destruct (f a w1) as [[r w2] e2].
Qed.

Lemma get_watched_items_run cfg user_id media_type w :
  get_watched_items cfg user_id media_type w
  = (match fst (http (GetWatchedItems user_id media_type (max_watched_items cfg)) w) with
     | Answer status items => Ok (if status =? 200 then items else [])
     | Dropped => Raise ClientError
     end,
     snd (http (GetWatchedItems user_id media_type (max_watched_items cfg)) w),
     [Ev (GetWatchedItems user_id media_type (max_watched_items cfg))
         (fst (http (GetWatchedItems user_id media_type (max_watched_items cfg)) w))]).
Proof.
  unfold get_watched_items, bind. rewrite jellyfin_call_run.
  destruct (http _ w) as [[status items|] w1]; simpl; [|done].
  by destruct (status =? 200).
Qed.

Lemma get_series_info_run user_id series_id w :
  get_series_info user_id series_id w
  = (match fst (http (GetItem series_id user_id) w) with
     | Answer status info => Ok (if status =? 200 then Some info else None)
     | Dropped => Raise ClientError
     end,
     snd (http (GetItem series_id user_id) w),
     [Ev (GetItem series_id user_id) (fst (http (GetItem series_id user_id) w))]).
Proof.
  unfold get_series_info, bind. rewrite jellyfin_call_run.
  destruct (http _ w) as [[status info|] w1]; simpl; [|done].
  by destruct (status =? 200).
Qed.

Lemma series_requests_app evs1 evs2 :
  series_requests (evs1 ++ evs2) = series_requests evs1 ++ series_requests evs2.
Proof. unfold series_requests. apply omap_app. Qed.

Lemma unique_series_step_keeps user_id st episode w st' w' e evs :
  NoDup (series_requests evs) ->
  (forall sid, sid ∈ series_requests evs -> sid ∈ fst st) ->
  (length (snd st) <= length (series_requests evs))%nat ->
  Forall (fun sid => truthy sid = true) (series_requests evs) ->
  unique_series_step user_id st episode w = (Ok st', w', e) ->
  NoDup (series_requests (evs ++ e)) /\
  (forall sid, sid ∈ series_requests (evs ++ e) -> sid ∈ fst st') /\
  (length (snd st') <= length (series_requests (evs ++ e)))%nat /\
  Forall (fun sid => truthy sid = true) (series_requests (evs ++ e)).
Proof.
  intros Hnd Hseen Hlen Htr. unfold unique_series_step.
  destruct (SeriesId episode) as [series_id|];
    [|intros Hrun; apply ret_Ok in Hrun as (-> & -> & ->); by rewrite app_nil_r].
  destruct (truthy series_id) eqn:Htruthy; simpl;
    [|intros Hrun; apply ret_Ok in Hrun as (-> & -> & ->); by rewrite app_nil_r].
  case_bool_decide as Hin; simpl;
    [intros Hrun; apply ret_Ok in Hrun as (-> & -> & ->); by rewrite app_nil_r|].
  intros Hrun. apply bind_Ok in Hrun as (info & w1 & e1 & e2 & Hinfo & Hret & ->).
  apply ret_Ok in Hret as (-> & -> & ->).
  rewrite get_series_info_run in Hinfo. injection Hinfo as _ _ <-.
  rewrite app_nil_r, series_requests_app. simpl. repeat split.
  - apply NoDup_app. split; [done|]. split; [|apply NoDup_singleton].
    intros sid Hsid Hsid'. apply list_elem_of_singleton in Hsid' as ->. auto.
  - intros sid Hsid. apply elem_of_app in Hsid as [Hsid|Hsid].
    + apply elem_of_union. right. auto.
    + apply list_elem_of_singleton in Hsid as ->. apply elem_of_union. left.
      by apply elem_of_singleton.
  - rewrite length_app. simpl. destruct info; [rewrite length_app; simpl|]; lia.
  - apply Forall_app. split; [done|]. by apply Forall_singleton.
Qed.

(** Each parent series is looked up once: the series identifiers requested
    while the history is fetched are pairwise distinct and none is empty,
    so later episodes of a series (also of one whose lookup failed) cause
    no further request; and there are at most as many resolved series as
    lookups. *)
Theorem series_looked_up_once cfg user_id w watched_movies unique_series :
  result_of (fetch_watched cfg user_id w) = Ok (watched_movies, unique_series) ->
  NoDup (series_requests (events_of (fetch_watched cfg user_id w))) /\
  Forall (fun sid => truthy sid = true)
         (series_requests (events_of (fetch_watched cfg user_id w))) /\
  (length unique_series
   <= length (series_requests (events_of (fetch_watched cfg user_id w))))%nat.
Proof.
  unfold result_of, events_of.
  destruct (fetch_watched cfg user_id w) as [[r w'] evs] eqn:Hrun. simpl. intros ->.
  unfold fetch_watched in Hrun.
  apply bind_Ok in Hrun as (wm & w1 & e1 & e' & Hm & Hrun & ->).
  apply bind_Ok in Hrun as (ws & w2 & e2 & e'' & He & Hrun & ->).
  apply bind_Ok in Hrun as (st & w3 & e3 & e4 & Hloop & Hret & ->).
  apply ret_Ok in Hret as ([= -> ->] & -> & ->).
  rewrite get_watched_items_run in Hm. injection Hm as _ _ <-.
  rewrite get_watched_items_run in He. injection He as _ _ <-.
  rewrite !series_requests_app. simpl.
  pose proof (for_each_invariant
    (fun b es => NoDup (series_requests es) /\
                 (forall sid, sid ∈ series_requests es -> sid ∈ fst b) /\
                 (length (snd b) <= length (series_requests es))%nat /\
                 Forall (fun sid => truthy sid = true) (series_requests es))
    (unique_series_step user_id) ws) as Hinv.
  destruct (fun H H0 => Hinv H (∅, []) w2 st w3 e3 [] H0 Hloop) as (Hnd & _ & Hlen & Htr).
  - intros b a w0 b' w0' e evs _ (H1 & H2 & H3 & H4) Hstep.
    eapply unique_series_step_keeps; eauto.
  - simpl. repeat split; [constructor| |lia|constructor].
    intros sid Hsid. by apply not_elem_of_nil in Hsid.
  - simpl in *. rewrite app_nil_r. done.
Qed.

(** A history fetch the server refuses is taken for an empty history: with
    both watched-items requests answered by a status other than 200,
    [process_user] returns normally after those two requests. *)
Theorem refused_history_is_empty cfg user ml sl w s1 b1 w1 s2 b2 w2 :
  http (GetWatchedItems (user_Id user) "Movie" (max_watched_items cfg)) w
    = (Answer s1 b1, w1) ->
  s1 <> 200 ->
  http (GetWatchedItems (user_Id user) "Episode" (max_watched_items cfg)) w1
    = (Answer s2 b2, w2) ->
  s2 <> 200 ->
  process_user cfg user ml sl w
  = (Ok tt, w2,
     [Ev (GetWatchedItems (user_Id user) "Movie" (max_watched_items cfg)) (Answer s1 b1);
      Ev (GetWatchedItems (user_Id user) "Episode" (max_watched_items cfg)) (Answer s2 b2)]).
Proof.
  intros H1 Hs1 H2 Hs2. unfold process_user, fetch_watched, bind.
  rewrite get_watched_items_run, H1. simpl.
  destruct (Z.eqb_spec s1 200); [done|].
  rewrite get_watched_items_run, H2. simpl.
  destruct (Z.eqb_spec s2 200); [done|].
  simpl. unfold ret. simpl. by rewrite aggregate_nothing_watched.
Qed.

(** ** The playlist synchronizer, continued *)

Lemma get_user_playlists_run user_id w :
  get_user_playlists user_id w
  = (match fst (http (GetUserPlaylists user_id) w) with
     | Answer status playlists => Ok (if status =? 200 then playlists else [])
     | Dropped => Raise ClientError
     end,
     snd (http (GetUserPlaylists user_id) w),
     [Ev (GetUserPlaylists user_id) (fst (http (GetUserPlaylists user_id) w))]).
Proof.
  unfold get_user_playlists, bind. rewrite jellyfin_call_run.
  destruct (http _ w) as [[status playlists|] w1]; simpl; [|done].
  by destruct (status =? 200).
Qed.

Lemma get_playlist_items_run playlist_id user_id w :
  get_playlist_items playlist_id user_id w
  = (match fst (http (GetPlaylistItems playlist_id user_id) w) with
     | Answer status items => Ok (if status =? 200 then items else [])
     | Dropped => Raise ClientError
     end,
     snd (http (GetPlaylistItems playlist_id user_id) w),
     [Ev (GetPlaylistItems playlist_id user_id)
         (fst (http (GetPlaylistItems playlist_id user_id) w))]).
Proof.
  unfold get_playlist_items, bind. rewrite jellyfin_call_run.
  destruct (http _ w) as [[status items|] w1]; simpl; [|done].
  by destruct (status =? 200).
Qed.

Lemma create_playlist_answer user_id name item_ids w status created w' :
  http (PostPlaylists user_id name item_ids) w = (Answer status created, w') ->
  create_playlist user_id name item_ids w
  = (Ok (if status =? 200 then created else None), w',
     [Ev (PostPlaylists user_id name item_ids) (Answer status created)]).
Proof.
  intros Hr. unfold create_playlist, bind. rewrite jellyfin_call_run, Hr. simpl.
  by destruct (status =? 200).
Qed.

(** When no playlist of the configured name is found, [update_playlist]
    creates one with the suggested items in rank order, in one request, and
    returns whatever the server answers to it.  "Not found" includes a
    playlist listing the server refused: the playlist may exist, and a
    second one of the same name is asked for. *)
Theorem update_playlist_creates cfg user_id user_name items w0 status playlists w1
    created answer w2 :
  http (GetUserPlaylists user_id) w0 = (Answer status playlists, w1) ->
  status <> 200 \/
    List.find (fun q => String.eqb (Name q) (playlist_name cfg)) playlists = None ->
  http (PostPlaylists user_id (playlist_name cfg) (map sug_Id items)) w1
    = (Answer created answer, w2) ->
  update_playlist cfg user_id user_name items w0
  = (Ok tt, w2,
     [Ev (GetUserPlaylists user_id) (Answer status playlists);
      Ev (PostPlaylists user_id (playlist_name cfg) (map sug_Id items))
         (Answer created answer)]).
Proof.
  intros Hlist Hnone Hcreate. unfold update_playlist, bind.
  rewrite get_user_playlists_run, Hlist. simpl.
  assert (List.find (fun q => String.eqb (Name q) (playlist_name cfg))
            (if status =? 200 then playlists else []) = None) as ->.
  { destruct (Z.eqb_spec status 200) as [->|]; [|done]. by destruct Hnone. }
  by rewrite (create_playlist_answer _ _ _ _ _ _ _ Hcreate).
Qed.

(** When the playlist is found and the listing of its entries comes back
    empty or refused, nothing is cleared: the new items are appended in one
    request, after whatever the playlist holds. *)
Theorem update_playlist_appends_only cfg user_id user_name items w0 w1 w2 w3
    playlists p listed current appended :
  http (GetUserPlaylists user_id) w0 = (Answer 200 playlists, w1) ->
  List.find (fun q => String.eqb (Name q) (playlist_name cfg)) playlists = Some p ->
  http (GetPlaylistItems (Id p) user_id) w1 = (Answer listed current, w2) ->
  listed <> 200 \/ current = [] ->
  items <> [] ->
  http (PostPlaylistItems (Id p) user_id (map sug_Id items)) w2
    = (Answer appended tt, w3) ->
  update_playlist cfg user_id user_name items w0
  = (Ok tt, w3,
     [Ev (GetUserPlaylists user_id) (Answer 200 playlists);
      Ev (GetPlaylistItems (Id p) user_id) (Answer listed current);
      Ev (PostPlaylistItems (Id p) user_id (map sug_Id items)) (Answer appended tt)]).
Proof.
  intros Hlist Hfind Hentries Hempty Hitems Happend.
  assert (map sug_Id items <> []) as Hitems' by (by destruct items).
  unfold update_playlist, bind.
  rewrite (get_user_playlists_answer _ _ _ _ Hlist), Hfind.
  rewrite get_playlist_items_run, Hentries. simpl.
  destruct (Z.eqb_spec listed 200) as [Heq|Hne].
  - destruct Hempty as [Hne| ->]; [done|]. unfold ret at 1. simpl.
    by rewrite (add_to_playlist_answer _ _ _ _ _ _ Hitems' Happend).
  - unfold ret at 1. simpl.
    by rewrite (add_to_playlist_answer _ _ _ _ _ _ Hitems' Happend).
Qed.

Lemma graceful_ret {A} (a : A) : graceful (ret a).
Proof. by intros w. Qed.

Lemma graceful_jellyfin_call r : graceful (jellyfin_call r).
Proof.
  intros w. rewrite jellyfin_call_run. unfold result_of, events_of. simpl.
  destruct (fst (http r w)); [done|]. split; [done|]. by exists [], r.
Qed.

Lemma graceful_bind {A B} (m : M A) (f : A -> M B) :
  graceful m -> (forall a, graceful (f a)) -> graceful (bind m f).
Proof.
  intros Hm Hf w. rewrite result_bind, events_bind. specialize (Hm w).
  destruct (result_of (m w)) as [a|e]; [|by rewrite app_nil_r].
  specialize (Hf a (world_of (m w))).
  destruct (result_of (f a (world_of (m w)))); [done|].
  destruct Hf as (-> & evs' & r & ->). split; [done|].
  exists (events_of (m w) ++ evs'), r. by rewrite app_assoc.
Qed.

(** No answer of the server makes [update_playlist] raise: a refused
    listing, clear, append or creation is passed over and the function
    returns.  It stops only when a request gets no reply at all, and then
    with the client's exception, that request being its last. *)
Theorem update_playlist_survives_refusals cfg user_id user_name items w :
  result_of (update_playlist cfg user_id user_name items w) = Ok tt \/
  (result_of (update_playlist cfg user_id user_name items w) = Raise ClientError /\
   dropped_last (events_of (update_playlist cfg user_id user_name items w))).
Proof.
  assert (graceful (update_playlist cfg user_id user_name items)) as Hg.
  { unfold update_playlist.
    apply graceful_bind.
    { apply graceful_bind; [apply graceful_jellyfin_call|].
      intros resp. destruct (fst resp =? 200); apply graceful_ret. }
    intros playlists. destruct (List.find _ playlists) as [p|].
    - apply graceful_bind.
      { apply graceful_bind; [apply graceful_jellyfin_call|].
        intros resp. destruct (fst resp =? 200); apply graceful_ret. }
      intros current. apply graceful_bind.
      { destruct current as [|c current]; [apply graceful_ret|].
        apply (graceful_bind
                 (jellyfin_call (DeletePlaylistItems (Id p)
                                   (map PlaylistItemId (c :: current)))));
          [apply graceful_jellyfin_call|intros; apply graceful_ret]. }
      intros _. apply graceful_bind; [|intros; apply graceful_ret].
      unfold add_to_playlist. destruct (map sug_Id items) as [|i ids]; [apply graceful_ret|].
      apply (graceful_bind (jellyfin_call (PostPlaylistItems (Id p) user_id (i :: ids))));
        [apply graceful_jellyfin_call|intros; apply graceful_ret].
    - apply graceful_bind; [|intros; apply graceful_ret].
      apply graceful_bind; [apply graceful_jellyfin_call|].
      intros resp. destruct (fst resp =? 200); apply graceful_ret. }
  specialize (Hg w).
  destruct (result_of (update_playlist cfg user_id user_name items w)) as [[]|e].
  - by left.
  - right. by destruct Hg as [-> Hd].
Qed.

Section Replacement.

(** What the server holds in a playlist, and two facts about how it
    answers: a clear of all the entries it has just listed, answered with
    204, leaves the playlist empty; an append answered with 204 puts the
    items at the end. *)
Variable contents : World -> string -> list string.

Hypothesis accepted_clear_empties : forall pid uid w current w1 w2,
  http (GetPlaylistItems pid uid) w = (Answer 200 current, w1) ->
  http (DeletePlaylistItems pid (map PlaylistItemId current)) w1 = (Answer 204 tt, w2) ->
  contents w2 pid = [].

Hypothesis accepted_append_adds : forall pid uid ids w w',
  http (PostPlaylistItems pid uid ids) w = (Answer 204 tt, w') ->
  contents w' pid = contents w pid ++ ids.

(** When the playlist exists with entries and the server accepts both the
    clear and the append, the playlist ends up holding exactly the
    suggested items, in rank order. *)
Theorem update_playlist_replaces cfg user_id user_name items w0 w1 w2 w3 w4
    playlists p current :
  http (GetUserPlaylists user_id) w0 = (Answer 200 playlists, w1) ->
  List.find (fun q => String.eqb (Name q) (playlist_name cfg)) playlists = Some p ->
  http (GetPlaylistItems (Id p) user_id) w1 = (Answer 200 current, w2) ->
  current <> [] ->
  items <> [] ->
  http (DeletePlaylistItems (Id p) (map PlaylistItemId current)) w2 = (Answer 204 tt, w3) ->
  http (PostPlaylistItems (Id p) user_id (map sug_Id items)) w3 = (Answer 204 tt, w4) ->
  world_of (update_playlist cfg user_id user_name items w0) = w4 /\
  contents w4 (Id p) = map sug_Id items.
Proof.
  intros Hlist Hfind Hentries Hcur Hitems Hclear Happend.
  rewrite (update_playlist_existing _ _ _ _ _ _ _ _ _ _ _ _ _ _
             Hlist Hfind Hentries Hcur Hitems Hclear Happend).
  split; [done|].
  rewrite (accepted_append_adds _ _ _ _ _ Happend).
  by rewrite (accepted_clear_empties _ _ _ _ _ _ Hentries Hclear).
Qed.

End Replacement.

(** ** Which requests each part makes *)

Lemma sound_get_similar P cfg k kind :
  P (GetTmdbSimilar (endpoint_of kind) k) -> sound P (get_similar cfg k kind).
Proof.
  intros HP. unfold get_similar. apply sound_bind; [by apply sound_call|].
  intros [status body|]; [|apply sound_ret]. destruct (status =? 200); apply sound_ret.
Qed.

Lemma sound_similar_loop P cfg library watched kind items acc :
  (forall ep k, P (GetTmdbSimilar ep k)) ->
  sound P (similar_loop cfg library watched kind items acc).
Proof.
  intros HP. unfold similar_loop. apply sound_for_each. intros b item.
  unfold similar_step. destruct (tmdb_id_if item); [|apply sound_ret].
  apply sound_bind; [apply sound_lift|]. intros k.
  apply sound_bind; [by apply sound_get_similar|]. intros. apply sound_ret.
Qed.

Lemma sound_aggregate P cfg wm us ml sl :
  (forall ep k, P (GetTmdbSimilar ep k)) -> sound P (aggregate cfg wm us ml sl).
Proof.
  intros HP. unfold aggregate, collect_suggestions.
  apply sound_bind; [|intros; apply sound_ret].
  apply sound_bind; [apply sound_lift|]. intros watched.
  apply sound_bind; [by apply sound_similar_loop|]. intros ms.
  by apply sound_similar_loop.
Qed.

Lemma sound_fetch_watched_for P cfg user_id :
  (forall kind limit, P (GetWatchedItems user_id kind limit)) ->
  (forall series_id, P (GetItem series_id user_id)) ->
  sound P (fetch_watched cfg user_id).
Proof.
  intros Hw Hi. unfold fetch_watched, get_watched_items.
  assert (forall kind, sound P (get_watched_items cfg user_id kind)) as Hget.
  { intros kind. apply sound_bind; [by apply sound_jellyfin_call|].
    intros resp. destruct (fst resp =? 200); apply sound_ret. }
  apply sound_bind; [apply Hget|]. intros wm.
  apply sound_bind; [apply Hget|]. intros ws.
  apply sound_bind; [|intros; apply sound_ret].
  apply sound_for_each. intros st episode. unfold unique_series_step.
  destruct (SeriesId episode) as [series_id|]; [|apply sound_ret].
  destruct (truthy series_id && _); [|apply sound_ret].
  apply sound_bind; [|intros; apply sound_ret].
  apply sound_bind; [by apply sound_jellyfin_call|].
  intros resp. destruct (fst resp =? 200); apply sound_ret.
Qed.

Lemma sound_update_playlist P cfg user_id user_name items :
  P (GetUserPlaylists user_id) ->
  (forall pid, P (GetPlaylistItems pid user_id)) ->
  (forall pid entry_ids, P (DeletePlaylistItems pid entry_ids)) ->
  (forall pid, P (PostPlaylistItems pid user_id (map sug_Id items))) ->
  P (PostPlaylists user_id (playlist_name cfg) (map sug_Id items)) ->
  sound P (update_playlist cfg user_id user_name items).
Proof.
  intros Hl He Hd Ha Hc. unfold update_playlist.
  apply sound_bind.
  { apply sound_bind; [by apply sound_jellyfin_call|].
    intros resp. destruct (fst resp =? 200); apply sound_ret. }
  intros playlists. destruct (List.find _ playlists) as [p|].
  - apply sound_bind.
    { apply sound_bind; [by apply sound_jellyfin_call|].
      intros resp. destruct (fst resp =? 200); apply sound_ret. }
    intros current. apply sound_bind.
    { destruct current as [|c current]; [apply sound_ret|].
      apply (sound_bind P
               (jellyfin_call (DeletePlaylistItems (Id p)
                                 (map PlaylistItemId (c :: current)))));
        [by apply sound_jellyfin_call|intros; apply sound_ret]. }
    intros _. apply sound_bind; [|intros; apply sound_ret].
    unfold add_to_playlist. specialize (Ha (Id p)).
    destruct (map sug_Id items) as [|i ids]; [apply sound_ret|].
    apply (sound_bind P (jellyfin_call (PostPlaylistItems (Id p) user_id (i :: ids))));
      [by apply sound_jellyfin_call|intros; apply sound_ret].
  - apply sound_bind; [|intros; apply sound_ret].
    apply sound_bind; [by apply sound_jellyfin_call|].
    intros resp. destruct (fst resp =? 200); apply sound_ret.
Qed.

Lemma read_only_posts_nothing r : read_only r -> posted_ids r = None.
Proof. unfold read_only. by destruct r. Qed.

(** ** What [process_user] sends to a playlist *)

(** Whatever [process_user] asks the server to put in a playlist, in a
    creation or in an append, is what the aggregator returned for the
    history just fetched for that user: the identifiers posted are those of
    its suggestions, in its order.  Hence they are not empty, pairwise
    distinct, in rank order, and with a playlist size that is not negative
    there are at most that many. *)
Theorem process_user_posts_ranked_list cfg user ml sl w e ids :
  e ∈ events_of (process_user cfg user ml sl w) ->
  posted_ids (ev_request e) = Some ids ->
  exists watched out,
    result_of (fetch_watched cfg (user_Id user) w) = Ok watched /\
    result_of (aggregate cfg (fst watched) (snd watched) ml sl
                 (world_of (fetch_watched cfg (user_Id user) w))) = Ok out /\
    ids = map sug_Id out /\
    ids <> [] /\
    NoDup ids /\
    StronglySorted score_ge out /\
    (0 <= max_playlist_items cfg -> Z.of_nat (length ids) <= max_playlist_items cfg).
Proof.
  unfold process_user. rewrite events_bind. intros He Hids.
  apply elem_of_app in He as [He|He].
  { destruct (sound_fetch_watched cfg (user_Id user) w) as [_ Hro].
    rewrite Forall_forall in Hro. apply Hro, read_only_posts_nothing in He. congruence. }
  destruct (result_of (fetch_watched cfg (user_Id user) w)) as [watched|] eqn:Hwatched;
    [|by apply not_elem_of_nil in He].
  set (w1 := world_of (fetch_watched cfg (user_Id user) w)) in *.
  rewrite events_bind in He. apply elem_of_app in He as [He|He].
  { destruct (sound_aggregate read_only cfg (fst watched) (snd watched) ml sl
                (fun _ _ => eq_refl) w1) as [_ Hro].
    rewrite Forall_forall in Hro. apply Hro, read_only_posts_nothing in He. congruence. }
  destruct (result_of (aggregate cfg (fst watched) (snd watched) ml sl w1)) as [out|] eqn:Hout;
    [|by apply not_elem_of_nil in He].
  destruct out as [|c out]; [by apply not_elem_of_nil in He|].
  set (w2 := world_of (aggregate cfg (fst watched) (snd watched) ml sl w1)) in *.
  destruct (sound_update_playlist
              (fun r => forall l, posted_ids r = Some l -> l = map sug_Id (c :: out))
              cfg (user_Id user) (user_Name user) (c :: out)) with (w := w2) as [_ Hposts];
    try (intros; simpl in *; congruence).
  rewrite Forall_forall in Hposts. rewrite (Hposts e He ids Hids).
  exists watched, (c :: out). split; [done|]. split; [done|]. split; [done|].
  apply aggregate_Ok in Hout as (working & Hrun & Hrank).
  apply collect_suggestions_Ok in Hrun as (wd & ms & ss & _ & Hws & _ & _ & Hnd).
  rewrite Hrank. split; [by rewrite <- Hrank|]. split; [by apply rank_NoDup|]. split.
  - apply rank_sorted.
  - intros Hmax. rewrite length_map. by apply rank_length.
Qed.

(** ** The run *)

Lemma library_fetches_app evs1 evs2 :
  library_fetches (evs1 ++ evs2) = (library_fetches evs1 + library_fetches evs2)%nat.
Proof. unfold library_fetches. by rewrite List.filter_app, length_app. Qed.

Lemma library_fetches_none evs :
  Forall (fun e => is_library_request (ev_request e) = false) evs ->
  library_fetches evs = O.
Proof.
  unfold library_fetches. induction 1 as [|e evs He _ IH]; simpl; [done|].
  by rewrite He.
Qed.

Lemma get_library_items_events media_type w :
  events_of (get_library_items media_type w)
  = [Ev (GetLibraryItems media_type) (fst (http (GetLibraryItems media_type) w))].
Proof.
  unfold get_library_items. rewrite events_bind, jellyfin_call_run.
  unfold events_of, result_of, world_of, lift, ret. simpl.
  destruct (http (GetLibraryItems media_type) w) as [[status items|] w1]; simpl; [|done].
  by destruct (status =? 200).
Qed.

Lemma sound_process_user_no_library cfg user ml sl :
  sound (fun r => is_library_request r = false) (process_user cfg user ml sl).
Proof.
  unfold process_user.
  apply sound_bind; [by apply sound_fetch_watched_for|]. intros watched.
  apply sound_bind; [by apply sound_aggregate|]. intros out.
  destruct out; [apply sound_ret|]. by apply sound_update_playlist.
Qed.

(** The two library indexes are fetched once per run, whatever the number
    of users: a run makes at most two library requests, and exactly two
    when it completes. *)
Theorem libraries_fetched_once_per_run cfg w :
  (library_fetches (events_of (run cfg w)) <= 2)%nat /\
  (result_of (run cfg w) = Ok tt -> library_fetches (events_of (run cfg w)) = 2%nat).
Proof.
  assert (forall kind a, library_fetches [Ev (GetLibraryItems kind) a] = 1%nat) as Hone by done.
  unfold run. rewrite !events_bind, !result_bind.
  rewrite library_fetches_app, get_library_items_events, Hone.
  destruct (result_of (get_library_items "Movie" w)) as [ml|];
    [|split; [unfold library_fetches; simpl; lia|done]].
  set (w1 := world_of (get_library_items "Movie" w)).
  rewrite !events_bind, !result_bind, library_fetches_app, get_library_items_events, Hone.
  destruct (result_of (get_library_items "Series" w1)) as [sl|];
    [|split; [unfold library_fetches; simpl; lia|done]].
  set (w2 := world_of (get_library_items "Series" w1)).
  assert (library_fetches
            (events_of (get_users w2) ++
             match result_of (get_users w2) with
             | Ok users =>
                 events_of (for_each (fun _ user => process_user cfg user ml sl) users tt
                                     (world_of (get_users w2)))
             | Raise _ => []
             end) = O) as Hrest.
  { apply library_fetches_none, Forall_app. split.
    - assert (sound (fun r => is_library_request r = false) get_users) as Hs.
      { apply sound_bind; [by apply sound_jellyfin_call|].
        intros resp. destruct (fst resp =? 200); apply sound_ret. }
      apply Hs.
    - destruct (result_of (get_users w2)) as [users|]; [|constructor].
      apply (sound_for_each (fun r => is_library_request r = false)).
      intros. apply sound_process_user_no_library. }
  rewrite events_bind, Hrest. split; lia.
Qed.

(** ** The aggregator, continued *)

Lemma add_watched_raises W item e : add_watched W item = Raise e -> e = ValueError.
Proof.
  unfold add_watched, int_of. destruct (tmdb_id_if item) as [s|]; [|discriminate].
  destruct (py_int s); simpl; [discriminate|by intros [= <-]].
Qed.

Lemma fold_add_watched_raises l W e :
  fold_result add_watched l W = Raise e -> e = ValueError.
Proof.
  revert W. induction l as [|x l IH]; intros W; simpl; [discriminate|].
  destruct (add_watched W x) as [W1|e1] eqn:Hx; simpl; [apply IH|].
  intros [= <-]. by eapply add_watched_raises.
Qed.

(** The aggregator either returns a list or stops before its first
    request, on a watched item whose catalog identifier is not a number.
    Nothing the provider answers, or fails to answer, makes it raise. *)
Theorem aggregate_returns_or_stops_early cfg wm us ml sl w :
  (exists out, result_of (aggregate cfg wm us ml sl w) = Ok out) \/
  aggregate cfg wm us ml sl w = (Raise ValueError, w, []).
Proof.
  destruct (collect_watched_tmdb_ids wm us) as [watched|e] eqn:Hw.
  - left. by eapply aggregate_returns.
  - right. rewrite aggregate_run. unfold collect_suggestions, bind, lift. rewrite Hw.
    f_equal. f_equal. f_equal. revert Hw. unfold collect_watched_tmdb_ids.
    destruct (fold_result add_watched wm ∅) as [W|e1] eqn:Hwm; simpl.
    + apply fold_add_watched_raises.
    + intros [= <-]. by eapply fold_add_watched_raises.
Qed.

Lemma catalog_ids_length items : (length (catalog_ids items) <= length items)%nat.
Proof.
  induction items as [|x items IH]; [done|].
  change (catalog_ids (x :: items))
    with (match match tmdb_id_if x with Some s => py_int s | None => None end with
          | Some k => k :: catalog_ids items
          | None => catalog_ids items
          end).
  destruct (match tmdb_id_if x with Some s => py_int s | None => None end); simpl; lia.
Qed.

(** The calls to the provider are bounded by the watched-items cap: with a
    cap that is not negative the aggregator makes at most twice that many
    requests, all of them similarity queries. *)
Theorem aggregate_requests_bounded cfg wm us ml sl w :
  0 <= max_watched_items cfg ->
  Z.of_nat (length (events_of (aggregate cfg wm us ml sl w))) <= 2 * max_watched_items cfg /\
  Forall (fun e => exists ep k, ev_request e = GetTmdbSimilar ep k)
         (events_of (aggregate cfg wm us ml sl w)).
Proof.
  intros Hcap. split.
  - destruct (aggregate_returns_or_stops_early cfg wm us ml sl w) as [[out Hout]|Hstop].
    + apply aggregate_Ok in Hout as (working & Hrun & _).
      apply collect_suggestions_follows in Hrun as (watched & _ & _ & Hreq).
      rewrite <- (length_map ev_request), Hreq, length_app, !length_map.
      pose proof (catalog_ids_length (slice_to wm (max_watched_items cfg))).
      pose proof (catalog_ids_length (slice_to us (max_watched_items cfg))).
      pose proof (slice_to_length wm _ Hcap). pose proof (slice_to_length us _ Hcap).
      lia.
    + rewrite Hstop. unfold events_of. simpl. lia.
  - apply (sound_aggregate (fun r => exists ep k, r = GetTmdbSimilar ep k)). eauto.
Qed.

(** Below the playlist cap nothing is lost in the ranking: when the working
    list is no longer than [max_playlist_items], the aggregator returns the
    whole of it, sorted. *)
Theorem aggregate_keeps_all_below_cap cfg wm us ml sl w working :
  result_of (collect_suggestions cfg wm us ml sl w) = Ok working ->
  Z.of_nat (length working) <= max_playlist_items cfg ->
  result_of (aggregate cfg wm us ml sl w) = Ok (sort_by_score working) /\
  sort_by_score working ≡ₚ working.
Proof.
  intros Hrun Hlen. split; [|apply sort_by_score_perm].
  rewrite aggregate_run. revert Hrun. unfold result_of.
  destruct (collect_suggestions cfg wm us ml sl w) as [[[l|e] w'] evs]; simpl; [|discriminate].
  intros [= ->]. unfold rank. rewrite slice_to_all; [done|].
  by rewrite (Permutation_length (sort_by_score_perm working)).
Qed.

(** ** The run, continued *)





Lemma for_each_stops {A B} (body : B -> A -> M B) l1 a l2 b w b1 w1 e1 x w2 e2 :
  for_each body l1 b w = (Ok b1, w1, e1) ->
  body b1 a w1 = (Raise x, w2, e2) ->
  for_each body (l1 ++ a :: l2) b w = (Raise x, w2, e1 ++ e2).
Proof.
  revert b w e1. induction l1 as [|y l1 IH]; intros b w e1; simpl.
  - intros [= -> -> <-] Hbody. unfold bind. by rewrite Hbody.
  - intros Hrun Hbody. apply bind_Ok in Hrun as (b' & w' & ea & eb & Hy & Hrest & ->).
    unfold bind. rewrite Hy, (IH _ _ _ Hrest Hbody). by rewrite app_assoc.
Qed.

Lemma fold_add_watched_unparsable items watched item s :
  item ∈ items -> tmdb_id_if item = Some s -> py_int s = None ->
  fold_result add_watched items watched = Raise ValueError.
Proof.
  intros Hin Hs Hparse. revert watched.
  induction items as [|x items IH]; intros watched; [by apply not_elem_of_nil in Hin|].
  simpl. apply elem_of_cons in Hin as [<-|Hin].
  - unfold add_watched, int_of. by rewrite Hs, Hparse.
  - destruct (add_watched watched x) as [watched'|e] eqn:Hx; simpl; [by apply IH|].
    by rewrite (add_watched_raises _ _ _ Hx).
Qed.

Lemma collect_watched_unparsable wm us item s :
  item ∈ wm ++ us -> tmdb_id_if item = Some s -> py_int s = None ->
  collect_watched_tmdb_ids wm us = Raise ValueError.
Proof.
  intros Hin Hs Hparse. unfold collect_watched_tmdb_ids.
  apply elem_of_app in Hin as [Hin|Hin].
  - by rewrite (fold_add_watched_unparsable _ _ _ _ Hin Hs Hparse).
  - destruct (fold_result add_watched wm ∅) as [watched|e] eqn:Hwm; simpl.
    + by apply (fold_add_watched_unparsable _ _ _ _ Hin Hs Hparse).
    + by rewrite (fold_add_watched_raises _ _ _ Hwm).
Qed.

(** A history with an identifier that is not a number makes [process_user]
    raise ValueError right after the history is fetched: no similarity
    lookup, no playlist request. *)
Lemma process_user_unparsable cfg user ml sl w watched w' evs item s :
  fetch_watched cfg (user_Id user) w = (Ok watched, w', evs) ->
  item ∈ fst watched ++ snd watched ->
  tmdb_id_if item = Some s ->
  py_int s = None ->
  process_user cfg user ml sl w = (Raise ValueError, w', evs).
Proof.
  intros Hfetch Hin Hs Hparse.
  assert (aggregate cfg (fst watched) (snd watched) ml sl w' = (Raise ValueError, w', []))
    as Hagg.
  { rewrite aggregate_run. unfold collect_suggestions, bind, lift.
    by rewrite (collect_watched_unparsable _ _ _ _ Hin Hs Hparse). }
  unfold process_user, bind. rewrite Hfetch.
  by rewrite Hagg, app_nil_r.
Qed.

(** Users are not shielded from one another.  When the history fetched for
    one user holds an item whose TMDB identifier is not a number, the whole
    program ends there by [SystemExit(1)]: the last exchanges of the run are
    that user's history requests, none of them a write, so that user gets no
    playlist and the users listed after are never looked at. *)
Theorem failing_user_stops_the_run
    env cfg w ml w1 e1 sl w2 e2 before user after w3 e3 w4 e4 watched w5 e5 item s :
  from_env env = Ok cfg ->
  get_library_items "Movie" w = (Ok ml, w1, e1) ->
  get_library_items "Series" w1 = (Ok sl, w2, e2) ->
  get_users w2 = (Ok (before ++ user :: after), w3, e3) ->
  for_each (fun _ u => process_user cfg u ml sl) before tt w3 = (Ok tt, w4, e4) ->
  fetch_watched cfg (user_Id user) w4 = (Ok watched, w5, e5) ->
  item ∈ fst watched ++ snd watched ->
  tmdb_id_if item = Some s ->
  py_int s = None ->
  main env w = (SystemExit 1, w5, e1 ++ e2 ++ e3 ++ e4 ++ e5) /\
  Forall (fun e => is_write (ev_request e) = false) e5.
Proof.
  intros Hcfg Hml Hsl Husers Hbefore Hfetch Hin Hs Hparse. split.
  - pose proof (process_user_unparsable cfg user ml sl _ _ _ _ _ _ Hfetch Hin Hs Hparse)
      as Huser.
    pose proof (for_each_stops _ _ _ after _ _ _ _ _ _ _ _ Hbefore Huser) as Hloop.
    unfold main. rewrite Hcfg. unfold run, bind.
    by rewrite Hml, Hsl, Husers, Hloop.
  - destruct (sound_fetch_watched cfg (user_Id user) w4) as [_ Hro].
    unfold events_of in Hro. by rewrite Hfetch in Hro.
Qed.

End Program.

Arguments result_of {World A} x.
Arguments world_of {World A} x.
Arguments events_of {World A} x.

(** * Worked examples *)

Example slice_to_inside : slice_to [1; 2; 3] 2 = [1; 2].
Proof. reflexivity. Qed.

Example slice_to_beyond : slice_to [1; 2; 3] 5 = [1; 2; 3].
Proof. reflexivity. Qed.

Example slice_to_negative : slice_to [1; 2; 3] (-1) = [1; 2].
Proof. reflexivity. Qed.

Example slice_to_very_negative : slice_to [1; 2; 3] (-5) = [].
Proof. reflexivity. Qed.

Example rstrip_slash_url : rstrip_slash "http://jellyfin:8096//" = "http://jellyfin:8096".
Proof. reflexivity. Qed.

Example rstrip_slash_only : rstrip_slash "///" = "".
Proof. reflexivity. Qed.

Example sort_by_score_ties : sort_by_score Demo.working
  = [Demo.suggestion "sT" "Treme" "Series" (9 # 1);
     Demo.suggestion "mA" "Collateral" "Movie" (8 # 1);
     Demo.suggestion "mD" "Sicario" "Movie" (8 # 1);
     Demo.suggestion "sU" "The Shield" "Series" (8 # 1)].
Proof. reflexivity. Qed.

(** A watched movie whose similar results are rated 8.0 with 200 votes,
    5.0 with 200 votes and 7.0 with 10 votes, thresholds 6.0 and 50, and a
    library that lists the first and the third: the first alone is kept. *)
Example one_of_three_kept :
  fold_left (consider Demo.movie_library ∅ "Movie")
            (similar_of_body Demo.cfg (take 3 Demo.heat_results)) []
  = [Demo.suggestion "mA" "Collateral" "Movie" (8 # 1)].
Proof. vm_compute. reflexivity. Qed.

Example library_from_server :
  result_of (get_library_items Sim.Server Sim.http Sim.py_int "Movie" Demo.server)
  = Ok Demo.movie_library.
Proof. vm_compute. reflexivity. Qed.

Example history_from_server :
  result_of (fetch_watched Sim.Server Sim.http Demo.cfg "u1" Demo.server)
  = Ok (Demo.watched_movies, Demo.unique_series).
Proof. vm_compute. reflexivity. Qed.

Example working_list_from_server :
  result_of (collect_suggestions Sim.Server Sim.http Sim.py_int Demo.cfg
               Demo.watched_movies Demo.unique_series
               Demo.movie_library Demo.series_library Demo.server)
  = Ok Demo.working.
Proof. vm_compute. reflexivity. Qed.

Example playlist_after_run :
  Sim.contents (world_of (run Sim.Server Sim.http Sim.py_int Demo.cfg Demo.server)) "p1"
  = ["sT"; "mA"; "mD"].
Proof. vm_compute. reflexivity. Qed.

Example from_env_defaults :
  from_env Sim.py_int Sim.py_float Demo.env
  = Ok {| jellyfin_url := "http://jellyfin:8096";
          jellyfin_api_key := "key";
          tmdb_api_key := "tmdb";
          playlist_name := "Suggested For You";
          max_watched_items := 20;
          max_similar_per_item := 5;
          max_playlist_items := 50;
          min_tmdb_rating := 6 # 1;
          min_tmdb_votes := 50;
          request_timeout := 30 |}.
Proof. reflexivity. Qed.

(** * The reference environment *)

Lemma sim_reads_keep_playlists r s :
  is_write r = false -> Sim.sv_playlists (snd (Sim.http r s)) = Sim.sv_playlists s.
Proof.
  destruct r; simpl; try discriminate; intros _; try reflexivity.
  - by destruct (List.find _ (Sim.sv_series s)).
  - by destruct (Sim.find_playlist s playlist_id).
  - by destruct (Sim.similar s endpoint tmdb_id).
Qed.

Lemma sim_listing_shows pid uid s current s' :
  Sim.http (GetPlaylistItems pid uid) s = (Answer 200 current, s') ->
  Sim.contents s' pid = map Id current.
Proof.
  simpl. unfold Sim.contents, Sim.entries.
  destruct (Sim.find_playlist s pid) as [p|] eqn:Hp; intros [= <- <-]. by rewrite Hp.
Qed.

Lemma sim_refused_clear_keeps pid entry_ids s status s' :
  Sim.http (DeletePlaylistItems pid entry_ids) s = (Answer status tt, s') ->
  status <> 204 ->
  Sim.contents s' = Sim.contents s.
Proof.
  simpl. destruct (Sim.find_playlist s pid) as [p|].
  - destruct (Sim.sv_delete_status s =? 204); intros [= <- <-]; done.
  - by intros [= <- <-].
Qed.

Lemma sim_find_update f pid pls :
  List.find (fun p => String.eqb (Sim.pl_Id p) pid) (map (Sim.update_entries f pid) pls)
  = option_map (Sim.update_entries f pid)
               (List.find (fun p => String.eqb (Sim.pl_Id p) pid) pls).
Proof.
  induction pls as [|p pls IH]; simpl; [done|].
  unfold Sim.update_entries at 1.
  destruct (String.eqb (Sim.pl_Id p) pid) eqn:Hp; simpl; rewrite Hp; [|exact IH].
  simpl. unfold Sim.update_entries. by rewrite Hp.
Qed.

Lemma sim_append_adds pid uid ids s s' :
  Sim.http (PostPlaylistItems pid uid ids) s = (Answer 204 tt, s') ->
  Sim.contents s' pid = Sim.contents s pid ++ ids.
Proof.
  simpl. unfold Sim.contents, Sim.entries.
  destruct (Sim.find_playlist s pid) as [p|] eqn:Hp; [|discriminate].
  destruct (Z.eqb_spec (Sim.sv_append_status s) 204) as [Hst|Hst].
  - intros [= <-].
    unfold Sim.find_playlist in *. simpl. rewrite sim_find_update, Hp. simpl.
    unfold Sim.update_entries.
    assert (String.eqb (Sim.pl_Id p) pid = true) as ->.
    { apply find_some in Hp. tauto. }
    simpl. rewrite map_app, map_map. simpl. by rewrite map_id.
  - intros [= Hst' _]. done.
Qed.

(** * The theorems at work on the sample data *)

(** With two results kept per watched item, Heat's first two results are
    Collateral and Miami Vice; only Collateral qualifies. *)
Lemma get_similar_caps_then_filters_witness :
  Sim.http (GetTmdbSimilar (endpoint_of "Movie") 100) Demo.server
    = (Answer 200 Demo.heat_results, Demo.server) /\
  result_of (get_similar Sim.Server Sim.http Demo.cfg_two 100 "Movie" Demo.server)
  = Ok (map to_similar
            (List.filter (passes_quality Demo.cfg_two)
                         (slice_to Demo.heat_results (max_similar_per_item Demo.cfg_two)))).
Proof.
  split; [reflexivity|].
  apply (get_similar_caps_then_filters Sim.Server Sim.http Demo.cfg_two 100 "Movie"
           Demo.server Demo.heat_results Demo.server).
  reflexivity.
Defined.

(** C1 as stated fails there: filtering first would keep Collateral and
    Ronin, the code returns Collateral alone, Miami Vice having taken the
    second place under the cap. *)
Lemma get_similar_filter_then_cap_counterexample :
  Sim.http (GetTmdbSimilar (endpoint_of "Movie") 100) Demo.server
    = (Answer 200 Demo.heat_results, Demo.server) /\
  similar_filter_then_cap Demo.cfg_two Demo.heat_results
    = [to_similar (Demo.hit 1 "Collateral" (8 # 1) 200);
       to_similar (Demo.hit 101 "Ronin" (9 # 1) 500)] /\
  result_of (get_similar Sim.Server Sim.http Demo.cfg_two 100 "Movie" Demo.server)
    = Ok [to_similar (Demo.hit 1 "Collateral" (8 # 1) 200)] /\
  result_of (get_similar Sim.Server Sim.http Demo.cfg_two 100 "Movie" Demo.server)
    <> Ok (similar_filter_then_cap Demo.cfg_two Demo.heat_results).
Proof.
  split; [reflexivity|]. split; [reflexivity|]. split; [reflexivity|].
  vm_compute. discriminate.
Qed.

Lemma watched_never_suggested_witness :
  let run := aggregate Sim.Server Sim.http Sim.py_int Demo.cfg
               Demo.watched_movies Demo.unique_series
               Demo.movie_library Demo.series_library Demo.server in
  result_of run = Ok Demo.ranked /\
  exists watched,
    collect_watched_tmdb_ids Sim.py_int Demo.watched_movies Demo.unique_series
      = Ok watched /\
    (forall k, k ∈ watched <->
               exists item, item ∈ Demo.watched_movies ++ Demo.unique_series /\
                            catalog_id Sim.py_int item k) /\
    forall c, c ∈ Demo.ranked ->
      exists r jellyfin_item,
        r ∈ delivered (endpoint_of (sug_Type c)) (events_of run) /\
        library_of Demo.movie_library Demo.series_library (sug_Type c) !! (id r)
          = Some jellyfin_item /\
        sug_Id c = Id jellyfin_item /\
        sug_Score c = default 0%Q (vote_average r) /\
        id r ∉ watched.
Proof.
  intros run. split; [vm_compute; reflexivity|].
  apply (watched_never_suggested Sim.Server Sim.http Sim.py_int Demo.cfg
           Demo.watched_movies Demo.unique_series
           Demo.movie_library Demo.series_library Demo.server Demo.ranked).
  vm_compute. reflexivity.
Defined.

Lemma suggestions_distinct_witness :
  result_of (aggregate Sim.Server Sim.http Sim.py_int Demo.cfg
               Demo.watched_movies Demo.unique_series
               Demo.movie_library Demo.series_library Demo.server)
    = Ok Demo.ranked /\
  NoDup (map sug_Id Demo.ranked).
Proof.
  split; [vm_compute; reflexivity|].
  apply (suggestions_distinct Sim.Server Sim.http Sim.py_int Demo.cfg
           Demo.watched_movies Demo.unique_series
           Demo.movie_library Demo.series_library Demo.server Demo.ranked).
  vm_compute. reflexivity.
Defined.

Lemma suggestions_ranked_witness :
  let run := aggregate Sim.Server Sim.http Sim.py_int Demo.cfg
               Demo.watched_movies Demo.unique_series
               Demo.movie_library Demo.series_library Demo.server in
  result_of run = Ok Demo.ranked /\
  exists watched ms ss,
    collect_watched_tmdb_ids Sim.py_int Demo.watched_movies Demo.unique_series
      = Ok watched /\
    result_of (collect_suggestions Sim.Server Sim.http Sim.py_int Demo.cfg
                 Demo.watched_movies Demo.unique_series
                 Demo.movie_library Demo.series_library Demo.server)
      = Ok (ms ++ ss) /\
    Forall (fun c => sug_Type c = "Movie") ms /\
    Forall (fun c => sug_Type c = "Series") ss /\
    map ev_request (events_of run)
    = map (GetTmdbSimilar "movie")
          (catalog_ids Sim.py_int
             (slice_to Demo.watched_movies (max_watched_items Demo.cfg))) ++
      map (GetTmdbSimilar "tv")
          (catalog_ids Sim.py_int
             (slice_to Demo.unique_series (max_watched_items Demo.cfg))) /\
    ms ++ ss = first_by_Id (offers Demo.cfg Demo.movie_library Demo.series_library
                              watched (events_of run)) /\
    StronglySorted score_ge Demo.ranked /\
    forall q, with_score q Demo.ranked `prefix_of` with_score q (ms ++ ss).
Proof.
  intros run. split; [vm_compute; reflexivity|].
  apply (suggestions_ranked Sim.Server Sim.http Sim.py_int Demo.cfg
           Demo.watched_movies Demo.unique_series
           Demo.movie_library Demo.series_library Demo.server Demo.ranked).
  vm_compute. reflexivity.
Defined.

Lemma suggestions_bounded_witness :
  0 <= max_playlist_items Demo.cfg /\
  result_of (aggregate Sim.Server Sim.http Sim.py_int Demo.cfg
               Demo.watched_movies Demo.unique_series
               Demo.movie_library Demo.series_library Demo.server)
    = Ok Demo.ranked /\
  Z.of_nat (length Demo.ranked) <= max_playlist_items Demo.cfg.
Proof.
  split; [simpl; lia|]. split; [vm_compute; reflexivity|].
  apply (suggestions_bounded Sim.Server Sim.http Sim.py_int Demo.cfg
           Demo.watched_movies Demo.unique_series
           Demo.movie_library Demo.series_library Demo.server Demo.ranked).
  - simpl. lia.
  - vm_compute. reflexivity.
Defined.

(** C5 as stated fails for a negative size.  MAX_PLAYLIST_ITEMS=-1 is
    loaded as it is; the slice of line 317 then drops the last of the four
    suggestions collected for the sample history, and three are returned:
    more than -1. *)
Lemma suggestions_bounded_counterexample :
  from_env Sim.py_int Sim.py_float Demo.env_minus_one = Ok Demo.cfg_minus_one /\
  max_playlist_items Demo.cfg_minus_one = -1 /\
  result_of (collect_suggestions Sim.Server Sim.http Sim.py_int Demo.cfg_minus_one
               Demo.watched_movies Demo.unique_series
               Demo.movie_library Demo.series_library Demo.server)
    = Ok Demo.working /\
  result_of (aggregate Sim.Server Sim.http Sim.py_int Demo.cfg_minus_one
               Demo.watched_movies Demo.unique_series
               Demo.movie_library Demo.series_library Demo.server)
    = Ok Demo.ranked /\
  ~ (Z.of_nat (length Demo.ranked) <= max_playlist_items Demo.cfg_minus_one).
Proof.
  split; [reflexivity|]. split; [reflexivity|].
  split; [vm_compute; reflexivity|]. split; [vm_compute; reflexivity|].
  simpl. lia.
Qed.

Lemma suggestion_meets_conditions_witness :
  let run := aggregate Sim.Server Sim.http Sim.py_int Demo.cfg
               Demo.watched_movies Demo.unique_series
               Demo.movie_library Demo.series_library Demo.server in
  result_of run = Ok Demo.ranked /\
  (forall c, c ∈ Demo.ranked ->
     exists r jellyfin_item,
       r ∈ delivered (endpoint_of (sug_Type c)) (events_of run) /\
       (min_tmdb_rating Demo.cfg <= default 0 (vote_average r))%Q /\
       min_tmdb_votes Demo.cfg <= default 0 (vote_count r) /\
       library_of Demo.movie_library Demo.series_library (sug_Type c) !! (id r)
         = Some jellyfin_item /\
       c = {| sug_Id := Id jellyfin_item;
              sug_Name := Name jellyfin_item;
              sug_Type := sug_Type c;
              sug_Score := default 0%Q (vote_average r) |}) /\
  ((forall kind r,
       r ∈ delivered (endpoint_of kind) (events_of run) ->
       (min_tmdb_rating Demo.cfg <= default 0 (vote_average r))%Q ->
       min_tmdb_votes Demo.cfg <= default 0 (vote_count r) ->
       library_of Demo.movie_library Demo.series_library kind !! (id r) = None) ->
   Demo.ranked = []).
Proof.
  intros run. split; [vm_compute; reflexivity|].
  apply (suggestion_meets_conditions Sim.Server Sim.http Sim.py_int Demo.cfg
           Demo.watched_movies Demo.unique_series
           Demo.movie_library Demo.series_library Demo.server Demo.ranked).
  vm_compute. reflexivity.
Defined.

(** A user who has played nothing: her old playlist stays as it is. *)
Lemma empty_history_writes_nothing_witness :
  let run := process_user Sim.Server Sim.http Sim.py_int Demo.cfg Demo.alice
               Demo.movie_library Demo.series_library Demo.server_unplayed in
  result_of (fetch_watched Sim.Server Sim.http Demo.cfg (user_Id Demo.alice)
               Demo.server_unplayed) = Ok ([], []) /\
  result_of run = Ok tt /\
  Forall (fun e => is_write (ev_request e) = false) (events_of run) /\
  Sim.sv_playlists (world_of run) = Sim.sv_playlists Demo.server_unplayed.
Proof.
  intros run. split; [vm_compute; reflexivity|].
  apply (empty_history_writes_nothing Sim.Server Sim.http Sim.py_int Sim.sv_playlists
           Demo.cfg Demo.alice Demo.movie_library Demo.series_library
           Demo.server_unplayed).
  - exact sim_reads_keep_playlists.
  - vm_compute. reflexivity.
Defined.

Lemma missing_setting_aborts_witness :
  (Demo.env_no_tmdb_key "JELLYFIN_URL" = None \/
   Demo.env_no_tmdb_key "JELLYFIN_API_KEY" = None \/
   Demo.env_no_tmdb_key "TMDB_API_KEY" = None) /\
  from_env Sim.py_int Sim.py_float Demo.env_no_tmdb_key = Raise ValueError /\
  main Sim.Server Sim.http Sim.py_int Sim.py_float Demo.env_no_tmdb_key Demo.server
    = (SystemExit 1, Demo.server, []) /\
  exit_status (fst (fst (main Sim.Server Sim.http Sim.py_int Sim.py_float
                           Demo.env_no_tmdb_key Demo.server))) <> 0.
Proof.
  split; [right; right; reflexivity|].
  apply (missing_setting_aborts Sim.Server Sim.http Sim.py_int Sim.py_float
           Demo.env_no_tmdb_key Demo.server).
  right. right. reflexivity.
Defined.

(** The home video has no catalog identifier: the aggregator treats the
    history with it as the history of Heat and Ronin alone. *)
Lemma item_without_catalog_id_skipped_witness :
  tmdb_id_if Demo.home_video = None /\
  Z.of_nat (length ([Demo.heat] ++ Demo.home_video :: [Demo.ronin]))
    <= max_watched_items Demo.cfg /\
  aggregate Sim.Server Sim.http Sim.py_int Demo.cfg
    ([Demo.heat] ++ Demo.home_video :: [Demo.ronin]) Demo.unique_series
    Demo.movie_library Demo.series_library Demo.server
  = aggregate Sim.Server Sim.http Sim.py_int Demo.cfg
      ([Demo.heat] ++ [Demo.ronin]) Demo.unique_series
      Demo.movie_library Demo.series_library Demo.server.
Proof.
  split; [reflexivity|]. split; [simpl; lia|].
  apply (item_without_catalog_id_skipped Sim.Server Sim.http Sim.py_int
           Demo.home_video).
  - reflexivity.
  - simpl. lia.
Defined.

(** The clear is refused with a 500 and the append accepted: the playlist
    holds the three old entries and then the three new ones. *)
Lemma append_ignores_clear_outcome_witness :
  let after := snd (Sim.http (PostPlaylistItems "p1" "u1" (map sug_Id Demo.ranked))
                             Demo.server_no_clear) in
  update_playlist Sim.Server Sim.http Demo.cfg "u1" "alice" Demo.ranked
    Demo.server_no_clear
  = (Ok tt, after,
     [Ev (GetUserPlaylists "u1") (Answer 200 [Sim.playlist_item Demo.old_playlist]);
      Ev (GetPlaylistItems "p1" "u1") (Answer 200 (Sim.pl_entries Demo.old_playlist));
      Ev (DeletePlaylistItems "p1"
            (map PlaylistItemId (Sim.pl_entries Demo.old_playlist)))
         (Answer 500 tt);
      Ev (PostPlaylistItems "p1" "u1" (map sug_Id Demo.ranked)) (Answer 204 tt)]) /\
  Sim.contents after "p1" = ["mA"; "mC"; "sU"; "sT"; "mA"; "mD"].
Proof.
  intros after.
  destruct (append_ignores_clear_outcome Sim.Server Sim.http Sim.contents
              sim_listing_shows sim_refused_clear_keeps sim_append_adds
              Demo.cfg "u1" "alice" Demo.ranked
              Demo.server_no_clear Demo.server_no_clear Demo.server_no_clear
              Demo.server_no_clear after
              [Sim.playlist_item Demo.old_playlist] (Sim.playlist_item Demo.old_playlist)
              (Sim.pl_entries Demo.old_playlist) 500 204)
    as [Hrun Hcontents]; try reflexivity; try discriminate.
  split; [exact Hrun|].
  destruct Hcontents as [Heq _]; [lia|reflexivity|]. exact Heq.
Defined.

(** * The further properties at work on the sample data *)

Lemma sim_filter_own_entries (entries : list Item) :
  List.filter (fun e => negb (mem_string (PlaylistItemId e) (map PlaylistItemId entries)))
              entries = [].
Proof.
  assert (forall l, (forall e, In e l -> In e entries) ->
            List.filter (fun e => negb (mem_string (PlaylistItemId e)
                                          (map PlaylistItemId entries))) l = []) as H.
  { induction l as [|x l IH]; intros Hsub; simpl; [done|].
    assert (mem_string (PlaylistItemId x) (map PlaylistItemId entries) = true) as ->.
    { apply mem_string_spec, list_elem_of_In, in_map, Hsub. by left. }
    simpl. apply IH. intros e He. apply Hsub. by right. }
  by apply H.
Qed.

Lemma sim_accepted_clear_empties pid uid s current s1 s2 :
  Sim.http (GetPlaylistItems pid uid) s = (Answer 200 current, s1) ->
  Sim.http (DeletePlaylistItems pid (map PlaylistItemId current)) s1 = (Answer 204 tt, s2) ->
  Sim.contents s2 pid = [].
Proof.
  simpl. destruct (Sim.find_playlist s pid) as [p|] eqn:Hp; intros [= <- <-].
  rewrite Hp. destruct (Z.eqb_spec (Sim.sv_delete_status s) 204) as [Hst|Hst].
  - intros [= <-]. unfold Sim.contents, Sim.entries, Sim.find_playlist in *. simpl.
    rewrite sim_find_update, Hp. simpl. unfold Sim.update_entries.
    assert (String.eqb (Sim.pl_Id p) pid = true) as ->.
    { apply find_some in Hp. tauto. }
    simpl. by rewrite sim_filter_own_entries.
  - intros [= Hst' _]. done.
Qed.

Lemma from_env_loaded_witness :
  from_env Sim.py_int Sim.py_float Demo.env
    = Ok {| jellyfin_url := "http://jellyfin:8096";
            jellyfin_api_key := "key";
            tmdb_api_key := "tmdb";
            playlist_name := "Suggested For You";
            max_watched_items := 20;
            max_similar_per_item := 5;
            max_playlist_items := 50;
            min_tmdb_rating := 6 # 1;
            min_tmdb_votes := 50;
            request_timeout := 30 |} /\
  (exists url, Demo.env "JELLYFIN_URL" = Some url /\
               "http://jellyfin:8096" = rstrip_slash url) /\
  ends_with_slash "http://jellyfin:8096" = false /\
  Sim.py_int (getenv Demo.env "MAX_PLAYLIST_ITEMS" "50") = Some 50.
Proof.
  split; [reflexivity|].
  pose proof (from_env_loaded Sim.py_int Sim.py_float Demo.env _ eq_refl) as H.
  simpl in H. tauto.
Defined.

Lemma bad_configuration_aborts_witness :
  from_env Sim.py_int Sim.py_float Demo.env_bad_number = Raise ValueError /\
  main Sim.Server Sim.http Sim.py_int Sim.py_float Demo.env_bad_number Demo.server
    = (SystemExit 1, Demo.server, []).
Proof.
  split; [reflexivity|].
  apply (bad_configuration_aborts Sim.Server Sim.http Sim.py_int Sim.py_float
           Demo.env_bad_number ValueError Demo.server).
  reflexivity.
Defined.

Lemma url_of_slashes_rejected_witness :
  Demo.env_slashes "JELLYFIN_URL" = Some (slashes 2) /\
  from_env Sim.py_int Sim.py_float Demo.env_slashes = Raise ValueError.
Proof.
  split; [reflexivity|].
  apply (url_of_slashes_rejected Sim.py_int Sim.py_float Demo.env_slashes 2).
  reflexivity.
Defined.

(** TMDB has no movie 200: the request is answered 404 and the working
    list goes on as it was. *)
Lemma failed_similarity_call_is_skipped_witness :
  fst (Sim.http (GetTmdbSimilar (endpoint_of "Movie") 200) Demo.server) = Answer 404 [] /\
  similar_step Sim.Server Sim.http Sim.py_int Demo.cfg Demo.movie_library ∅ "Movie"
    Demo.working Demo.the_wire Demo.server
  = (Ok Demo.working, Demo.server,
     [Ev (GetTmdbSimilar "movie" 200) (Answer 404 [])]).
Proof.
  split; [reflexivity|].
  apply (failed_similarity_call_is_skipped Sim.Server Sim.http Sim.py_int Demo.cfg
           Demo.movie_library ∅ "Movie" Demo.working Demo.the_wire "200" 200 Demo.server).
  - reflexivity.
  - reflexivity.
  - intros body. discriminate.
Defined.

Lemma get_similar_returns_witness :
  0 <= max_similar_per_item Demo.cfg_two /\
  exists similar,
    result_of (get_similar Sim.Server Sim.http Demo.cfg_two 100 "Movie" Demo.server)
      = Ok similar /\
    Z.of_nat (length similar) <= max_similar_per_item Demo.cfg_two.
Proof.
  split; [simpl; lia|].
  destruct (get_similar_returns Sim.Server Sim.http Demo.cfg_two 100 "Movie" Demo.server)
    as (similar & Hres & Hlen & _); [simpl; lia|].
  exists similar. by split.
Defined.

(** Two library entries carry catalog identifier 1: the index keeps the
    later one. *)
Lemma library_index_last_wins_witness :
  exists lib,
    result_of (get_library_items Sim.Server Sim.http Sim.py_int "Movie"
                 Demo.server_two_copies) = Ok lib /\
    lib !! 1 = Some Demo.collateral_4k.
Proof.
  eexists. split; [vm_compute; reflexivity|].
  etransitivity.
  - apply (library_index_last_wins Sim.Server Sim.http Sim.py_int "Movie"
             Demo.server_two_copies (Demo.movies ++ [Demo.collateral_4k])
             Demo.server_two_copies).
    + reflexivity.
    + vm_compute. reflexivity.
  - reflexivity.
Defined.

Lemma unparsable_library_id_stops_run_witness :
  Sim.py_int "tt0113277" = None /\
  main Sim.Server Sim.http Sim.py_int Sim.py_float Demo.env Demo.server_odd_id
  = (SystemExit 1, Demo.server_odd_id,
     [Ev (GetLibraryItems "Movie") (Answer 200 (Demo.movies ++ [Demo.odd_item]))]).
Proof.
  split; [reflexivity|].
  eapply (unparsable_library_id_stops_run Sim.Server Sim.http Sim.py_int Sim.py_float
            Demo.env _ Demo.server_odd_id (Demo.movies ++ [Demo.odd_item])
            Demo.server_odd_id Demo.odd_item "tt0113277").
  - reflexivity.
  - reflexivity.
  - apply elem_of_app. right. by left.
  - reflexivity.
  - reflexivity.
Defined.

(** Two watched episodes of The Wire: one lookup. *)
Lemma series_looked_up_once_witness :
  result_of (fetch_watched Sim.Server Sim.http Demo.cfg "u1" Demo.server)
    = Ok (Demo.watched_movies, Demo.unique_series) /\
  series_requests (events_of (fetch_watched Sim.Server Sim.http Demo.cfg "u1" Demo.server))
    = ["s200"] /\
  NoDup (series_requests
           (events_of (fetch_watched Sim.Server Sim.http Demo.cfg "u1" Demo.server))).
Proof.
  split; [vm_compute; reflexivity|]. split; [vm_compute; reflexivity|].
  apply (series_looked_up_once Sim.Server Sim.http Demo.cfg "u1" Demo.server
           Demo.watched_movies Demo.unique_series).
  vm_compute. reflexivity.
Defined.

Lemma refused_history_is_empty_witness :
  process_user unit (Outage.http 503) Sim.py_int Demo.cfg Demo.alice
    Demo.movie_library Demo.series_library tt
  = (Ok tt, tt,
     [Ev (GetWatchedItems "u1" "Movie" 20) (Answer 503 []);
      Ev (GetWatchedItems "u1" "Episode" 20) (Answer 503 [])]).
Proof.
  apply (refused_history_is_empty unit (Outage.http 503) Sim.py_int Demo.cfg Demo.alice
           Demo.movie_library Demo.series_library tt 503 [] tt 503 [] tt).
  - reflexivity.
  - lia.
  - reflexivity.
  - lia.
Defined.

(** No playlist yet: one is created with the ranked identifiers. *)
Lemma update_playlist_creates_witness :
  let after := snd (Sim.http (PostPlaylists "u1" "Suggested For You"
                                (map sug_Id Demo.ranked)) Demo.server_no_playlist) in
  update_playlist Sim.Server Sim.http Demo.cfg "u1" "alice" Demo.ranked
    Demo.server_no_playlist
  = (Ok tt, after,
     [Ev (GetUserPlaylists "u1") (Answer 200 []);
      Ev (PostPlaylists "u1" "Suggested For You" ["sT"; "mA"; "mD"])
         (Answer 200 (Some "playlist-u1-Suggested For You"))]) /\
  Sim.contents after "playlist-u1-Suggested For You" = ["sT"; "mA"; "mD"].
Proof.
  intros after. split; [|reflexivity].
  apply (update_playlist_creates Sim.Server Sim.http Demo.cfg "u1" "alice" Demo.ranked
           Demo.server_no_playlist 200 [] Demo.server_no_playlist
           200 (Some "playlist-u1-Suggested For You") after).
  - reflexivity.
  - right. reflexivity.
  - reflexivity.
Defined.

(** The playlist is there and empty: nothing to clear, one append. *)
Lemma update_playlist_appends_only_witness :
  let after := snd (Sim.http (PostPlaylistItems "p1" "u1" (map sug_Id Demo.ranked))
                             Demo.server_empty_playlist) in
  update_playlist Sim.Server Sim.http Demo.cfg "u1" "alice" Demo.ranked
    Demo.server_empty_playlist
  = (Ok tt, after,
     [Ev (GetUserPlaylists "u1") (Answer 200 [Sim.playlist_item Demo.empty_playlist]);
      Ev (GetPlaylistItems "p1" "u1") (Answer 200 []);
      Ev (PostPlaylistItems "p1" "u1" ["sT"; "mA"; "mD"]) (Answer 204 tt)]) /\
  Sim.contents after "p1" = ["sT"; "mA"; "mD"].
Proof.
  intros after. split; [|reflexivity].
  apply (update_playlist_appends_only Sim.Server Sim.http Demo.cfg "u1" "alice" Demo.ranked
           Demo.server_empty_playlist Demo.server_empty_playlist
           Demo.server_empty_playlist after
           [Sim.playlist_item Demo.empty_playlist] (Sim.playlist_item Demo.empty_playlist)
           200 [] 204).
  - reflexivity.
  - reflexivity.
  - reflexivity.
  - right. reflexivity.
  - discriminate.
  - reflexivity.
Defined.

(** Three old entries, three new ones, clear and append accepted: the
    playlist holds the new ones. *)
Lemma update_playlist_replaces_witness :
  Sim.contents Demo.server "p1" = ["mA"; "mC"; "sU"] /\
  Sim.contents
    (world_of (update_playlist Sim.Server Sim.http Demo.cfg "u1" "alice" Demo.ranked
                 Demo.server)) "p1"
  = ["sT"; "mA"; "mD"].
Proof.
  split; [reflexivity|].
  pose (cleared := snd (Sim.http (DeletePlaylistItems "p1"
                                    (map PlaylistItemId (Sim.pl_entries Demo.old_playlist)))
                                 Demo.server)).
  pose (after := snd (Sim.http (PostPlaylistItems "p1" "u1" (map sug_Id Demo.ranked))
                               cleared)).
  assert (Sim.pl_entries Demo.old_playlist <> []) as Hcur by discriminate.
  assert (Demo.ranked <> []) as Hitems by discriminate.
  destruct (update_playlist_replaces Sim.Server Sim.http Sim.contents
              sim_accepted_clear_empties sim_append_adds
              Demo.cfg "u1" "alice" Demo.ranked
              Demo.server Demo.server Demo.server cleared after
              [Sim.playlist_item Demo.old_playlist] (Sim.playlist_item Demo.old_playlist)
              (Sim.pl_entries Demo.old_playlist)
              eq_refl eq_refl eq_refl Hcur Hitems eq_refl eq_refl)
    as [Hworld Hcontents].
  rewrite Hworld. exact Hcontents.
Defined.

(** The append of the sample run carries the identifiers of the three
    suggestions the aggregator returned for the history fetched for alice. *)
Lemma process_user_posts_ranked_list_witness :
  let e := Ev (PostPlaylistItems "p1" "u1" ["sT"; "mA"; "mD"]) (Answer 204 tt) in
  let fetched := fetch_watched Sim.Server Sim.http Demo.cfg "u1" Demo.server in
  e ∈ events_of (process_user Sim.Server Sim.http Sim.py_int Demo.cfg Demo.alice
                   Demo.movie_library Demo.series_library Demo.server) /\
  result_of fetched = Ok (Demo.watched_movies, Demo.unique_series) /\
  result_of (aggregate Sim.Server Sim.http Sim.py_int Demo.cfg
               Demo.watched_movies Demo.unique_series
               Demo.movie_library Demo.series_library (world_of fetched))
    = Ok Demo.ranked /\
  ["sT"; "mA"; "mD"] = map sug_Id Demo.ranked /\
  ["sT"; "mA"; "mD"] <> [] /\
  NoDup ["sT"; "mA"; "mD"] /\
  StronglySorted score_ge Demo.ranked /\
  (0 <= max_playlist_items Demo.cfg ->
   Z.of_nat (length ["sT"; "mA"; "mD"]) <= max_playlist_items Demo.cfg).
Proof.
  intros e fetched.
  assert (e ∈ events_of (process_user Sim.Server Sim.http Sim.py_int Demo.cfg Demo.alice
                           Demo.movie_library Demo.series_library Demo.server)) as He.
  { apply list_elem_of_In. vm_compute.
    repeat (first [left; reflexivity | right]). }
  split; [exact He|].
  destruct (process_user_posts_ranked_list Sim.Server Sim.http Sim.py_int Demo.cfg
              Demo.alice Demo.movie_library Demo.series_library Demo.server
              e ["sT"; "mA"; "mD"] He eq_refl)
    as (watched & out & Hwatched & Hout & Hids & Hne & Hnd & Hsorted & Hlen).
  assert (watched = (Demo.watched_movies, Demo.unique_series)) as ->.
  { vm_compute in Hwatched. injection Hwatched as <-. reflexivity. }
  assert (out = Demo.ranked) as ->.
  { vm_compute in Hout. injection Hout as <-. reflexivity. }
  split; [vm_compute; reflexivity|]. split; [vm_compute; reflexivity|].
  split; [exact Hids|]. split; [exact Hne|]. split; [exact Hnd|].
  split; [exact Hsorted|exact Hlen].
Defined.

Lemma aggregate_requests_bounded_witness :
  0 <= max_watched_items Demo.cfg /\
  Z.of_nat (length (events_of (aggregate Sim.Server Sim.http Sim.py_int Demo.cfg
                                 Demo.watched_movies Demo.unique_series
                                 Demo.movie_library Demo.series_library Demo.server)))
    <= 2 * max_watched_items Demo.cfg.
Proof.
  split; [simpl; lia|].
  apply (aggregate_requests_bounded Sim.Server Sim.http Sim.py_int Demo.cfg
           Demo.watched_movies Demo.unique_series
           Demo.movie_library Demo.series_library Demo.server).
  simpl. lia.
Defined.

(** With Heat alone watched, two suggestions are collected and the cap is
    three: both are returned, the better rated first. *)
Lemma aggregate_keeps_all_below_cap_witness :
  let working := [Demo.suggestion "mA" "Collateral" "Movie" (8 # 1);
                  Demo.suggestion "m101" "Ronin" "Movie" (9 # 1)] in
  result_of (collect_suggestions Sim.Server Sim.http Sim.py_int Demo.cfg
               [Demo.heat] [] Demo.movie_library Demo.series_library Demo.server)
    = Ok working /\
  Z.of_nat (length working) <= max_playlist_items Demo.cfg /\
  result_of (aggregate Sim.Server Sim.http Sim.py_int Demo.cfg
               [Demo.heat] [] Demo.movie_library Demo.series_library Demo.server)
    = Ok [Demo.suggestion "m101" "Ronin" "Movie" (9 # 1);
          Demo.suggestion "mA" "Collateral" "Movie" (8 # 1)].
Proof.
  intros working. split; [vm_compute; reflexivity|]. split; [simpl; lia|].
  apply (aggregate_keeps_all_below_cap Sim.Server Sim.http Sim.py_int Demo.cfg
           [Demo.heat] [] Demo.movie_library Demo.series_library Demo.server working).
  - vm_compute. reflexivity.
  - simpl. lia.
Defined.


(** Three users, bob's history holding a title whose identifier is
    "tt0113277": alice gets her playlist, the program ends with status 1
    on bob's history, carol is never asked about. *)
Lemma failing_user_stops_the_run_witness :
  let w := Demo.server_three_users in
  let r1 := get_library_items Sim.Server Sim.http Sim.py_int "Movie" w in
  let r2 := get_library_items Sim.Server Sim.http Sim.py_int "Series" (world_of r1) in
  let r3 := get_users Sim.Server Sim.http (world_of r2) in
  let r4 := for_each Sim.Server
              (fun _ u => process_user Sim.Server Sim.http Sim.py_int Demo.cfg_loaded u
                            Demo.movie_library Demo.series_library)
              [Demo.alice] tt (world_of r3) in
  let r5 := fetch_watched Sim.Server Sim.http Demo.cfg_loaded "u2" (world_of r4) in
  result_of r3 = Ok ([Demo.alice] ++ Demo.bob :: [Demo.carol]) /\
  result_of r5 = Ok ([Demo.heat; Demo.odd_item], []) /\
  Sim.py_int "tt0113277" = None /\
  main Sim.Server Sim.http Sim.py_int Sim.py_float Demo.env w
    = (SystemExit 1, world_of r5,
       events_of r1 ++ events_of r2 ++ events_of r3 ++ events_of r4 ++ events_of r5) /\
  Forall (fun e => is_write (ev_request e) = false) (events_of r5) /\
  map ev_request (events_of r4)
    = [GetWatchedItems "u1" "Movie" 20; GetWatchedItems "u1" "Episode" 20;
       GetItem "s200" "u1"; GetTmdbSimilar "movie" 100;
       GetTmdbSimilar "movie" 101; GetTmdbSimilar "tv" 200;
       GetUserPlaylists "u1"; GetPlaylistItems "p1" "u1";
       DeletePlaylistItems "p1" ["entry-mA"; "entry-mC"; "entry-sU"];
       PostPlaylistItems "p1" "u1" ["sT"; "mA"; "mD"; "sU"]] /\
  map ev_request (events_of r5)
    = [GetWatchedItems "u2" "Movie" 20; GetWatchedItems "u2" "Episode" 20].
Proof.
  intros w r1 r2 r3 r4 r5.
  split; [vm_compute; reflexivity|]. split; [vm_compute; reflexivity|].
  split; [reflexivity|].
  assert (Demo.odd_item ∈ [Demo.heat; Demo.odd_item] ++ []) as Hin.
  { apply list_elem_of_In. right. left. reflexivity. }
  destruct (failing_user_stops_the_run Sim.Server Sim.http Sim.py_int Sim.py_float
              Demo.env Demo.cfg_loaded w
              Demo.movie_library (world_of r1) (events_of r1)
              Demo.series_library (world_of r2) (events_of r2)
              [Demo.alice] Demo.bob [Demo.carol] (world_of r3) (events_of r3)
              (world_of r4) (events_of r4)
              ([Demo.heat; Demo.odd_item], []) (world_of r5) (events_of r5)
              Demo.odd_item "tt0113277"
              eq_refl eq_refl eq_refl eq_refl eq_refl eq_refl Hin eq_refl eq_refl)
    as [Hmain Hreads].
  split; [exact Hmain|]. split; [exact Hreads|].
  split; vm_compute; reflexivity.
Defined.
